(** * MiniURL: short-code generation, resolution and click accounting

    A shallow embedding of the backend of the MiniURL service:
    - [config/database.js]   the in-memory store ([InMemoryDatabase]),
    - [models/index.js]      the model adapters ([Url], [Click]),
    - [services/urlService]  the code generators and [generateShortCode],
    - [middleware/security]  [extractClientIp] and [validateShortCode],
    - [routes/urls], [routes/api]  the redirect, bulk-shorten and delete
      handlers.

    JavaScript strings are modelled as [string], one [ascii] per code unit
    (strings with a code unit above 255 are outside the model),
    timestamps as [Z] (milliseconds since the epoch, what [Date.getTime]
    returns), a [Map] keyed by numbers as an association list in insertion
    order, and the effects of a handler (store, clock, random source,
    console) as a state-and-exception monad over [World]. A value of
    [Math.random()] is carried as its numerator over [2^53], and its
    product with a string length is rounded as the double multiplication
    rounds it; a number read from a request body is a rational. *)

From Stdlib Require Import ZArith NArith List String Ascii Bool Lia.
From Stdlib Require Import DecimalString.
From Stdlib Require Import QArith Qround.
Import ListNotations.

Close Scope Q_scope.
Open Scope string_scope.

(** ** JavaScript strings *)

Module JsString.

Definition chars (s : string) : list ascii := list_ascii_of_string s.
Definition of_chars (l : list ascii) : string := string_of_list_ascii l.

(** [s.charAt(i)]: the one-character string at index [i], or the empty
    string when [i] is out of range. *)
Definition charAt (s : string) (i : Z) : string :=
  if (i <? 0)%Z then ""
  else match String.get (Z.to_nat i) s with
       | Some c => String c ""
       | None => ""
       end.

(** [s.replace(/[class]/g, '')]: drop every character of the class. *)
Definition remove_all (cls : ascii -> bool) (s : string) : string :=
  of_chars (filter (fun c => negb (cls c)) (chars s)).

(** [s.substring(0, n)] *)
Definition substring0 (n : nat) (s : string) : string :=
  String.substring 0 n s.

Definition forallb (p : ascii -> bool) (s : string) : bool :=
  List.forallb p (chars s).

Definition existsb (p : ascii -> bool) (s : string) : bool :=
  List.existsb p (chars s).

(** [hay.startsWith(needle)] *)
Definition startsWith (hay needle : string) : bool := String.prefix needle hay.

(** [hay.includes(needle)] *)
Fixpoint includes (hay needle : string) : bool :=
  startsWith hay needle
  || match hay with
     | EmptyString => false
     | String _ rest => includes rest needle
     end.

Definition between (lo hi : nat) (c : ascii) : bool :=
  let n := nat_of_ascii c in (lo <=? n)%nat && (n <=? hi)%nat.

Definition is_lower (c : ascii) : bool := between 97 122 c.
Definition is_upper (c : ascii) : bool := between 65 90 c.
Definition is_digit (c : ascii) : bool := between 48 57 c.
Definition is_alnum (c : ascii) : bool := is_lower c || is_upper c || is_digit c.

(** The capital letters of Latin-1 beyond ASCII: 192 to 222, the
    multiplication sign 215 apart. *)
Definition is_upper_latin1 (c : ascii) : bool :=
  between 192 222 c && negb (nat_of_ascii c =? 215)%nat.

Definition lower_char (c : ascii) : ascii :=
  if is_upper c || is_upper_latin1 c
  then ascii_of_nat (nat_of_ascii c + 32)
  else c.

(** [s.toLowerCase()] on code units below 256. *)
Definition toLowerCase (s : string) : string :=
  of_chars (map lower_char (chars s)).

(** The white space [trim] strips, among code units below 256: TAB to
    CR, the space and the no-break space. *)
Definition is_space (c : ascii) : bool :=
  let n := nat_of_ascii c in
  (n =? 32)%nat || ((9 <=? n)%nat && (n <=? 13)%nat) || (n =? 160)%nat.

Fixpoint drop_while (p : ascii -> bool) (l : list ascii) : list ascii :=
  match l with
  | [] => []
  | c :: r => if p c then drop_while p r else l
  end.

(** [s.trim()] *)
Definition trim (s : string) : string :=
  of_chars (rev (drop_while is_space (rev (drop_while is_space (chars s))))).

Fixpoint take_until (p : ascii -> bool) (l : list ascii) : list ascii :=
  match l with
  | [] => []
  | c :: r => if p c then [] else c :: take_until p r
  end.

(** [s.split(',')[0]] *)
Definition before_comma (s : string) : string :=
  of_chars (take_until (fun c => Ascii.eqb c ","%char) (chars s)).

(** Truthiness of a string that may be [undefined]/[null]: present and
    not empty. *)
Definition truthy (o : option string) : bool :=
  match o with
  | Some s => negb (String.eqb s "")
  | None => false
  end.

(** [a || b] on possibly-absent strings. *)
Definition or_else (a b : option string) : option string :=
  if truthy a then a else b.

(** Template-literal rendering of a value that may be [undefined]. *)
Definition render (o : option string) : string :=
  match o with Some s => s | None => "undefined" end.

End JsString.

(** ** [Map] with numeric keys

    A JavaScript [Map] iterates in insertion order; [set] on a key already
    present keeps its position. *)

Module JsMap.

Definition t (V : Type) : Type := list (nat * V).

Definition empty {V} : t V := [].

Fixpoint get {V} (m : t V) (k : nat) : option V :=
  match m with
  | [] => None
  | (k', v) :: r => if Nat.eqb k' k then Some v else get r k
  end.

Fixpoint set {V} (m : t V) (k : nat) (v : V) : t V :=
  match m with
  | [] => [(k, v)]
  | (k', v') :: r =>
      if Nat.eqb k' k then (k', v) :: r else (k', v') :: set r k v
  end.

Definition has {V} (m : t V) (k : nat) : bool :=
  match get m k with Some _ => true | None => false end.

(** [m.delete(k)] returns whether the key was present. *)
Definition delete {V} (m : t V) (k : nat) : bool * t V :=
  (has m k, filter (fun kv => negb (Nat.eqb (fst kv) k)) m).

Definition values {V} (m : t V) : list V := map snd m.

End JsMap.

(** ** Records of the store *)

Definition Timestamp : Type := Z.

Inductive DeviceType : Type := desktop | mobile | tablet | other.

Module UrlRecord.
Record t : Type := mk {
  id : nat;
  original_url : string;
  short_url : string;
  user_id : option nat;
  title : option string;
  description : option string;
  is_active : bool;
  expires_at : option Timestamp;
  click_count : nat;
  createdAt : Timestamp;
  updatedAt : Timestamp
}.

(** [url.click_count = n], every other field kept. *)
Definition with_click_count (u : t) (n : nat) : t :=
  mk (id u) (original_url u) (short_url u) (user_id u) (title u)
     (description u) (is_active u) (expires_at u) n (createdAt u)
     (updatedAt u).
End UrlRecord.

(** The object a route passes to [Url.create] / [createUrl]. A field that
    the caller leaves out is [None]. *)
Module UrlData.
Record t : Type := mk {
  original_url : string;
  short_url : string;
  user_id : option nat;
  title : option string;
  description : option string;
  is_active : option bool;
  expires_at : option Timestamp
}.
End UrlData.

Module ClickRecord.
Record t : Type := mk {
  id : nat;
  url_id : nat;
  ip_address : option string;
  user_agent : string;
  referer : option string;
  country : option string;
  city : option string;
  browser : option string;
  os : option string;
  device_type : DeviceType;
  createdAt : Timestamp
}.
End ClickRecord.

Module ClickData.
Record t : Type := mk {
  url_id : nat;
  ip_address : option string;
  user_agent : string;
  referer : option string;
  country : option string;
  city : option string;
  browser : option string;
  os : option string;
  device_type : DeviceType;
  date_time : Timestamp
}.
End ClickData.

(** The [updates] object handed to [updateUrl]: a property the caller
    leaves out is [None]; a nullable property set to [null] is
    [Some None]. *)
Module UrlUpdates.
Record t : Type := mk {
  id : option nat;
  original_url : option string;
  short_url : option string;
  user_id : option (option nat);
  title : option (option string);
  description : option (option string);
  is_active : option bool;
  expires_at : option (option Timestamp);
  click_count : option nat;
  createdAt : option Timestamp;
  updatedAt : option Timestamp
}.

(** [{}] *)
Definition none : t :=
  mk None None None None None None None None None None None.

(** [{ is_active: b }] *)
Definition only_is_active (b : bool) : t :=
  mk None None None None None None (Some b) None None None None.
End UrlUpdates.

(** ** The world a request handler runs in *)

Record Counters : Type := mkCounters {
  counter_urls : nat;
  counter_clicks : nat
}.

(** [InMemoryDatabase]: the [urls] and [clicks] maps and their id counters
    (the [users] map plays no part in shortening or resolution). *)
Record InMemoryDatabase : Type := mkDb {
  urls : JsMap.t UrlRecord.t;
  clicks : JsMap.t ClickRecord.t;
  counters : Counters
}.

Inductive JsError : Type :=
| Error (message : string)
| TypeError (message : string).

Inductive LogLine : Type :=
| LogWarn (message : string)
| LogError (label : string) (e : JsError).

(** The store methods a computation has invoked, oldest first. This is a
    ghost trace: no code reads it. *)
Inductive StoreCall : Type :=
| CallCreateUrl (short_url : string)
| CallFindUrlByShortCode (shortCode : string)
| CallFindUrlById (id : nat)
| CallDeleteUrl (id : nat)
| CallCreateClick (url_id : nat)
| CallFindClicksByUrlId (url_id : nat).

Record World : Type := mkWorld {
  db : InMemoryDatabase;
  ticks : nat;                  (* clock reads so far *)
  draws : nat;                  (* random draws so far *)
  console : list LogLine;       (* oldest first *)
  store_calls : list StoreCall
}.

(** What the handlers take from the platform: the clock, the random
    sources and the library functions whose results the code only passes
    on. [random i] is the numerator of the [i]-th [Math.random()] over
    [2^53]. *)
Class Runtime : Type := {
  clock : nat -> Timestamp;
  random : nat -> N;
  uuidv4 : nat -> string;
  md5_base64 : string -> string;
  float_toString : N -> string
}.

Inductive Result (A : Type) : Type :=
| Ok (a : A)
| Throw (e : JsError).
Arguments Ok {A} a.
Arguments Throw {A} e.

(** State that survives an exception, as in JavaScript. *)
Definition M (A : Type) : Type := World -> Result A * World.

Definition ret {A} (a : A) : M A := fun w => (Ok a, w).

Definition bind {A B} (m : M A) (k : A -> M B) : M B :=
  fun w => match m w with
           | (Ok a, w') => k a w'
           | (Throw e, w') => (Throw e, w')
           end.

Definition throw {A} (e : JsError) : M A := fun w => (Throw e, w).

(** [try { body } catch (e) { handler e }] *)
Definition try_catch {A} (body : M A) (handler : JsError -> M A) : M A :=
  fun w => match body w with
           | (Ok a, w') => (Ok a, w')
           | (Throw e, w') => handler e w'
           end.

Declare Scope js_scope.
Delimit Scope js_scope with js.
Notation "x <- m ;; k" := (bind m (fun x => k))
  (at level 61, m at next level, right associativity) : js_scope.
Notation "m ;;; k" := (bind m (fun _ => k))
  (at level 61, right associativity) : js_scope.
Open Scope js_scope.

Definition get_db : M InMemoryDatabase := fun w => (Ok (db w), w).

Definition put_db (d : InMemoryDatabase) : M unit :=
  fun w => (Ok tt, mkWorld d (ticks w) (draws w) (console w) (store_calls w)).

Definition record_call (c : StoreCall) : M unit :=
  fun w => (Ok tt, mkWorld (db w) (ticks w) (draws w) (console w)
                           (store_calls w ++ [c])).

Definition console_warn (msg : string) : M unit :=
  fun w => (Ok tt, mkWorld (db w) (ticks w) (draws w)
                           (console w ++ [LogWarn msg]) (store_calls w)).

Definition console_error (label : string) (e : JsError) : M unit :=
  fun w => (Ok tt, mkWorld (db w) (ticks w) (draws w)
                           (console w ++ [LogError label e]) (store_calls w)).

Section Platform.
Context {RT : Runtime}.

(** [new Date()] / [Date.now()] *)
Definition new_Date : M Timestamp :=
  fun w => (Ok (clock (ticks w)),
            mkWorld (db w) (S (ticks w)) (draws w) (console w) (store_calls w)).

(** [Math.random()], as its numerator over [2^53]: a value in [0, 1). *)
Definition Math_random : M N :=
  fun w => (Ok (random (draws w) mod 2 ^ 53)%N,
            mkWorld (db w) (ticks w) (S (draws w)) (console w) (store_calls w)).

(** [uuidv4()] draws from the random source as well. *)
Definition uuid_v4 : M string :=
  fun w => (Ok (uuidv4 (draws w)),
            mkWorld (db w) (ticks w) (S (draws w)) (console w) (store_calls w)).
End Platform.

(** The double nearest to [p / 2^53], as its numerator over [2^53]. A
    double carries 53 significant bits: a numerator below [2^53] is kept,
    a longer one gives up its [e] lowest bits and is rounded to the
    nearest multiple of [2^e], a tie going to the even one. *)
Definition round_to_double (p : N) : N :=
  if (p <? 2 ^ 53)%N then p
  else
    let e := (N.log2 p - 52)%N in
    let q := (p / 2 ^ e)%N in
    let rest := (p mod 2 ^ e)%N in
    let half := (2 ^ (e - 1))%N in
    let up := (half <? rest)%N || ((rest =? half)%N && N.odd q) in
    ((if up then q + 1 else q) * 2 ^ e)%N.

(** [Math.floor(r * n)] for [r] the numerator of a value in [0, 1) and [n]
    a length: both are doubles, their product is the double nearest to
    the exact one, and [Math.floor] takes the integer part of that. *)
Definition floor_mul (r : N) (n : nat) : Z :=
  Z.of_N (round_to_double (r * N.of_nat n) / 2 ^ 53).

(** A value used as a [Map] key or in a [where] clause: route parameters
    arrive as strings, stored ids are numbers. *)
Inductive Key : Type :=
| KNum (n : nat)
| KStr (s : string).

Definition key_truthy (k : Key) : bool :=
  match k with
  | KNum n => negb (Nat.eqb n 0)
  | KStr s => negb (String.eqb s "")
  end.

(** ** config/database.js *)

Module Database.
Section Methods.
Context {RT : Runtime}.

(** [x || null] on an optional number: [0] is falsy. *)
Definition nat_or_null (o : option nat) : option nat :=
  match o with
  | Some 0 => None
  | _ => o
  end.

(** [x || null] on an optional string: the empty string is falsy. *)
Definition string_or_null (o : option string) : option string :=
  if JsString.truthy o then o else None.

(** [x !== false] *)
Definition not_false (o : option bool) : bool :=
  match o with
  | Some false => false
  | _ => true
  end.

Definition set_counter_urls (n : nat) : M unit :=
  d <- get_db ;;
  put_db (mkDb (urls d) (clicks d) (mkCounters n (counter_clicks (counters d)))).

Definition set_counter_clicks (n : nat) : M unit :=
  d <- get_db ;;
  put_db (mkDb (urls d) (clicks d) (mkCounters (counter_urls (counters d)) n)).

Definition urls_set (k : nat) (u : UrlRecord.t) : M unit :=
  d <- get_db ;;
  put_db (mkDb (JsMap.set (urls d) k u) (clicks d) (counters d)).

Definition clicks_set (k : nat) (c : ClickRecord.t) : M unit :=
  d <- get_db ;;
  put_db (mkDb (urls d) (JsMap.set (clicks d) k c) (counters d)).

Definition createUrl (urlData : UrlData.t) : M UrlRecord.t :=
  record_call (CallCreateUrl (UrlData.short_url urlData)) ;;;
  d <- get_db ;;
  let id := counter_urls (counters d) in
  set_counter_urls (S id) ;;;
  created <- new_Date ;;
  updated <- new_Date ;;
  let url :=
    UrlRecord.mk id
      (UrlData.original_url urlData)
      (UrlData.short_url urlData)
      (nat_or_null (UrlData.user_id urlData))
      (string_or_null (UrlData.title urlData))
      (string_or_null (UrlData.description urlData))
      (not_false (UrlData.is_active urlData))
      (UrlData.expires_at urlData)
      0
      created
      updated in
  urls_set id url ;;;
  ret url.

(** The first record, in insertion order, whose [short_url] is the code. *)
Definition lookup_short_code (d : InMemoryDatabase) (shortCode : string)
  : option UrlRecord.t :=
  find (fun u => String.eqb (UrlRecord.short_url u) shortCode)
       (JsMap.values (urls d)).

Definition findUrlByShortCode (shortCode : string) : M (option UrlRecord.t) :=
  record_call (CallFindUrlByShortCode shortCode) ;;;
  d <- get_db ;;
  ret (lookup_short_code d shortCode).

(** [this.urls.get(id) || null]: a string never equals a numeric key. *)
Definition lookup_id (d : InMemoryDatabase) (id : Key) : option UrlRecord.t :=
  match id with
  | KNum n => JsMap.get (urls d) n
  | KStr _ => None
  end.

Definition key_trace (id : Key) : nat :=
  match id with KNum n => n | KStr _ => 0 end.

Definition findUrlById (id : Key) : M (option UrlRecord.t) :=
  record_call (CallFindUrlById (key_trace id)) ;;;
  d <- get_db ;;
  ret (lookup_id d id).

(** [this.urls.delete(id)] and nothing else. *)
Definition deleteUrl (id : Key) : M bool :=
  record_call (CallDeleteUrl (key_trace id)) ;;;
  d <- get_db ;;
  match id with
  | KNum n =>
      let (present, urls') := JsMap.delete (urls d) n in
      put_db (mkDb urls' (clicks d) (counters d)) ;;;
      ret present
  | KStr _ => ret false
  end.

Definition createClick (clickData : ClickData.t) : M ClickRecord.t :=
  record_call (CallCreateClick (ClickData.url_id clickData)) ;;;
  d <- get_db ;;
  let id := counter_clicks (counters d) in
  set_counter_clicks (S id) ;;;
  created <- new_Date ;;
  let click :=
    ClickRecord.mk id
      (ClickData.url_id clickData)
      (ClickData.ip_address clickData)
      (ClickData.user_agent clickData)
      (ClickData.referer clickData)
      (ClickData.country clickData)
      (ClickData.city clickData)
      (ClickData.browser clickData)
      (ClickData.os clickData)
      (ClickData.device_type clickData)
      created in
  clicks_set id click ;;;
  (* Update click count for URL *)
  d' <- get_db ;;
  match JsMap.get (urls d') (ClickData.url_id clickData) with
  | Some url =>
      urls_set (ClickData.url_id clickData)
        (UrlRecord.with_click_count url (UrlRecord.click_count url + 1)) ;;;
      ret click
  | None => ret click
  end.

Definition clicks_of (d : InMemoryDatabase) (urlId : nat) : list ClickRecord.t :=
  filter (fun c => Nat.eqb (ClickRecord.url_id c) urlId)
         (JsMap.values (clicks d)).

Definition findClicksByUrlId (urlId : nat) : M (list ClickRecord.t) :=
  record_call (CallFindClicksByUrlId urlId) ;;;
  d <- get_db ;;
  ret (clicks_of d urlId).

(** One property of [Object.assign(target, source)]: the source's value
    when the source has the property. *)
Definition assigned {A} (target : A) (source : option A) : A :=
  match source with
  | Some a => a
  | None => target
  end.

(** [Object.assign(url, updates, { updatedAt })] *)
Definition assign (url : UrlRecord.t) (updates : UrlUpdates.t)
    (updatedAt : Timestamp) : UrlRecord.t :=
  UrlRecord.mk
    (assigned (UrlRecord.id url) (UrlUpdates.id updates))
    (assigned (UrlRecord.original_url url) (UrlUpdates.original_url updates))
    (assigned (UrlRecord.short_url url) (UrlUpdates.short_url updates))
    (assigned (UrlRecord.user_id url) (UrlUpdates.user_id updates))
    (assigned (UrlRecord.title url) (UrlUpdates.title updates))
    (assigned (UrlRecord.description url) (UrlUpdates.description updates))
    (assigned (UrlRecord.is_active url) (UrlUpdates.is_active updates))
    (assigned (UrlRecord.expires_at url) (UrlUpdates.expires_at updates))
    (assigned (UrlRecord.click_count url) (UrlUpdates.click_count updates))
    (assigned (UrlRecord.createdAt url) (UrlUpdates.createdAt updates))
    updatedAt.

(** [updateUrl(id, updates)]; the ghost trace has no entry for it. *)
Definition updateUrl (id : Key) (updates : UrlUpdates.t)
  : M (option UrlRecord.t) :=
  d <- get_db ;;
  match id with
  | KNum n =>
      match JsMap.get (urls d) n with
      | None => ret None
      | Some url =>
          updatedAt <- new_Date ;;
          let url' := assign url updates updatedAt in
          urls_set n url' ;;;
          ret (Some url')
      end
  | KStr _ => ret None
  end.

(** [getAllUrls()] *)
Definition getAllUrls : M (list UrlRecord.t) :=
  d <- get_db ;;
  ret (JsMap.values (urls d)).

End Methods.
End Database.

(** ** models/index.js *)

(** [{ where: { short_url, id } }]; a key the caller leaves out is [None]. *)
Record WhereClause : Type := mkWhere {
  where_short_url : option string;
  where_id : option Key;
  where_url_id : option Key
}.

Record FindOptions : Type := mkOptions {
  where_ : option WhereClause
}.

(** [{ where: { short_url: shortCode } }], [shortCode] possibly
    [undefined]. *)
Definition where_short_url_is (shortCode : option string) : FindOptions :=
  mkOptions (Some (mkWhere shortCode None None)).

Definition by_short_url (shortCode : string) : FindOptions :=
  where_short_url_is (Some shortCode).

Definition by_id (id : Key) : FindOptions :=
  mkOptions (Some (mkWhere None (Some id) None)).

Definition by_url_id (id : Key) : FindOptions :=
  mkOptions (Some (mkWhere None None (Some id))).

(** The [sequelize] namespace some routes reach through a model. *)
Inductive Sequelize : Type := SequelizeNamespace.

(** What the routes use of the [Url] model. A member the adapter object
    does not define is [None]; [Url_instance_destroy] is the [destroy]
    method of a record that [findOne] returned. *)
Record UrlModel : Type := mkUrlModel {
  Url_create : UrlData.t -> M UrlRecord.t;
  Url_findOne : FindOptions -> M (option UrlRecord.t);
  Url_findByPk : Key -> M (option UrlRecord.t);
  Url_destroy : FindOptions -> M bool;
  Url_sequelize : option Sequelize;
  Url_instance_destroy : option (UrlRecord.t -> M unit)
}.

(** What the routes use of the [Click] model. *)
Record ClickModel : Type := mkClickModel {
  Click_create : ClickData.t -> M ClickRecord.t;
  Click_destroy : option (FindOptions -> M nat)
}.

Module Models.
Section Adapters.
Context {RT : Runtime}.

Definition Url_findOne_adapter (options : FindOptions) : M (option UrlRecord.t) :=
  match where_ options with
  | Some w =>
      if JsString.truthy (where_short_url w) then
        Database.findUrlByShortCode (JsString.render (where_short_url w))
      else
        match where_id w with
        | Some k =>
            if key_truthy k then Database.findUrlById k else ret None
        | None => ret None
        end
  | None => ret None
  end.

Definition Url_destroy_adapter (options : FindOptions) : M bool :=
  match where_ options with
  | Some w =>
      match where_id w with
      | Some k => if key_truthy k then Database.deleteUrl k else ret false
      | None => ret false
      end
  | None => ret false
  end.

(** The [Url] adapter: [create], [findOne], [findByPk], [findAll],
    [update], [destroy]; it has no [sequelize] member, and the records it
    returns are the plain objects of the store, with no methods. *)
Definition Url : UrlModel :=
  mkUrlModel Database.createUrl Url_findOne_adapter Database.findUrlById
             Url_destroy_adapter None None.

(** The [Click] adapter: [create], [findAll], [getClicksByPeriod],
    [getTopReferrers]; it has no [destroy] member. *)
Definition Click : ClickModel :=
  mkClickModel Database.createClick None.

End Adapters.
End Models.

(** ** services/urlService.js *)

(** The [options] object of [customAlgorithm]; a property the caller leaves
    out is [None], and [other_keys] counts the properties the function does
    not read. [length] is taken as it arrives, without a check: it is the
    number the loop test compares [i] with, a whole number or not (4.5 is
    [9 # 2]), positive or not; [null] compares as [0]. An infinite
    [length], with which the loop does not come to an end, is outside the
    model. A flag is carried by its truthiness, the only thing
    [if (flag)] reads. *)
Module CustomOptions.
Record t : Type := mk {
  length : option Q;
  includeNumbers : option bool;
  includeUppercase : option bool;
  includeLowercase : option bool;
  excludeSimilar : option bool;
  other_keys : nat
}.

Definition present {A} (o : option A) : nat :=
  match o with Some _ => 1 | None => 0 end.

(** [Object.keys(options).length] *)
Definition keys_length (o : t) : nat :=
  present (length o) + present (includeNumbers o) + present (includeUppercase o)
  + present (includeLowercase o) + present (excludeSimilar o) + other_keys o.
End CustomOptions.

Module UrlService.

Definition maxAttempts : nat := 10.

Definition exhausted_message : string :=
  "Unable to generate unique short code after maximum attempts".

Definition lowercase_letters : string := "abcdefghijklmnopqrstuvwxyz".
Definition uppercase_letters : string := "ABCDEFGHIJKLMNOPQRSTUVWXYZ".
Definition digits : string := "0123456789".

(** The class [[0oO1lI]]. *)
Definition is_similar (c : ascii) : bool :=
  existsb (Ascii.eqb c) (JsString.chars "0oO1lI").

(** A destructuring default: used when the property is absent. *)
Definition default {A} (d : A) (o : option A) : A :=
  match o with Some a => a | None => d end.

(** The alphabet [customAlgorithm] draws from. *)
Definition alphabet (includeNumbers includeUppercase includeLowercase
                     excludeSimilar : bool) : string :=
  let chars := "" in
  let chars := if includeLowercase then chars ++ lowercase_letters else chars in
  let chars := if includeUppercase then chars ++ uppercase_letters else chars in
  let chars := if includeNumbers then chars ++ digits else chars in
  if excludeSimilar then JsString.remove_all is_similar chars else chars.

Section Service.
Context {RT : Runtime}.

Definition generateHashCode (originalUrl : string) : M string :=
  now <- new_Date ;;
  let timestamp := NilZero.string_of_int (Z.to_int now) in
  r <- Math_random ;;
  let combined := originalUrl ++ timestamp ++ float_toString r in
  ret (JsString.substring0 6
         (JsString.remove_all (fun c => negb (JsString.is_alnum c))
            (md5_base64 combined))).

Definition generateUuidCode : M string :=
  u <- uuid_v4 ;;
  ret (JsString.substring0 8
         (JsString.remove_all (fun c => Ascii.eqb c "-"%char) u)).

Definition custom_chars : string :=
  lowercase_letters ++ uppercase_letters ++ digits.

(** The body of [for (let i = 0; i < 7; i++)], [n] iterations to go. *)
Fixpoint generateCustomCode_loop (n : nat) (base : Z) (result : string)
  : M string :=
  match n with
  | 0 => ret result
  | S n' =>
      r <- Math_random ;;
      let len := String.length custom_chars in
      let index := Z.rem (base + floor_mul r len) (Z.of_nat len) in
      generateCustomCode_loop n' base (result ++ JsString.charAt custom_chars index)
  end.

Definition generateCustomCode : M string :=
  timestamp <- new_Date ;;
  let base := Z.rem timestamp 1000000 in
  generateCustomCode_loop 7 base "".

(** The [switch (algorithm.toLowerCase())]. *)
Definition generate_candidate (algorithm originalUrl : string) : M string :=
  let a := JsString.toLowerCase algorithm in
  if String.eqb a "hash" then generateHashCode originalUrl
  else if String.eqb a "uuid" then generateUuidCode
  else if String.eqb a "custom" then generateCustomCode
  else generateHashCode originalUrl.

(** [while (attempts < maxAttempts)], with [remaining = maxAttempts -
    attempts] iterations to go. *)
Fixpoint generateShortCode_loop (Url : UrlModel) (remaining : nat)
    (algorithm originalUrl : string) : M string :=
  match remaining with
  | 0 => throw (Error exhausted_message)
  | S remaining' =>
      shortCode <- generate_candidate algorithm originalUrl ;;
      (* Check if the code is unique *)
      existingUrl <- Url_findOne Url (by_short_url shortCode) ;;
      match existingUrl with
      | None => ret shortCode
      | Some _ => generateShortCode_loop Url remaining' algorithm originalUrl
      end
  end.

Definition generateShortCode (algorithm originalUrl : string) : M string :=
  generateShortCode_loop Models.Url maxAttempts algorithm originalUrl.

Definition normalizeUrl (url : string) : string :=
  if negb (JsString.startsWith url "http://")
     && negb (JsString.startsWith url "https://")
  then "https://" ++ url
  else url.

Definition isExpired (urlRecord : UrlRecord.t) : M bool :=
  match UrlRecord.expires_at urlRecord with
  | None => ret false
  | Some expires_at =>
      now <- new_Date ;;
      ret (expires_at <? now)%Z
  end.

(** How often the body of [for (let i = 0; i < length; i++)] runs: once
    for each of [i = 0, 1, 2, ...] below [length]. *)
Definition iterations (length : Q) : nat := Z.to_nat (Qceiling length).

(** The body of [for (let i = 0; i < length; i++)], [n] iterations to go. *)
Fixpoint customAlgorithm_loop (n : nat) (chars result : string) : M string :=
  match n with
  | 0 => ret result
  | S n' =>
      r <- Math_random ;;
      customAlgorithm_loop n' chars
        (result ++ JsString.charAt chars (floor_mul r (String.length chars)))
  end.

Definition customAlgorithm (options : CustomOptions.t) : M string :=
  let length := default 7%Q (CustomOptions.length options) in
  let includeNumbers := default true (CustomOptions.includeNumbers options) in
  let includeUppercase := default true (CustomOptions.includeUppercase options) in
  let includeLowercase := default true (CustomOptions.includeLowercase options) in
  let excludeSimilar := default true (CustomOptions.excludeSimilar options) in
  let chars :=
    alphabet includeNumbers includeUppercase includeLowercase excludeSimilar in
  customAlgorithm_loop (iterations length) chars "".

(** [isValidUrl(url)]; [protocol_of url] is [new URL(url).protocol], or
    [None] when the constructor throws. *)
Definition isValidUrl (protocol_of : string -> option string) (url : string)
  : bool :=
  match protocol_of url with
  | Some protocol =>
      String.eqb protocol "http:" || String.eqb protocol "https:"
  | None => false
  end.

End Service.
End UrlService.

(** ** Requests and responses *)

Record Headers : Type := mkHeaders {
  x_forwarded_for : option string;
  x_real_ip : option string;
  user_agent : option string;
  referer : option string;
  referrer : option string
}.

Record User : Type := mkUser {
  user_ident : nat;
  user_is_admin : bool
}.

Record Request : Type := mkRequest {
  params_shortCode : option string;
  params_id : string;
  headers : Headers;
  connection_remoteAddress : option string;
  socket_remoteAddress : option string;
  clientIp : option string;
  user : option User
}.

Definition set_clientIp (req : Request) (ip : option string) : Request :=
  mkRequest (params_shortCode req) (params_id req) (headers req)
            (connection_remoteAddress req) (socket_remoteAddress req) ip
            (user req).

Inductive Response : Type :=
| Json (status : nat) (error : string) (message : string)
| JsonMessage (status : nat) (message : string)
| Redirect (status : nat) (location : string).

Definition status_of (r : Response) : nat :=
  match r with
  | Json s _ _ => s
  | JsonMessage s _ => s
  | Redirect s _ => s
  end.

(** A middleware either answers the request or calls [next()]. *)
Inductive Middleware : Type :=
| Respond (r : Response)
| Next (req : Request).

(** ** middleware/security.js *)

Module Security.

Definition extractClientIp (req : Request) : M Middleware :=
  let forwarded := x_forwarded_for (headers req) in
  let realIp := x_real_ip (headers req) in
  let ip :=
    if JsString.truthy forwarded
    then Some (JsString.trim (JsString.before_comma (JsString.render forwarded)))
    else JsString.or_else realIp
           (JsString.or_else (connection_remoteAddress req)
                             (socket_remoteAddress req)) in
  ret (Next (set_clientIp req ip)).

(** The class [[a-zA-Z0-9_-]]. *)
Definition is_code_char (c : ascii) : bool :=
  JsString.is_alnum c || Ascii.eqb c "_"%char || Ascii.eqb c "-"%char.

(** [/^[a-zA-Z0-9_-]{1,20}$/.test(shortCode)] *)
Definition validShortCodeRegex (shortCode : string) : bool :=
  (1 <=? String.length shortCode)%nat
  && (String.length shortCode <=? 20)%nat
  && JsString.forallb is_code_char shortCode.

Definition is_hex (c : ascii) : bool :=
  JsString.is_digit c || JsString.between 97 102 c || JsString.between 65 70 c.

(** [/%[0-9a-f]{2}/i.test(s)] *)
Fixpoint has_url_encoding (l : list ascii) : bool :=
  match l with
  | c :: ((h1 :: h2 :: _) as r) =>
      (Ascii.eqb c "%"%char && is_hex h1 && is_hex h2) || has_url_encoding r
  | _ => false
  end.

Definition double_quote : ascii := ascii_of_nat 34.

(** The class of the XSS pattern: less-than, greater-than, single quote,
    double quote and ampersand. *)
Definition is_xss_char (c : ascii) : bool :=
  Ascii.eqb c "<"%char || Ascii.eqb c ">"%char || Ascii.eqb c "'"%char
  || Ascii.eqb c double_quote || Ascii.eqb c "&"%char.

Definition maliciousPatterns : list (string -> bool) :=
  [ (fun s => JsString.includes s "..");                            (* Path traversal *)
    (fun s => has_url_encoding (JsString.chars s));                 (* URL encoding *)
    (fun s => JsString.existsb is_xss_char s);                      (* XSS characters *)
    (fun s => JsString.existsb (Ascii.eqb zero) s);                 (* Null bytes *)
    (fun s => JsString.existsb (Ascii.eqb (ascii_of_nat 92)) s);    (* Backslashes *)
    (fun s => JsString.existsb (Ascii.eqb "/"%char) s) ].           (* Forward slashes *)

Definition invalid_url (message : string) : Response :=
  Json 400 "Invalid URL" message.

Definition blocked_message (shortCode : string) (ip : option string) : string :=
  "Blocked malicious shortCode attempt: " ++ shortCode ++ " from IP: "
  ++ JsString.render ip.

(** [for (const pattern of maliciousPatterns)] *)
Fixpoint check_patterns (patterns : list (string -> bool)) (req : Request)
    (shortCode : string) : M Middleware :=
  match patterns with
  | [] => ret (Next req)
  | pattern :: rest =>
      if pattern shortCode then
        console_warn (blocked_message shortCode (clientIp req)) ;;;
        ret (Respond (invalid_url "Short code contains invalid characters"))
      else check_patterns rest req shortCode
  end.

Definition validateShortCode (req : Request) : M Middleware :=
  try_catch
    (if negb (JsString.truthy (params_shortCode req)) then
       ret (Respond (invalid_url "Short code is required"))
     else
       let shortCode := JsString.render (params_shortCode req) in
       if negb (validShortCodeRegex shortCode) then
         ret (Respond (invalid_url
           "Invalid short code format. Only alphanumeric characters, hyphens, and underscores are allowed."))
       else check_patterns maliciousPatterns req shortCode)
    (fun error =>
       console_error "ShortCode validation error:" error ;;;
       ret (Respond (invalid_url "Failed to process URL parameter"))).

(** The class of [sanitizeParams]: code units 0 to 31 and 127 to 159. *)
Definition is_control (c : ascii) : bool :=
  JsString.between 0 31 c || JsString.between 127 159 c.

(** [value.includes('..') || value.includes('%') || value.length > 100] *)
Definition suspicious (value : string) : bool :=
  JsString.includes value ".."
  || JsString.includes value "%"
  || (100 <? String.length value)%nat.

(** What [sanitizeParams] does with the request: an answer, or [next()]
    with the rewritten [req.params]. *)
Inductive Sanitized : Type :=
| Rejected (r : Response)
| Passed (params : list (string * string)).

Definition suspicious_message (key value : string) (ip : option string)
  : string :=
  "Blocked suspicious parameter " ++ key ++ ": " ++ value ++ " from IP: "
  ++ JsString.render ip.

(** [for (const [key, value] of Object.entries(req.params))]; [done]
    holds the entries already rewritten. Route parameters are strings. *)
Fixpoint sanitize_loop (entries done : list (string * string))
    (ip : option string) : M Sanitized :=
  match entries with
  | [] => ret (Passed done)
  | (key, value) :: rest =>
      (* Remove null bytes and control characters *)
      let cleaned := JsString.remove_all is_control value in
      (* Check for suspicious patterns *)
      if suspicious value then
        console_warn (suspicious_message key value ip) ;;;
        ret (Rejected (Json 400 "Invalid request"
                         "Request parameters contain invalid data"))
      else sanitize_loop rest (done ++ [(key, cleaned)]) ip
  end.

Definition sanitizeParams (params : list (string * string))
    (ip : option string) : M Sanitized :=
  try_catch
    (sanitize_loop params [] ip)
    (fun error =>
       console_error "Parameter sanitization error:" error ;;;
       ret (Rejected (Json 400 "Invalid request"
                        "Failed to process request parameters"))).

End Security.

(** ** routes/urls.js and routes/api.js *)

Module Routes.

(** Reading a member of [undefined] throws a [TypeError], and so does
    calling a member that is not there. *)
Definition member {A} (o : option A) (name : string) : M A :=
  match o with
  | Some a => ret a
  | None => throw (TypeError name)
  end.

Section Handlers.
Context {RT : Runtime}.

(** *** GET /:shortCode *)

(** Basic device detection *)
Definition detect_device (userAgent : string) : DeviceType :=
  if JsString.includes userAgent "Mobile" then mobile
  else if JsString.includes userAgent "Tablet" then tablet
  else if JsString.includes userAgent "Desktop"
          || JsString.includes userAgent "Windows"
          || JsString.includes userAgent "Mac" then desktop
  else other.

(** The click-tracking block: its own [try]/[catch]. *)
Definition track_click (Click : ClickModel) (req : Request)
    (url : UrlRecord.t) : M unit :=
  try_catch
    (let userAgent :=
       JsString.render (JsString.or_else (user_agent (headers req)) (Some "")) in
     let referer :=
       JsString.or_else (referer (headers req))
         (JsString.or_else (referrer (headers req)) None) in
     let deviceType := detect_device userAgent in
     date_time <- new_Date ;;
     Click_create Click
       (ClickData.mk (UrlRecord.id url) (clientIp req) userAgent referer
                     None None None None deviceType date_time) ;;;
     ret tt)
    (fun analyticsError =>
       (* Don't fail the redirect if analytics fails *)
       console_error "Analytics tracking error:" analyticsError).

(** [url] is the stored object itself; the one write to a link on this
    path is the [click_count] update inside [createClick], a field the
    handler does not read afterwards, so [url] is carried as a value. *)
Definition redirect_handler (Click : ClickModel) (req : Request) : M Response :=
  try_catch
    (let shortCode := params_shortCode req in
     (* Find URL by short code *)
     found <- Url_findOne Models.Url (where_short_url_is shortCode) ;;
     match found with
     | None =>
         ret (Json 404 "URL not found"
                "The shortened URL you requested does not exist")
     | Some url =>
         (* Check if URL is active *)
         if negb (UrlRecord.is_active url) then
           ret (Json 410 "URL disabled" "This shortened URL has been disabled")
         else
           (* Check if URL is expired *)
           expired <- UrlService.isExpired url ;;
           if expired then
             ret (Json 410 "URL expired" "This shortened URL has expired")
           else
             (* Track click analytics *)
             track_click Click req url ;;;
             (* Redirect to original URL *)
             ret (Redirect 301 (UrlRecord.original_url url))
     end)
    (fun error =>
       console_error "URL redirect error:" error ;;;
       ret (Json 500 "Redirect failed"
              "An error occurred while processing the redirect")).

(** [router.get('/:shortCode', extractClientIp, validateShortCode, handler)] *)
Definition get_shortCode (Click : ClickModel) (req : Request) : M Response :=
  m1 <- Security.extractClientIp req ;;
  match m1 with
  | Respond r => ret r
  | Next req1 =>
      m2 <- Security.validateShortCode req1 ;;
      match m2 with
      | Respond r => ret r
      | Next req2 => redirect_handler Click req2
      end
  end.

(** *** POST /v1/shorten/bulk: one element of [urls] *)

(** [while (attempts < bound)] of the custom-options branch, with
    [remaining = bound - attempts]; it yields the last [shortCode] and
    [attempts]. *)
Fixpoint ensure_unique (remaining attempts : nat)
    (custom_options : CustomOptions.t) (shortCode : string)
  : M (string * nat) :=
  match remaining with
  | 0 => ret (shortCode, attempts)
  | S remaining' =>
      existingUrl <- Url_findOne Models.Url (by_short_url shortCode) ;;
      match existingUrl with
      | None => ret (shortCode, attempts)
      | Some _ =>
          shortCode' <- UrlService.customAlgorithm custom_options ;;
          ensure_unique remaining' (attempts + 1) custom_options shortCode'
      end
  end.

Record BulkItem : Type := mkBulkItem {
  item_original_url : option string;
  item_title : option string;
  item_description : option string;
  item_expires_at : option Timestamp
}.

Inductive ItemResult : Type :=
| ItemSuccess (url : UrlRecord.t)
| ItemFailure (code : string) (message : string).

Definition bulk_attempts : nat := 5.

(** The block under [// Generate short code]: a code to store, or the
    failure pushed before [continue]. *)
Definition bulk_generate (algorithm : string) (custom_options : CustomOptions.t)
    (normalizedUrl : string) : M (string + ItemResult) :=
  if String.eqb algorithm "custom"
     && (0 <? CustomOptions.keys_length custom_options)%nat
  then
    shortCode <- UrlService.customAlgorithm custom_options ;;
    (* Ensure uniqueness *)
    r <- ensure_unique bulk_attempts 0 custom_options shortCode ;;
    let (shortCode', attempts) := r in
    if (bulk_attempts <=? attempts)%nat then
      ret (inr (ItemFailure "GENERATION_FAILED"
                            "Unable to generate unique short code"))
    else ret (inl shortCode')
  else
    shortCode <- UrlService.generateShortCode algorithm normalizedUrl ;;
    ret (inl shortCode).

(** The body of [for (const urlData of urls)] once the URL has passed
    [normalizeUrl] and [isValidUrl], inside the loop's [try]/[catch]. *)
Definition bulk_item (algorithm : string) (custom_options : CustomOptions.t)
    (req : Request) (urlData : BulkItem) (normalizedUrl : string)
  : M ItemResult :=
  try_catch
    (g <- bulk_generate algorithm custom_options normalizedUrl ;;
     match g with
     | inr failure => ret failure
     | inl shortCode =>
         (* Create URL record *)
         url <- Url_create Models.Url
                  (UrlData.mk normalizedUrl shortCode
                     (option_map user_ident (user req))
                     (Database.string_or_null (item_title urlData))
                     (Database.string_or_null (item_description urlData))
                     None
                     (item_expires_at urlData)) ;;
         ret (ItemSuccess url)
     end)
    (fun error =>
       ret (ItemFailure "PROCESSING_ERROR" "Error processing this URL")).

(** *** DELETE /:id

    The handler behind [authenticateToken]: [req.user] is set. *)

Definition delete_handler (Url : UrlModel) (Click : ClickModel)
    (req : Request) : M Response :=
  try_catch
    (let id := params_id req in
     (* Find URL and verify ownership: the where clause is keyed by
        Url.sequelize.Sequelize.Op.or *)
     member (Url_sequelize Url) "sequelize" ;;;
     found <- Url_findOne Url (by_id (KStr id)) ;;
     match found with
     | None =>
         ret (Json 404 "URL not found"
                "URL not found or you do not have permission to delete it")
     | Some url =>
         (* Delete associated clicks first *)
         destroy <- member (Click_destroy Click) "destroy" ;;
         destroy (by_url_id (KStr id)) ;;;
         (* Delete URL *)
         url_destroy <- member (Url_instance_destroy Url) "destroy" ;;
         url_destroy url ;;;
         ret (JsonMessage 200 "URL deleted successfully")
     end)
    (fun error =>
       console_error "URL deletion error:" error ;;;
       ret (Json 500 "URL deletion failed"
              "An error occurred while deleting the URL")).

(** *** POST /shorten

    The handler behind the rate limiter, [optionalAuth] and the
    [validateUrl] rules; [expires_at] arrives as the date it denotes. *)

Record ShortenBody : Type := mkShortenBody {
  body_original_url : string;
  body_title : option string;
  body_description : option string;
  body_expires_at : option Timestamp;
  body_algorithm : option string
}.

(** 201 with the created link and its full short URL, or another
    answer. *)
Inductive ShortenResponse : Type :=
| Created (url : UrlRecord.t) (full_short_url : string)
| NotCreated (r : Response).

Definition default_domain : string := "mini.cloudrakshak.com".

(** [process.env.APP_DOMAIN || 'mini.cloudrakshak.com'] *)
Definition domain_of (app_domain : option string) : string :=
  JsString.render (JsString.or_else app_domain (Some default_domain)).

Definition shorten_handler (protocol_of : string -> option string)
    (app_domain : option string) (req : Request) (body : ShortenBody)
  : M ShortenResponse :=
  try_catch
    (let algorithm := UrlService.default "hash" (body_algorithm body) in
     (* Normalize URL *)
     let normalizedUrl := UrlService.normalizeUrl (body_original_url body) in
     (* Validate URL *)
     if negb (UrlService.isValidUrl protocol_of normalizedUrl) then
       ret (NotCreated (Json 400 "Invalid URL"
                          "Please provide a valid HTTP or HTTPS URL"))
     else
       (* Generate short code *)
       shortCode <- UrlService.generateShortCode algorithm normalizedUrl ;;
       (* Create URL record *)
       url <- Url_create Models.Url
                (UrlData.mk normalizedUrl shortCode
                   (option_map user_ident (user req))
                   (Database.string_or_null (body_title body))
                   (Database.string_or_null (body_description body))
                   None
                   (body_expires_at body)) ;;
       let domain := domain_of app_domain in
       ret (Created url ("https://" ++ domain ++ "/" ++ UrlRecord.short_url url)))
    (fun error =>
       console_error "URL shortening error:" error ;;;
       ret (NotCreated (Json 500 "URL shortening failed"
                          "An error occurred while shortening the URL"))).

(** *** POST /v1/shorten: code generation *)

Definition v1_attempts : nat := 10.

(** The block under [// Generate short code based on algorithm]. *)
Definition v1_generate (algorithm : string) (custom_options : CustomOptions.t)
    (normalizedUrl : string) : M string :=
  if String.eqb algorithm "custom"
     && (0 <? CustomOptions.keys_length custom_options)%nat
  then
    (* Use custom algorithm with developer-specified options *)
    shortCode <- UrlService.customAlgorithm custom_options ;;
    (* Ensure uniqueness *)
    r <- ensure_unique v1_attempts 0 custom_options shortCode ;;
    let (shortCode', attempts) := r in
    if (v1_attempts <=? attempts)%nat then
      throw (Error "Unable to generate unique short code with custom options")
    else ret shortCode'
  else UrlService.generateShortCode algorithm normalizedUrl.

End Handlers.
End Routes.

(** ** Vocabulary of the statements *)

(** [Url.findOne({ where: { short_url: code } })] on store [d] reports a
    record: the code is truthy and some stored link carries it. *)
Definition taken (d : InMemoryDatabase) (code : string) : bool :=
  negb (String.eqb code "")
  && match Database.lookup_short_code d code with
     | Some _ => true
     | None => false
     end.

(** The codes that [n] rounds of generate-then-look-up produce from world
    [w], in order. *)
Fixpoint candidates {RT : Runtime} (gen : M string) (n : nat) (w : World)
  : list string :=
  match n with
  | 0 => []
  | S n' =>
      match gen w with
      | (Ok code, w1) =>
          code :: candidates gen n'
                    (snd (Url_findOne Models.Url (by_short_url code) w1))
      | (Throw _, _) => []
      end
  end.

(** Store [d] holds link record [u]. *)
Definition stored (d : InMemoryDatabase) (u : UrlRecord.t) : Prop :=
  In u (JsMap.values (urls d)).

(** No link record with short code [code] exists in store [d]. *)
Definition no_link_with_code (d : InMemoryDatabase) (code : string) : Prop :=
  forall u, stored d u -> UrlRecord.short_url u <> code.

(** No other link record of store [d] carries the short code of [u]. *)
Definition sole_link_with_its_code (d : InMemoryDatabase) (u : UrlRecord.t)
  : Prop :=
  forall v, stored d v -> UrlRecord.short_url v = UrlRecord.short_url u ->
            v = u.

(** The pure reading of [isExpired] at clock value [now]. *)
Definition expired_at (u : UrlRecord.t) (now : Timestamp) : bool :=
  match UrlRecord.expires_at u with
  | None => false
  | Some e => (e <? now)%Z
  end.

(** Every link is stored under its own id, and no id is stored twice: what
    [createUrl], [createClick] and [deleteUrl] maintain. *)
Definition wf_store (d : InMemoryDatabase) : Prop :=
  NoDup (map fst (urls d))
  /\ Forall (fun kv => fst kv = UrlRecord.id (snd kv)) (urls d).

(** The bulk route takes its own five-attempt loop exactly when the
    algorithm is the string custom and [custom_options] has a key. *)
Definition uses_custom_options (algorithm : string)
    (custom_options : CustomOptions.t) : bool :=
  String.eqb algorithm "custom"
  && (0 <? CustomOptions.keys_length custom_options)%nat.

(** The codes a bulk item looks up when none of them is free. *)
Definition bulk_candidates {RT : Runtime} (algorithm : string)
    (custom_options : CustomOptions.t) (normalizedUrl : string) (w : World)
  : list string :=
  if uses_custom_options algorithm custom_options
  then candidates (UrlService.customAlgorithm custom_options)
                  Routes.bulk_attempts w
  else candidates (UrlService.generate_candidate algorithm normalizedUrl)
                  UrlService.maxAttempts w.

Definition bulk_failure (algorithm : string)
    (custom_options : CustomOptions.t) : Routes.ItemResult :=
  if uses_custom_options algorithm custom_options
  then Routes.ItemFailure "GENERATION_FAILED"
                          "Unable to generate unique short code"
  else Routes.ItemFailure "PROCESSING_ERROR" "Error processing this URL".

(** *** Concrete inputs *)

(** A platform whose random sources always return the same value. *)
Definition fixed_runtime : Runtime :=
  {| clock := fun i => (1700000000000 + Z.of_nat i)%Z;
     random := fun _ => 0%N;
     uuidv4 := fun _ => "aaaaaaaa-bbbb-4ccc-8ddd-eeeeeeeeeeee";
     md5_base64 := fun _ => "rL0Y20zC+Fzt72VPzMSk2A==";
     float_toString := fun _ => "0.5" |}.

Definition empty_db : InMemoryDatabase := mkDb [] [] (mkCounters 1 1).

Definition world_of (d : InMemoryDatabase) : World := mkWorld d 0 0 [] [].

Definition link (id : nat) (target code : string)
    (active : bool) (expires : option Timestamp) : UrlRecord.t :=
  UrlRecord.mk id target code None None None active expires 0
               1600000000000%Z 1600000000000%Z.

Definition click_on (id url_id : nat) : ClickRecord.t :=
  ClickRecord.mk id url_id (Some "203.0.113.9") "Mozilla" None None None None
                 None other 1600000000001%Z.

Definition request_for (code : string) : Request :=
  mkRequest (Some code) ""
            (mkHeaders (Some "203.0.113.9, 10.0.0.1") None (Some "Mozilla")
                       None None)
            None None None None.

(** A [Click] model whose [create] always throws. *)
Definition failing_Click : ClickModel :=
  mkClickModel (fun _ => throw (Error "click store unavailable")) None.

(** The test [findUrlByShortCode] applies to each stored link. *)
Definition code_is (code : string) (u : UrlRecord.t) : bool :=
  String.eqb (UrlRecord.short_url u) code.

(** The world after one more store call has been traced. *)
Definition traced (w : World) (c : StoreCall) : World :=
  mkWorld (db w) (ticks w) (draws w) (console w) (store_calls w ++ [c]).

(** The address [extractClientIp] settles on. *)
Definition client_ip (req : Request) : option string :=
  if JsString.truthy (x_forwarded_for (headers req))
  then Some (JsString.trim
               (JsString.before_comma
                  (JsString.render (x_forwarded_for (headers req)))))
  else JsString.or_else (x_real_ip (headers req))
         (JsString.or_else (connection_remoteAddress req)
                           (socket_remoteAddress req)).

(** A store holding one active link that expired in 2001. *)
Definition expired_db : InMemoryDatabase :=
  mkDb [(1, link 1 "https://example.com/a" "abc123" true (Some 1000000000000%Z))]
       [] (mkCounters 2 1).

(** A store holding a link that has been switched off and, under another
    code, an active link that expired in 2001. *)
Definition retired_db : InMemoryDatabase :=
  mkDb [(1, link 1 "https://example.com/a" "abc123" false None);
        (2, link 2 "https://example.com/b" "old456" true
                 (Some 1000000000000%Z))]
       [] (mkCounters 3 1).

(** A store holding a link that never expires, a later link under the
    same code that expired in 2001, and a link that expired in 2001 whose
    code has a dot in it. *)
Definition expired_links_db : InMemoryDatabase :=
  mkDb [(1, link 1 "https://example.com/a" "abc123" true None);
        (2, link 2 "https://example.com/b" "abc123" true
                 (Some 1000000000000%Z));
        (3, link 3 "https://example.com/c" "my.link" true
                 (Some 1000000000000%Z))]
       [] (mkCounters 4 1).

(** A store holding one active link that never expires. *)
Definition live_db : InMemoryDatabase :=
  mkDb [(1, link 1 "https://example.com/a" "abc123" true None)]
       [] (mkCounters 2 1).

(** [w'] differs from [w] at most in how far the clock and the random
    source have been read. *)
Definition only_draws (w w' : World) : Prop :=
  db w' = db w /\ console w' = console w /\ store_calls w' = store_calls w.

(** A store holding one link and one click on it. *)
Definition clicked_db : InMemoryDatabase :=
  mkDb [(1, link 1 "https://example.com/a" "abc123" true None)]
       [(1, click_on 1 1)] (mkCounters 2 2).

(** The owner of a link asking for its deletion. *)
Definition delete_request (id : string) : Request :=
  mkRequest None id (mkHeaders None None None None None)
            (Some "203.0.113.9") None None (Some (mkUser 7 false)).

(** A store in which the code the fixed platform derives from a UUID is
    already taken. *)
Definition crowded_db : InMemoryDatabase :=
  mkDb [(1, link 1 "https://example.com/a" "aaaaaaaa" true None)]
       [] (mkCounters 2 1).

Definition no_options : CustomOptions.t :=
  CustomOptions.mk None None None None None 0.

Definition bulk_element (url : string) : Routes.BulkItem :=
  Routes.mkBulkItem (Some url) None None None.

(** [custom_options] asking for eight characters. *)
Definition eight_characters : CustomOptions.t :=
  CustomOptions.mk (Some 8%Q) None None None None 0.

(** [custom_options] that switch every character class off. *)
Definition no_classes : CustomOptions.t :=
  CustomOptions.mk (Some 7%Q) (Some false) (Some false) (Some false)
                   (Some true) 0.

(** The alphabet [customAlgorithm] builds from its options, defaults
    applied. *)
Definition alphabet_of (options : CustomOptions.t) : string :=
  UrlService.alphabet
    (UrlService.default true (CustomOptions.includeNumbers options))
    (UrlService.default true (CustomOptions.includeUppercase options))
    (UrlService.default true (CustomOptions.includeLowercase options))
    (UrlService.default true (CustomOptions.excludeSimilar options)).

(** The [length] that [customAlgorithm] works with, the default
    applied. *)
Definition requested_length (options : CustomOptions.t) : Q :=
  UrlService.default 7%Q (CustomOptions.length options).

(** [length] is the whole number [n]. *)
Definition whole_length (options : CustomOptions.t) (n : nat) : Prop :=
  (requested_length options == inject_Z (Z.of_nat n))%Q.

(** At least one of the three character classes is switched on. *)
Definition some_class (options : CustomOptions.t) : bool :=
  UrlService.default true (CustomOptions.includeNumbers options)
  || UrlService.default true (CustomOptions.includeUppercase options)
  || UrlService.default true (CustomOptions.includeLowercase options).

(** ** Vocabulary of the further properties *)

(** Every stored link has an id the counter has already passed: what
    [createUrl] relies on to hand out an unused id. *)
Definition ids_below_counter (d : InMemoryDatabase) : Prop :=
  Forall (fun kv => fst kv < counter_urls (counters d)) (urls d).

(** The same for clicks, and no click refers to a link id not yet
    handed out. *)
Definition clicks_below_counters (d : InMemoryDatabase) : Prop :=
  Forall (fun kv => fst kv < counter_clicks (counters d)) (clicks d)
  /\ Forall (fun c => ClickRecord.url_id c < counter_urls (counters d))
            (JsMap.values (clicks d)).

(** Each stored link counts exactly the stored clicks that refer to it. *)
Definition counts_agree (d : InMemoryDatabase) : Prop :=
  Forall (fun kv =>
            UrlRecord.click_count (snd kv)
            = List.length (Database.clicks_of d (fst kv)))
         (urls d).

Definition consistent (d : InMemoryDatabase) : Prop :=
  wf_store d /\ ids_below_counter d /\ clicks_below_counters d
  /\ counts_agree d.

(** The worlds the routes can bring about from the empty store: links are
    created, clicks are recorded on stored links, links are deleted. *)
Inductive reachable {RT : Runtime} : World -> Prop :=
| reach_empty (w : World) :
    db w = empty_db -> reachable w
| reach_createUrl (w : World) (urlData : UrlData.t) :
    reachable w -> reachable (snd (Database.createUrl urlData w))
| reach_createClick (w : World) (clickData : ClickData.t) :
    reachable w ->
    JsMap.has (urls (db w)) (ClickData.url_id clickData) = true ->
    reachable (snd (Database.createClick clickData w))
| reach_deleteUrl (w : World) (id : nat) :
    reachable w -> reachable (snd (Database.deleteUrl (KNum id) w)).

(** The click a resolution of link [u] records for request [req]. *)
Definition click_of_request (req : Request) (u : UrlRecord.t) (id : nat)
    (createdAt : Timestamp) : ClickRecord.t :=
  let userAgent :=
    JsString.render (JsString.or_else (user_agent (headers req)) (Some "")) in
  ClickRecord.mk id (UrlRecord.id u) (client_ip req) userAgent
    (JsString.or_else (referer (headers req))
       (JsString.or_else (referrer (headers req)) None))
    None None None None (Routes.detect_device userAgent) createdAt.

(** A URL parser that knows the two web schemes by their prefix. *)
Definition prefix_protocol (url : string) : option string :=
  if JsString.startsWith url "https://" then Some "https:"
  else if JsString.startsWith url "http://" then Some "http:"
  else None.

Definition shorten_body (url : string) : Routes.ShortenBody :=
  Routes.mkShortenBody url None None None None.

(** The empty store after one link was created and resolved once. *)
Definition clicked_once_world : World :=
  snd (@Database.createClick fixed_runtime
         (ClickData.mk 1 (Some "203.0.113.9") "Mozilla" None None None None
                       None other 0%Z)
         (snd (@Database.createUrl fixed_runtime
                 (UrlData.mk "https://example.com/a" "abc123" None None None
                             None None)
                 (world_of empty_db)))).

(** A store holding one link that has been switched off. *)
Definition disabled_db : InMemoryDatabase :=
  mkDb [(1, link 1 "https://example.com/a" "abc123" false None)]
       [] (mkCounters 2 1).

(** The link and the world that shortening [example.com/a/b/c] on the
    fixed platform leaves behind. *)
Definition shortened_link : UrlRecord.t :=
  UrlRecord.mk 1 "https://example.com/a/b/c" "rL0Y20" None None None true
               None 0 1700000000001%Z 1700000000002%Z.

Definition shortened_world : World :=
  snd (@Routes.shorten_handler fixed_runtime prefix_protocol None
         (request_for "unused") (shorten_body "example.com/a/b/c")
         (world_of empty_db)).

(** What [sanitizeParams] hands on for a parameter it lets through. *)
Definition clean_value (value : string) : string :=
  JsString.remove_all Security.is_control value.

(** No control character, no percent sign, at most 100 characters. *)
Definition safe_value (value : string) : bool :=
  negb (JsString.existsb Security.is_control value)
  && negb (JsString.existsb (Ascii.eqb "%"%char) value)
  && (String.length value <=? 100)%nat.
(** * Properties *)

(** ** Short-code syntax *)

Lemma code_char_is_harmless (c : ascii) :
  Security.is_code_char c = true ->
  "."%char <> c
  /\ Ascii.eqb c "%"%char = false
  /\ Security.is_xss_char c = false
  /\ Ascii.eqb zero c = false
  /\ Ascii.eqb (ascii_of_nat 92) c = false
  /\ Ascii.eqb "/"%char c = false.
Proof.
  destruct c as [[] [] [] [] [] [] [] []]; vm_compute;
    intuition (discriminate || congruence).
Qed.

Lemma existsb_code_chars (p : ascii -> bool) (l : list ascii) :
  (forall c, Security.is_code_char c = true -> p c = false) ->
  List.forallb Security.is_code_char l = true ->
  List.existsb p l = false.
Proof.
  intros Hp. induction l as [|c l IH]; simpl; [reflexivity|].
  intros H. apply andb_prop in H as [Hc Hl].
  rewrite (Hp c Hc), (IH Hl). reflexivity.
Qed.

Lemma startsWith_other_char (a c : ascii) (needle s : string) :
  a <> c -> JsString.startsWith (String c s) (String a needle) = false.
Proof.
  intros Hne. unfold JsString.startsWith. cbn [String.prefix].
  destruct (ascii_dec a c) as [E|_]; [contradiction|reflexivity].
Qed.

Lemma includes_dotdot_code_chars (s : string) :
  JsString.forallb Security.is_code_char s = true ->
  JsString.includes s ".." = false.
Proof.
  unfold JsString.forallb, JsString.chars.
  induction s as [|c s IH]; [reflexivity|].
  cbn [list_ascii_of_string List.forallb JsString.includes].
  intros H. apply andb_prop in H as [Hc Hs].
  destruct (code_char_is_harmless c Hc) as [Hdot _].
  rewrite (startsWith_other_char "." c "." s Hdot).
  apply IH, Hs.
Qed.

Lemma url_encoding_code_chars (l : list ascii) :
  List.forallb Security.is_code_char l = true ->
  Security.has_url_encoding l = false.
Proof.
  induction l as [|c l IH]; [reflexivity|].
  intros H. simpl in H. apply andb_prop in H as [Hc Hl].
  destruct (code_char_is_harmless c Hc) as (_ & Hpct & _).
  destruct l as [|h1 [|h2 r]]; try reflexivity.
  change (Security.has_url_encoding (c :: h1 :: h2 :: r))
    with ((Ascii.eqb c "%"%char && Security.is_hex h1 && Security.is_hex h2)
          || Security.has_url_encoding (h1 :: h2 :: r)).
  rewrite Hpct. simpl. apply IH, Hl.
Qed.

(** A code that passes the strict pattern matches none of the attack
    patterns. *)
Lemma valid_code_matches_no_pattern (s : string) :
  Security.validShortCodeRegex s = true ->
  Forall (fun pattern => pattern s = false) Security.maliciousPatterns.
Proof.
  unfold Security.validShortCodeRegex. intros H.
  apply andb_prop in H as [_ H].
  pose proof H as Hl. unfold JsString.forallb, JsString.chars in Hl.
  unfold Security.maliciousPatterns.
  repeat apply Forall_cons; try apply Forall_nil;
    [ apply includes_dotdot_code_chars, H
    | apply url_encoding_code_chars, Hl
    | .. ];
    (apply existsb_code_chars; [|exact Hl]);
    intros c Hc; apply (code_char_is_harmless c Hc).
Qed.

Lemma check_patterns_none (patterns : list (string -> bool)) (req : Request)
    (s : string) (w : World) :
  Forall (fun pattern => pattern s = false) patterns ->
  Security.check_patterns patterns req s w = (Ok (Next req), w).
Proof.
  induction 1 as [|p ps Hp _ IH]; simpl; [reflexivity|].
  rewrite Hp. exact IH.
Qed.

Lemma valid_code_truthy (s : string) :
  Security.validShortCodeRegex s = true -> JsString.truthy (Some s) = true.
Proof.
  unfold Security.validShortCodeRegex. destruct s; simpl; [discriminate|reflexivity].
Qed.

(** [validateShortCode] on a well-formed code calls [next()] and touches
    nothing. *)
Lemma validateShortCode_accepts (req : Request) (code : string) (w : World) :
  params_shortCode req = Some code ->
  Security.validShortCodeRegex code = true ->
  Security.validateShortCode req w = (Ok (Next req), w).
Proof.
  intros Hp Hv. unfold Security.validateShortCode, try_catch.
  rewrite Hp, (valid_code_truthy _ Hv). cbn [negb JsString.render].
  rewrite Hv. cbn [negb].
  rewrite (check_patterns_none _ _ _ _ (valid_code_matches_no_pattern _ Hv)).
  reflexivity.
Qed.

(** The warning of the attack-pattern loop is unreachable: whatever the
    request, [validateShortCode] leaves the world, console included, as it
    found it. *)
Lemma validateShortCode_is_silent (req : Request) (w : World) :
  snd (Security.validateShortCode req w) = w.
Proof.
  unfold Security.validateShortCode, try_catch.
  destruct (JsString.truthy (params_shortCode req)); [|reflexivity].
  cbn [negb].
  destruct (Security.validShortCodeRegex _) eqn:Hv; [|reflexivity].
  cbn [negb].
  rewrite (check_patterns_none _ _ _ _ (valid_code_matches_no_pattern _ Hv)).
  reflexivity.
Qed.

(** ** The store *)

Lemma find_absent {A} (p : A -> bool) (l : list A) :
  (forall a, In a l -> p a = false) -> find p l = None.
Proof.
  induction l as [|a l IH]; simpl; intros H; [reflexivity|].
  rewrite (H a) by auto. apply IH. auto.
Qed.

(** A code no stored link carries is not found. *)
Lemma unknown_code_lookup (d : InMemoryDatabase) (code : string) :
  no_link_with_code d code -> Database.lookup_short_code d code = None.
Proof.
  intros Hno. unfold Database.lookup_short_code. apply find_absent.
  intros u Hu. apply String.eqb_neq, (Hno u Hu).
Qed.

(** A stored link that alone carries its code is the one the code is
    resolved to. *)
Lemma sole_link_lookup (d : InMemoryDatabase) (u : UrlRecord.t) :
  stored d u -> sole_link_with_its_code d u ->
  Database.lookup_short_code d (UrlRecord.short_url u) = Some u.
Proof.
  intros Hin Hsole. unfold Database.lookup_short_code.
  destruct (find _ (JsMap.values (urls d))) as [v|] eqn:Hfind.
  - apply find_some in Hfind as [Hv Hcode].
    apply String.eqb_eq in Hcode. rewrite (Hsole v Hv Hcode). reflexivity.
  - apply (find_none _ _ Hfind) in Hin. cbv beta in Hin.
    rewrite String.eqb_refl in Hin. discriminate.
Qed.

Section StoreFacts.
Context {RT : Runtime}.

Lemma findOne_by_code (code : string) (w : World) :
  JsString.truthy (Some code) = true ->
  Url_findOne Models.Url (by_short_url code) w
  = (Ok (Database.lookup_short_code (db w) code),
     traced w (CallFindUrlByShortCode code)).
Proof.
  intros Ht. cbn [Url_findOne Models.Url Models.Url_findOne_adapter
                  by_short_url where_short_url_is where_ where_short_url].
  rewrite Ht. reflexivity.
Qed.

Lemma taken_findOne (code : string) (w : World) :
  taken (db w) code = true ->
  exists u,
    Url_findOne Models.Url (by_short_url code) w
    = (Ok (Some u), traced w (CallFindUrlByShortCode code)).
Proof.
  unfold taken. intros H. apply andb_prop in H as [Hne Hsome].
  rewrite findOne_by_code by exact Hne.
  destruct (Database.lookup_short_code (db w) code) as [u|]; [|discriminate].
  exists u. reflexivity.
Qed.

End StoreFacts.

(** ** Resolution: GET /:shortCode *)

Section Resolution.
Context {RT : Runtime}.

(** A well-formed code passes both middlewares; the handler runs on the
    request with its client address filled in. *)
Lemma get_shortCode_valid (Click : ClickModel) (req : Request)
    (code : string) (w : World) :
  params_shortCode req = Some code ->
  Security.validShortCodeRegex code = true ->
  Routes.get_shortCode Click req w
  = Routes.redirect_handler Click (set_clientIp req (client_ip req)) w.
Proof.
  intros Hp Hv. unfold Routes.get_shortCode, bind.
  change (Security.extractClientIp req w)
    with (Ok (Next (set_clientIp req (client_ip req))), w).
  cbv iota beta.
  rewrite (validateShortCode_accepts _ code); [reflexivity|exact Hp|exact Hv].
Qed.

Lemma isExpired_run (u : UrlRecord.t) (w : World) :
  exists w',
    UrlService.isExpired u w = (Ok (expired_at u (clock (ticks w))), w')
    /\ db w' = db w
    /\ console w' = console w
    /\ ticks w' = match UrlRecord.expires_at u with
                  | Some _ => S (ticks w)
                  | None => ticks w
                  end.
Proof.
  unfold UrlService.isExpired, expired_at.
  destruct (UrlRecord.expires_at u) as [e|].
  - eexists. cbn. repeat split; reflexivity.
  - exists w. cbn. repeat split; reflexivity.
Qed.

(** Whatever [Click.create] does, the tracking block completes normally. *)
Lemma track_click_completes (Click : ClickModel) (req : Request)
    (u : UrlRecord.t) (w : World) :
  exists w', Routes.track_click Click req u w = (Ok tt, w').
Proof.
  unfold Routes.track_click, try_catch, bind, new_Date.
  match goal with
  | |- context [Click_create Click ?d ?w0] =>
      destruct (Click_create Click d w0) as [[c|e] w1]
  end; eexists; reflexivity.
Qed.

(** The handler's path up to the tracking block. *)
Lemma redirect_handler_live (Click : ClickModel) (req : Request)
    (code : string) (u : UrlRecord.t) (w : World) :
  params_shortCode req = Some code ->
  JsString.truthy (Some code) = true ->
  Database.lookup_short_code (db w) code = Some u ->
  UrlRecord.is_active u = true ->
  expired_at u (clock (ticks w)) = false ->
  exists w1,
    UrlService.isExpired u (traced w (CallFindUrlByShortCode code))
    = (Ok false, w1)
    /\ db w1 = db w
    /\ ticks w1 = match UrlRecord.expires_at u with
                  | Some _ => S (ticks w)
                  | None => ticks w
                  end
    /\ forall w2,
         Routes.track_click Click req u w1 = (Ok tt, w2) ->
         Routes.redirect_handler Click req w
         = (Ok (Redirect 301 (UrlRecord.original_url u)), w2).
Proof.
  intros Hp Ht Hl Ha He.
  destruct (isExpired_run u (traced w (CallFindUrlByShortCode code)))
    as (w1 & Hrun & Hdb & _ & Hticks).
  cbn [traced ticks db] in Hrun, Hdb, Hticks. rewrite He in Hrun.
  exists w1. repeat split; try assumption.
  intros w2 Htrack.
  unfold Routes.redirect_handler, try_catch, bind.
  rewrite Hp. fold (by_short_url code).
  rewrite (findOne_by_code code w Ht), Hl, Ha. cbn [negb].
  rewrite Hrun, Htrack. reflexivity.
Qed.

(** A live link is answered with the redirect whatever becomes of the
    click: no outcome of [Click.create] reaches the response. *)
Lemma live_code_redirects (Click : ClickModel) (req : Request)
    (code : string) (u : UrlRecord.t) (w : World) :
  params_shortCode req = Some code ->
  Security.validShortCodeRegex code = true ->
  Database.lookup_short_code (db w) code = Some u ->
  UrlRecord.is_active u = true ->
  expired_at u (clock (ticks w)) = false ->
  exists w',
    Routes.get_shortCode Click req w
    = (Ok (Redirect 301 (UrlRecord.original_url u)), w').
Proof.
  intros Hp Hv Hl Ha He.
  rewrite (get_shortCode_valid Click req code w Hp Hv).
  destruct (redirect_handler_live Click (set_clientIp req (client_ip req))
              code u w Hp (valid_code_truthy code Hv) Hl Ha He)
    as (w1 & _ & _ & _ & Hfinish).
  destruct (track_click_completes Click (set_clientIp req (client_ip req)) u w1)
    as (w2 & Htrack).
  exists w2. apply Hfinish, Htrack.
Qed.

End Resolution.

Section ResolutionClaims.
Context {RT : Runtime}.

(** C3. A well-formed short code for which the store holds no link
    record resolves to 404 Not Found, never 410, whatever the store holds
    under other codes: disabled links, expired links. The lookup is the
    first thing the handler does, and the answer follows it at once: the
    world afterwards is the one before with that one lookup traced, so
    the clock was not read and no expiry date compared. *)
Theorem resolve_unknown_code_is_not_found (Click : ClickModel) (req : Request)
    (code : string) (w : World) :
  params_shortCode req = Some code ->
  Security.validShortCodeRegex code = true ->
  no_link_with_code (db w) code ->
  Routes.get_shortCode Click req w
  = (Ok (Json 404 "URL not found"
           "The shortened URL you requested does not exist"),
     traced w (CallFindUrlByShortCode code)).
Proof.
  intros Hp Hv Hno.
  rewrite (get_shortCode_valid Click req code w Hp Hv).
  unfold Routes.redirect_handler, try_catch, bind.
  cbn [params_shortCode set_clientIp]. rewrite Hp. fold (by_short_url code).
  rewrite (findOne_by_code code w (valid_code_truthy code Hv)).
  rewrite (unknown_code_lookup (db w) code Hno).
  reflexivity.
Qed.

(** C4 (as the code has it). A stored link with a well-formed short code
    that no other stored link carries, and whose [expires_at] lies before
    the clock reading of the resolution, answers 410 Gone, whatever its
    active flag; when the link is active the answer is the expiry
    message. The store is left as it was. *)
Theorem resolve_expired_is_gone (Click : ClickModel) (req : Request)
    (u : UrlRecord.t) (e : Timestamp) (w : World) :
  stored (db w) u ->
  sole_link_with_its_code (db w) u ->
  Security.validShortCodeRegex (UrlRecord.short_url u) = true ->
  params_shortCode req = Some (UrlRecord.short_url u) ->
  UrlRecord.expires_at u = Some e ->
  (e < clock (ticks w))%Z ->
  exists r w',
    Routes.get_shortCode Click req w = (Ok r, w')
    /\ status_of r = 410
    /\ (UrlRecord.is_active u = true ->
        r = Json 410 "URL expired" "This shortened URL has expired")
    /\ db w' = db w.
Proof.
  intros Hin Hsole Hv Hp He Hpast.
  pose proof (sole_link_lookup (db w) u Hin Hsole) as Hl.
  set (code := UrlRecord.short_url u) in *.
  rewrite (get_shortCode_valid Click req code w Hp Hv).
  unfold Routes.redirect_handler, try_catch, bind.
  cbn [params_shortCode set_clientIp]. rewrite Hp. fold (by_short_url code).
  rewrite (findOne_by_code code w (valid_code_truthy code Hv)), Hl.
  destruct (UrlRecord.is_active u) eqn:Ha; cbn [negb].
  - destruct (isExpired_run u (traced w (CallFindUrlByShortCode code)))
      as (w1 & Hrun & Hdb & _).
    cbn [traced ticks db] in Hrun, Hdb.
    assert (Hx : expired_at u (clock (ticks w)) = true).
    { unfold expired_at. rewrite He. apply Z.ltb_lt, Hpast. }
    rewrite Hx in Hrun. rewrite Hrun.
    eexists; eexists. repeat split; try reflexivity. exact Hdb.
  - eexists; eexists. repeat split; try reflexivity. discriminate.
Qed.

(** C5. When [Click.create] throws, the resolution of a live link still
    answers the 301 redirect to the link's [original_url]; the failure only
    reaches the console. *)
Theorem click_failure_keeps_redirect (Click : ClickModel) (req : Request)
    (code : string) (u : UrlRecord.t) (err : JsError) (w : World) :
  params_shortCode req = Some code ->
  Security.validShortCodeRegex code = true ->
  Database.lookup_short_code (db w) code = Some u ->
  UrlRecord.is_active u = true ->
  expired_at u (clock (ticks w)) = false ->
  (forall data w0, fst (Click_create Click data w0) = Throw err) ->
  exists w',
    Routes.get_shortCode Click req w
    = (Ok (Redirect 301 (UrlRecord.original_url u)), w')
    /\ In (LogError "Analytics tracking error:" err) (console w').
Proof.
  intros Hp Hv Hl Ha He Hthrow.
  rewrite (get_shortCode_valid Click req code w Hp Hv).
  destruct (redirect_handler_live Click (set_clientIp req (client_ip req))
              code u w Hp (valid_code_truthy code Hv) Hl Ha He)
    as (w1 & _ & _ & _ & Hfinish).
  assert (Htrack : exists w2,
            Routes.track_click Click (set_clientIp req (client_ip req)) u w1
            = (Ok tt, w2)
            /\ In (LogError "Analytics tracking error:" err) (console w2)).
  { unfold Routes.track_click, try_catch, bind, new_Date.
    match goal with
    | |- context [Click_create Click ?d ?w0] =>
        pose proof (Hthrow d w0) as Hc;
        destruct (Click_create Click d w0) as [[c|e] w2]
    end; cbn [fst] in Hc; [discriminate|].
    injection Hc as ->. eexists. split; [reflexivity|].
    cbn [console_error console]. apply in_or_app. right. left. reflexivity. }
  destruct Htrack as (w2 & Htrack & Hlog).
  exists w2. split; [apply Hfinish, Htrack|exact Hlog].
Qed.

End ResolutionClaims.

Lemma resolve_unknown_code_witness :
  @Routes.get_shortCode fixed_runtime (@Models.Click fixed_runtime)
    (request_for "nosuch1") (world_of retired_db)
  = (Ok (Json 404 "URL not found"
           "The shortened URL you requested does not exist"),
     traced (world_of retired_db) (CallFindUrlByShortCode "nosuch1")).
Proof.
  apply (@resolve_unknown_code_is_not_found fixed_runtime
           (@Models.Click fixed_runtime) (request_for "nosuch1") "nosuch1"
           (world_of retired_db)).
  - reflexivity.
  - reflexivity.
  - intros u [<-|[<-|[]]]; discriminate.
Defined.

Lemma resolve_expired_witness :
  exists r w',
    @Routes.get_shortCode fixed_runtime (@Models.Click fixed_runtime)
      (request_for "old456") (world_of retired_db) = (Ok r, w')
    /\ status_of r = 410
    /\ (true = true ->
        r = Json 410 "URL expired" "This shortened URL has expired")
    /\ db w' = retired_db.
Proof.
  apply (@resolve_expired_is_gone fixed_runtime (@Models.Click fixed_runtime)
           (request_for "old456")
           (link 2 "https://example.com/b" "old456" true
                 (Some 1000000000000%Z))
           1000000000000%Z (world_of retired_db)).
  - right. left. reflexivity.
  - intros v [<-|[<-|[]]]; [discriminate|reflexivity].
  - reflexivity.
  - reflexivity.
  - reflexivity.
  - reflexivity.
Defined.

(** C4 (as the claim has it) fails. All three links of this store are
    active, and two of them expired in 2001, long before the clock
    reading. The code of the first expired link is also the code of an
    older link, which the lookup finds first: the answer is the older
    link's redirect. The code of the second has a dot in it and is turned
    away by the syntax check in front of the handler. *)
Lemma expired_links_not_gone :
  stored expired_links_db
    (link 2 "https://example.com/b" "abc123" true (Some 1000000000000%Z))
  /\ stored expired_links_db
       (link 3 "https://example.com/c" "my.link" true (Some 1000000000000%Z))
  /\ (1000000000000 <? @clock fixed_runtime 0)%Z = true
  /\ (exists w',
        @Routes.get_shortCode fixed_runtime (@Models.Click fixed_runtime)
          (request_for "abc123") (world_of expired_links_db)
        = (Ok (Redirect 301 "https://example.com/a"), w'))
  /\ @Routes.get_shortCode fixed_runtime (@Models.Click fixed_runtime)
       (request_for "my.link") (world_of expired_links_db)
     = (Ok (Json 400 "Invalid URL"
              "Invalid short code format. Only alphanumeric characters, hyphens, and underscores are allowed."),
        world_of expired_links_db).
Proof.
  split; [right; left; reflexivity|].
  split; [right; right; left; reflexivity|].
  split; [reflexivity|].
  split; [eexists|]; vm_compute; reflexivity.
Qed.

Lemma click_failure_witness :
  exists w',
    @Routes.get_shortCode fixed_runtime failing_Click
      (request_for "abc123") (world_of live_db)
    = (Ok (Redirect 301 "https://example.com/a"), w')
    /\ In (LogError "Analytics tracking error:"
                    (Error "click store unavailable")) (console w').
Proof.
  apply (@click_failure_keeps_redirect fixed_runtime failing_Click
           (request_for "abc123") "abc123"
           (link 1 "https://example.com/a" "abc123" true None)
           (Error "click store unavailable") (world_of live_db));
    try reflexivity.
Defined.

(** C7. On the path-traversal code [..] from address 203.0.113.9 the
    route answers 400 before any store call, and the final world is the
    initial one: the console holds no line for the rejection, neither the
    code nor the address. *)
Theorem traversal_code_rejected_unlogged {RT : Runtime} (Click : ClickModel)
    (w : World) :
  Routes.get_shortCode Click (request_for "..") w
  = (Ok (Json 400 "Invalid URL"
           "Invalid short code format. Only alphanumeric characters, hyphens, and underscores are allowed."),
     w)
  /\ client_ip (request_for "..") = Some "203.0.113.9".
Proof.
  split; reflexivity.
Qed.

(** A code that fails the strict pattern is answered 400 by the
    middleware: the handler is not entered, and the world, store trace and
    console included, is left as it was. *)
Lemma malformed_code_is_rejected {RT : Runtime} (Click : ClickModel)
    (req : Request) (code : string) (w : World) :
  params_shortCode req = Some code ->
  Security.validShortCodeRegex code = false ->
  exists message,
    Routes.get_shortCode Click req w = (Ok (Json 400 "Invalid URL" message), w).
Proof.
  intros Hp Hv. unfold Routes.get_shortCode, bind.
  change (Security.extractClientIp req w)
    with (Ok (Next (set_clientIp req (client_ip req))), w).
  cbv iota beta. unfold Security.validateShortCode, try_catch.
  cbn [params_shortCode set_clientIp]. rewrite Hp.
  destruct (JsString.truthy (Some code)); cbn [negb JsString.render].
  - rewrite Hv. eexists. reflexivity.
  - eexists. reflexivity.
Qed.

(** ** Facts about the [urls] map *)

Lemma get_in_keys {V} (m : JsMap.t V) (k : nat) (v : V) :
  JsMap.get m k = Some v -> In k (map fst m).
Proof.
  induction m as [|[k' v'] m IH]; simpl; [discriminate|].
  destruct (Nat.eqb k' k) eqn:E.
  - apply Nat.eqb_eq in E. auto.
  - auto.
Qed.

Lemma set_keeps_keys {V} (m : JsMap.t V) (k : nat) (v v' : V) :
  JsMap.get m k = Some v -> map fst (JsMap.set m k v') = map fst m.
Proof.
  induction m as [|[k0 v0] m IH]; simpl; [discriminate|].
  destruct (Nat.eqb k0 k); simpl; [reflexivity|].
  intros H. rewrite (IH H). reflexivity.
Qed.

Lemma set_keeps_ids (m : JsMap.t UrlRecord.t) (k : nat) (u' : UrlRecord.t) :
  k = UrlRecord.id u' ->
  Forall (fun kv => fst kv = UrlRecord.id (snd kv)) m ->
  Forall (fun kv => fst kv = UrlRecord.id (snd kv)) (JsMap.set m k u').
Proof.
  intros Hk. induction 1 as [|[k0 v0] m H0 Hm IH]; simpl.
  - constructor; [exact Hk|constructor].
  - destruct (Nat.eqb k0 k) eqn:E.
    + apply Nat.eqb_eq in E. constructor; [|assumption].
      simpl. congruence.
    + constructor; assumption.
Qed.

(** In a well-formed map the link found by its code sits under its own
    id, and overwriting it there is seen by the next lookup by code. *)
Lemma found_by_code_is_under_its_id (m : JsMap.t UrlRecord.t) (code : string)
    (u : UrlRecord.t) :
  NoDup (map fst m) ->
  Forall (fun kv => fst kv = UrlRecord.id (snd kv)) m ->
  find (code_is code) (JsMap.values m) = Some u ->
  JsMap.get m (UrlRecord.id u) = Some u
  /\ forall u',
       code_is code u' = true ->
       find (code_is code) (JsMap.values (JsMap.set m (UrlRecord.id u) u'))
       = Some u'.
Proof.
  unfold JsMap.values.
  induction m as [|[k v] m IH]; simpl; [discriminate|].
  intros Hnd Hid Hfind.
  apply NoDup_cons_iff in Hnd as [Hk Hnd].
  apply Forall_cons_iff in Hid as [Hkv Hid]. simpl in Hkv.
  destruct (code_is code v) eqn:Hc.
  - injection Hfind as <-. subst k. rewrite Nat.eqb_refl.
    split; [reflexivity|]. intros u' Hu'. simpl. rewrite Hu'. reflexivity.
  - destruct (IH Hnd Hid Hfind) as [Hget Hset].
    assert (Hne : Nat.eqb k (UrlRecord.id u) = false).
    { apply Nat.eqb_neq. intros ->. apply Hk.
      apply (get_in_keys _ _ _ Hget). }
    rewrite Hne. split; [exact Hget|].
    intros u' Hu'. simpl. rewrite Hc. apply Hset, Hu'.
Qed.

(** ** Click accounting *)

Section ClickAccounting.
Context {RT : Runtime}.

(** [createClick] never throws; it reads the clock once and bumps the
    [click_count] of the link stored under [url_id], if there is one. *)
Lemma createClick_run (data : ClickData.t) (w : World) :
  exists click w',
    Database.createClick data w = (Ok click, w')
    /\ urls (db w')
       = match JsMap.get (urls (db w)) (ClickData.url_id data) with
         | Some url =>
             JsMap.set (urls (db w)) (ClickData.url_id data)
               (UrlRecord.with_click_count url (UrlRecord.click_count url + 1))
         | None => urls (db w)
         end
    /\ ticks w' = S (ticks w).
Proof.
  destruct w as [[us cs [cu cc]] t dr co sc].
  cbv [Database.createClick bind record_call get_db
       Database.set_counter_clicks Database.clicks_set Database.urls_set
       new_Date put_db ret db urls clicks counters counter_clicks
       counter_urls ticks draws console store_calls].
  destruct (JsMap.get us (ClickData.url_id data)) as [url|];
    eexists; eexists; repeat split; reflexivity.
Qed.

Lemma track_click_in_memory (req : Request) (u : UrlRecord.t) (w : World) :
  exists w',
    Routes.track_click Models.Click req u w = (Ok tt, w')
    /\ urls (db w')
       = match JsMap.get (urls (db w)) (UrlRecord.id u) with
         | Some url =>
             JsMap.set (urls (db w)) (UrlRecord.id u)
               (UrlRecord.with_click_count url (UrlRecord.click_count url + 1))
         | None => urls (db w)
         end
    /\ ticks w' = S (S (ticks w)).
Proof.
  unfold Routes.track_click, try_catch, bind, new_Date.
  cbn [Click_create Models.Click].
  match goal with
  | |- context [Database.createClick ?d ?w0] =>
      destruct (createClick_run d w0) as (click & w' & Hrun & Hurls & Hticks);
      rewrite Hrun
  end.
  exists w'. split; [reflexivity|]. split; assumption.
Qed.

(** One resolution of a live link in a well-formed store: the redirect is
    answered, and the stored link differs from before in [click_count]
    alone, which has grown by one. *)
Lemma resolve_live_once (req : Request) (code : string) (u : UrlRecord.t)
    (w : World) :
  params_shortCode req = Some code ->
  Security.validShortCodeRegex code = true ->
  wf_store (db w) ->
  Database.lookup_short_code (db w) code = Some u ->
  UrlRecord.is_active u = true ->
  expired_at u (clock (ticks w)) = false ->
  exists w1,
    Routes.get_shortCode Models.Click req w
    = (Ok (Redirect 301 (UrlRecord.original_url u)), w1)
    /\ wf_store (db w1)
    /\ Database.lookup_short_code (db w1) code
       = Some (UrlRecord.with_click_count u (UrlRecord.click_count u + 1))
    /\ ticks w1 = match UrlRecord.expires_at u with
                  | Some _ => ticks w + 3
                  | None => ticks w + 2
                  end.
Proof.
  intros Hp Hv [Hnd Hid] Hl Ha He.
  rewrite (get_shortCode_valid Models.Click req code w Hp Hv).
  destruct (redirect_handler_live Models.Click
              (set_clientIp req (client_ip req)) code u w Hp
              (valid_code_truthy code Hv) Hl Ha He)
    as (w1 & _ & Hdb1 & Hticks1 & Hfinish).
  destruct (track_click_in_memory (set_clientIp req (client_ip req)) u w1)
    as (w2 & Htrack & Hurls & Hticks2).
  exists w2. split; [apply Hfinish, Htrack|].
  rewrite Hdb1 in Hurls.
  destruct (found_by_code_is_under_its_id (urls (db w)) code u Hnd Hid Hl)
    as [Hget Hset].
  rewrite Hget in Hurls.
  assert (Hcode : code_is code
            (UrlRecord.with_click_count u (UrlRecord.click_count u + 1))
          = true).
  { apply find_some in Hl. apply Hl. }
  repeat split.
  - rewrite Hurls, (set_keeps_keys _ _ _ _ Hget). exact Hnd.
  - rewrite Hurls. apply set_keeps_ids; [reflexivity|exact Hid].
  - unfold Database.lookup_short_code. rewrite Hurls. apply Hset, Hcode.
  - rewrite Hticks2, Hticks1. destruct (UrlRecord.expires_at u); lia.
Qed.

(** C6 (as the code has it). Resolving a live code twice against the
    in-memory store answers the same 301 redirect to the link's
    [original_url] both times, and leaves the stored link as it was in
    every field but [click_count], which each resolution increments: after
    the two it has grown by two. *)
Theorem resolving_twice_only_counts_clicks (req : Request) (code : string)
    (u : UrlRecord.t) (w : World) :
  params_shortCode req = Some code ->
  Security.validShortCodeRegex code = true ->
  wf_store (db w) ->
  Database.lookup_short_code (db w) code = Some u ->
  UrlRecord.is_active u = true ->
  expired_at u (clock (ticks w)) = false ->
  expired_at u (clock (ticks w + 3)) = false ->
  exists w1 w2,
    Routes.get_shortCode Models.Click req w
    = (Ok (Redirect 301 (UrlRecord.original_url u)), w1)
    /\ Routes.get_shortCode Models.Click req w1
       = (Ok (Redirect 301 (UrlRecord.original_url u)), w2)
    /\ Database.lookup_short_code (db w2) code
       = Some (UrlRecord.with_click_count u (UrlRecord.click_count u + 2)).
Proof.
  intros Hp Hv Hwf Hl Ha He1 He2.
  destruct (resolve_live_once req code u w Hp Hv Hwf Hl Ha He1)
    as (w1 & Hr1 & Hwf1 & Hl1 & Hticks1).
  set (u1 := UrlRecord.with_click_count u (UrlRecord.click_count u + 1)) in *.
  assert (He1' : expired_at u1 (clock (ticks w1)) = false).
  { unfold expired_at in *. cbn [u1 UrlRecord.with_click_count UrlRecord.expires_at].
    rewrite Hticks1. destruct (UrlRecord.expires_at u); [exact He2|reflexivity]. }
  destruct (resolve_live_once req code u1 w1 Hp Hv Hwf1 Hl1 Ha He1')
    as (w2 & Hr2 & _ & Hl2 & _).
  exists w1, w2. repeat split; [exact Hr1|exact Hr2|].
  rewrite Hl2. unfold u1, UrlRecord.with_click_count.
  cbn [UrlRecord.id UrlRecord.original_url UrlRecord.short_url
       UrlRecord.user_id UrlRecord.title UrlRecord.description
       UrlRecord.is_active UrlRecord.expires_at UrlRecord.click_count
       UrlRecord.createdAt UrlRecord.updatedAt].
  do 2 f_equal. lia.
Qed.

End ClickAccounting.

Lemma resolving_twice_witness :
  exists w1 w2,
    @Routes.get_shortCode fixed_runtime (@Models.Click fixed_runtime)
      (request_for "abc123") (world_of live_db)
    = (Ok (Redirect 301 "https://example.com/a"), w1)
    /\ @Routes.get_shortCode fixed_runtime (@Models.Click fixed_runtime)
         (request_for "abc123") w1
       = (Ok (Redirect 301 "https://example.com/a"), w2)
    /\ Database.lookup_short_code (db w2) "abc123"
       = Some (UrlRecord.with_click_count
                 (link 1 "https://example.com/a" "abc123" true None) 2).
Proof.
  apply (@resolving_twice_only_counts_clicks fixed_runtime
           (request_for "abc123") "abc123"
           (link 1 "https://example.com/a" "abc123" true None)
           (world_of live_db)); try reflexivity.
  split; cbn.
  - repeat constructor. intros [].
  - repeat constructor.
Defined.

(** C6 (as the claim has it) fails: one resolution of a live link already
    changes the stored record, whose [click_count] goes from 0 to 1. *)
Lemma resolution_mutates_click_count :
  exists w1,
    @Routes.get_shortCode fixed_runtime (@Models.Click fixed_runtime)
      (request_for "abc123") (world_of live_db)
    = (Ok (Redirect 301 "https://example.com/a"), w1)
    /\ option_map UrlRecord.click_count
         (Database.lookup_short_code live_db "abc123") = Some 0
    /\ option_map UrlRecord.click_count
         (Database.lookup_short_code (db w1) "abc123") = Some 1.
Proof.
  eexists. split; [vm_compute; reflexivity|].
  split; vm_compute; reflexivity.
Qed.

(** ** The store's insert and delete *)

(** [createUrl] has no failing path: it answers with a fresh record
    carrying the requested code, whatever the store already holds. *)
Lemma createUrl_never_rejects {RT : Runtime} (urlData : UrlData.t) (w : World) :
  exists u w',
    Database.createUrl urlData w = (Ok u, w')
    /\ UrlRecord.short_url u = UrlData.short_url urlData
    /\ urls (db w')
       = JsMap.set (urls (db w)) (counter_urls (counters (db w))) u.
Proof.
  destruct w as [[us cs [cu cc]] t dr co sc].
  eexists; eexists. split; [cbv; reflexivity|]. split; reflexivity.
Qed.

(** C1. Inserting two links with the same short code into the empty store:
    both calls of [createUrl] report success, and the store ends up with
    two records, ids 1 and 2, carrying that one code. *)
Theorem createUrl_accepts_duplicate_code {RT : Runtime} :
  exists u1 u2 w2,
    (u1 <- Database.createUrl
             (UrlData.mk "https://example.com/a" "abc123" None None None None None) ;;
     u2 <- Database.createUrl
             (UrlData.mk "https://example.com/b" "abc123" None None None None None) ;;
     ret (u1, u2)) (world_of empty_db)
    = (Ok (u1, u2), w2)
    /\ map (fun kv => (fst kv, UrlRecord.short_url (snd kv))) (urls (db w2))
       = [(1, "abc123"); (2, "abc123")]
    /\ UrlRecord.original_url u1 = "https://example.com/a"
    /\ UrlRecord.original_url u2 = "https://example.com/b".
Proof.
  do 3 eexists. split; [cbv; reflexivity|]. repeat split.
Qed.

(** C9. A store with link 1 and one click on it. The DELETE route, asked
    by the owner, fails on the members the adapters lack and answers 500
    with the store untouched; the store's own delete, reached through
    [Url.destroy], removes the link, reports success and leaves the click
    behind. *)
Theorem delete_leaves_clicks_behind {RT : Runtime} :
  (exists w',
     Routes.delete_handler Models.Url Models.Click (delete_request "1")
       (world_of clicked_db)
     = (Ok (Json 500 "URL deletion failed"
              "An error occurred while deleting the URL"), w')
     /\ db w' = clicked_db)
  /\ (exists w',
        Url_destroy Models.Url (by_id (KNum 1)) (world_of clicked_db)
        = (Ok true, w')
        /\ urls (db w') = []
        /\ Database.clicks_of (db w') 1 = [click_on 1 1]).
Proof.
  split; eexists; (split; [cbv; reflexivity|]); repeat split.
Qed.

(** ** Reachable stores are well formed *)

Lemma set_keys {V} (m : JsMap.t V) (k k' : nat) (v : V) :
  In k' (map fst (JsMap.set m k v)) -> k' = k \/ In k' (map fst m).
Proof.
  induction m as [|[k0 v0] m IH]; simpl.
  - intros [H|[]]. auto.
  - destruct (Nat.eqb k0 k); simpl; intros [H|H]; auto.
    destruct (IH H); auto.
Qed.

Lemma set_keeps_nodup {V} (m : JsMap.t V) (k : nat) (v : V) :
  NoDup (map fst m) -> NoDup (map fst (JsMap.set m k v)).
Proof.
  induction m as [|[k0 v0] m IH]; simpl; intros Hnd.
  - constructor; [intros []|constructor].
  - apply NoDup_cons_iff in Hnd as [Hk Hnd].
    destruct (Nat.eqb k0 k) eqn:E; simpl.
    + constructor; assumption.
    + constructor; [|apply IH, Hnd].
      intros Hin. apply set_keys in Hin as [->|Hin]; [|contradiction].
      rewrite Nat.eqb_refl in E. discriminate.
Qed.

Lemma empty_db_wf : wf_store empty_db.
Proof. split; constructor. Qed.

Lemma createUrl_keeps_wf {RT : Runtime} (urlData : UrlData.t) (w : World) :
  wf_store (db w) -> wf_store (db (snd (Database.createUrl urlData w))).
Proof.
  intros [Hnd Hid].
  destruct (createUrl_never_rejects urlData w) as (u & w' & Hrun & _ & Hurls).
  assert (Hu : UrlRecord.id u = counter_urls (counters (db w))).
  { destruct w as [[us cs [cu cc]] t dr co sc].
    cbv in Hrun. injection Hrun as <- _. reflexivity. }
  rewrite Hrun. cbn [snd]. unfold wf_store. rewrite Hurls. split.
  - apply set_keeps_nodup, Hnd.
  - apply set_keeps_ids; [symmetry; exact Hu|exact Hid].
Qed.

Lemma deleteUrl_keeps_wf {RT : Runtime} (id : nat) (w : World) :
  wf_store (db w) -> wf_store (db (snd (Database.deleteUrl (KNum id) w))).
Proof.
  intros [Hnd Hid].
  destruct w as [[us cs [cu cc]] t dr co sc]. cbn in Hnd, Hid |- *.
  split; cbn.
  - clear Hid. induction us as [|[k v] us IH]; simpl in *; [constructor|].
    apply NoDup_cons_iff in Hnd as [Hk Hnd].
    destruct (Nat.eqb k id); simpl; [apply IH, Hnd|].
    constructor; [|apply IH, Hnd].
    intros Hin. apply Hk. apply in_map_iff in Hin as ([k1 v1] & <- & Hin).
    apply filter_In in Hin as [Hin _].
    apply in_map_iff. exists (k1, v1). auto.
  - apply Forall_forall. intros kv Hin. apply filter_In in Hin as [Hin _].
    rewrite Forall_forall in Hid. apply Hid, Hin.
Qed.

(** When no two stored links share a code, a stored link is the one its
    code resolves to. *)
Lemma stored_link_is_found (d : InMemoryDatabase) (u : UrlRecord.t) :
  NoDup (map UrlRecord.short_url (JsMap.values (urls d))) ->
  In u (JsMap.values (urls d)) ->
  Database.lookup_short_code d (UrlRecord.short_url u) = Some u.
Proof.
  unfold Database.lookup_short_code.
  induction (JsMap.values (urls d)) as [|v l IH]; simpl; [intros _ []|].
  intros Hnd Hin. apply NoDup_cons_iff in Hnd as [Hv Hnd].
  destruct Hin as [->|Hin].
  - rewrite String.eqb_refl. reflexivity.
  - destruct (String.eqb_spec (UrlRecord.short_url v) (UrlRecord.short_url u))
      as [E|_]; [|apply IH; assumption].
    exfalso. apply Hv. rewrite E. apply in_map, Hin.
Qed.

(** ** Code generation *)

Lemma all_taken (d : InMemoryDatabase) (codes : list string) :
  List.forallb (taken d) codes = true ->
  Forall (fun code => taken d code = true) codes.
Proof.
  intros H. apply Forall_forall. intros code Hin.
  apply (proj1 (forallb_forall _ _) H code Hin).
Qed.

Section Generation.
Context {RT : Runtime}.

Lemma only_draws_refl (w : World) : only_draws w w.
Proof. repeat split. Qed.

Lemma only_draws_trans (w1 w2 w3 : World) :
  only_draws w1 w2 -> only_draws w2 w3 -> only_draws w1 w3.
Proof.
  unfold only_draws. intros (A & B & C) (D & E & F).
  repeat split; congruence.
Qed.

Lemma Math_random_draws (w : World) :
  exists r w', Math_random w = (Ok r, w') /\ (r < 2 ^ 53)%N /\ only_draws w w'.
Proof.
  eexists; eexists. split; [reflexivity|]. split; [|repeat split].
  apply N.mod_lt. discriminate.
Qed.

Lemma generateCustomCode_loop_draws (n : nat) (base : Z) (result : string)
    (w : World) :
  exists code w',
    UrlService.generateCustomCode_loop n base result w = (Ok code, w')
    /\ only_draws w w'.
Proof.
  revert result w. induction n as [|n IH]; intros result w.
  - exists result, w. split; [reflexivity|apply only_draws_refl].
  - cbn [UrlService.generateCustomCode_loop]. unfold bind.
    destruct (Math_random_draws w) as (r & w1 & Hr & _ & Hd1). rewrite Hr.
    match goal with
    | |- context [UrlService.generateCustomCode_loop n base ?res w1] =>
        destruct (IH res w1) as (code & w2 & Hloop & Hd2)
    end.
    exists code, w2. split; [exact Hloop|].
    eapply only_draws_trans; eassumption.
Qed.

(** Each generator returns a code and only reads the clock and the random
    source. *)
Lemma generate_candidate_draws (algorithm originalUrl : string) (w : World) :
  exists code w',
    UrlService.generate_candidate algorithm originalUrl w = (Ok code, w')
    /\ only_draws w w'.
Proof.
  assert (Hhash : exists code w',
            UrlService.generateHashCode originalUrl w = (Ok code, w')
            /\ only_draws w w').
  { eexists; eexists.
    split; [cbv [UrlService.generateHashCode bind new_Date Math_random ret];
            reflexivity|repeat split]. }
  unfold UrlService.generate_candidate.
  destruct (String.eqb _ "hash"); [exact Hhash|].
  destruct (String.eqb _ "uuid").
  { eexists; eexists.
    split; [cbv [UrlService.generateUuidCode bind uuid_v4 ret];
            reflexivity|repeat split]. }
  destruct (String.eqb _ "custom"); [|exact Hhash].
  unfold UrlService.generateCustomCode, bind, new_Date.
  match goal with
  | |- context [UrlService.generateCustomCode_loop 7 ?b ?res ?w0] =>
      destruct (generateCustomCode_loop_draws 7 b res w0)
        as (code & w2 & Hloop & Hd)
  end.
  exists code, w2. split; [exact Hloop|].
  destruct Hd as (A & B & C). repeat split; assumption.
Qed.

Lemma customAlgorithm_loop_draws (n : nat) (chars result : string) (w : World) :
  exists code w',
    UrlService.customAlgorithm_loop n chars result w = (Ok code, w')
    /\ only_draws w w'.
Proof.
  revert result w. induction n as [|n IH]; intros result w.
  - exists result, w. split; [reflexivity|apply only_draws_refl].
  - cbn [UrlService.customAlgorithm_loop]. unfold bind.
    destruct (Math_random_draws w) as (r & w1 & Hr & _ & Hd1). rewrite Hr.
    match goal with
    | |- context [UrlService.customAlgorithm_loop n chars ?res w1] =>
        destruct (IH res w1) as (code & w2 & Hloop & Hd2)
    end.
    exists code, w2. split; [exact Hloop|].
    eapply only_draws_trans; eassumption.
Qed.

Lemma customAlgorithm_draws (options : CustomOptions.t) (w : World) :
  exists code w',
    UrlService.customAlgorithm options w = (Ok code, w') /\ only_draws w w'.
Proof.
  unfold UrlService.customAlgorithm. apply customAlgorithm_loop_draws.
Qed.

(** One round of generate-then-look-up on a taken code: the lookup is
    traced, nothing else changes, and the list of candidates unfolds. *)
Lemma taken_round (gen : M string) (n : nat) (w : World) :
  (forall w0, exists code w', gen w0 = (Ok code, w') /\ only_draws w0 w') ->
  Forall (fun code => taken (db w) code = true) (candidates gen (S n) w) ->
  exists code u w1,
    gen w = (Ok code, w1)
    /\ Url_findOne Models.Url (by_short_url code) w1
       = (Ok (Some u), traced w1 (CallFindUrlByShortCode code))
    /\ candidates gen (S n) w
       = code :: candidates gen n (traced w1 (CallFindUrlByShortCode code))
    /\ db (traced w1 (CallFindUrlByShortCode code)) = db w
    /\ store_calls (traced w1 (CallFindUrlByShortCode code))
       = (store_calls w ++ [CallFindUrlByShortCode code])%list.
Proof.
  intros Hgen Hall.
  destruct (Hgen w) as (code & w1 & Hg & Hdb & _ & Hcalls).
  cbn [candidates] in Hall |- *. rewrite Hg in Hall |- *.
  apply Forall_cons_iff in Hall as [Htaken _].
  rewrite <- Hdb in Htaken.
  destruct (taken_findOne code w1 Htaken) as (u & Hfind).
  exists code, u, w1. rewrite Hfind. cbn [snd traced db store_calls].
  rewrite Hcalls. repeat split; assumption.
Qed.

(** The loop of [generateShortCode] with [n] attempts left, when every
    candidate is taken: [n] lookups, then the exhaustion error. *)
Lemma generateShortCode_loop_exhausts (n : nat) (algorithm originalUrl : string)
    (w : World) :
  Forall (fun code => taken (db w) code = true)
         (candidates (UrlService.generate_candidate algorithm originalUrl) n w) ->
  exists w',
    UrlService.generateShortCode_loop Models.Url n algorithm originalUrl w
    = (Throw (Error UrlService.exhausted_message), w')
    /\ db w' = db w
    /\ store_calls w'
       = (store_calls w
          ++ map CallFindUrlByShortCode
               (candidates (UrlService.generate_candidate algorithm originalUrl)
                           n w))%list
    /\ List.length
         (candidates (UrlService.generate_candidate algorithm originalUrl) n w)
       = n.
Proof.
  revert w. induction n as [|n IH]; intros w Hall.
  - exists w. cbn. rewrite app_nil_r. repeat split.
  - destruct (taken_round _ n w (generate_candidate_draws algorithm originalUrl) Hall)
      as (code & u & w1 & Hg & Hfind & Hcands & Hdb & Hcalls).
    rewrite Hcands in Hall |- *. apply Forall_cons_iff in Hall as [_ Hrest].
    rewrite <- Hdb in Hrest.
    destruct (IH _ Hrest) as (w' & Hloop & Hdb' & Hcalls' & Hlen).
    exists w'. cbn [UrlService.generateShortCode_loop]. unfold bind.
    rewrite Hg, Hfind, Hloop. split; [reflexivity|].
    split; [congruence|].
    split; [|cbn [List.length]; congruence].
    rewrite Hcalls', Hcalls, <- app_assoc. reflexivity.
Qed.

(** C2. Whatever the algorithm and the URL, when the store reports every
    candidate as taken, [generateShortCode] generates and looks up exactly
    ten codes and then throws the exhaustion error; it returns no code and
    leaves the store as it was. *)
Theorem generateShortCode_stops_after_ten (algorithm originalUrl : string)
    (w : World) :
  Forall (fun code => taken (db w) code = true)
         (candidates (UrlService.generate_candidate algorithm originalUrl)
                     UrlService.maxAttempts w) ->
  exists w',
    UrlService.generateShortCode algorithm originalUrl w
    = (Throw (Error "Unable to generate unique short code after maximum attempts"),
       w')
    /\ db w' = db w
    /\ store_calls w'
       = (store_calls w
          ++ map CallFindUrlByShortCode
               (candidates (UrlService.generate_candidate algorithm originalUrl)
                           UrlService.maxAttempts w))%list
    /\ List.length
         (candidates (UrlService.generate_candidate algorithm originalUrl)
                     UrlService.maxAttempts w)
       = 10.
Proof.
  intros Hall. apply generateShortCode_loop_exhausts, Hall.
Qed.

End Generation.

Lemma generateShortCode_stops_witness :
  exists w',
    @UrlService.generateShortCode fixed_runtime "uuid" "https://example.com/b"
      (world_of crowded_db)
    = (Throw (Error "Unable to generate unique short code after maximum attempts"),
       w')
    /\ db w' = crowded_db
    /\ store_calls w'
       = map CallFindUrlByShortCode
           (@candidates fixed_runtime
              (@UrlService.generate_candidate fixed_runtime "uuid"
                 "https://example.com/b")
              UrlService.maxAttempts (world_of crowded_db))
    /\ List.length
         (@candidates fixed_runtime
            (@UrlService.generate_candidate fixed_runtime "uuid"
               "https://example.com/b")
            UrlService.maxAttempts (world_of crowded_db))
       = 10.
Proof.
  apply (@generateShortCode_stops_after_ten fixed_runtime "uuid"
           "https://example.com/b" (world_of crowded_db)).
  apply all_taken. vm_compute. reflexivity.
Defined.

(** ** Bulk shortening *)

Section Bulk.
Context {RT : Runtime}.

(** The custom-options loop with [n] attempts left, entered with a code
    produced in world [w0], when every code it looks up is taken. *)
Lemma ensure_unique_exhausts (n attempts : nat) (options : CustomOptions.t)
    (w0 : World) :
  Forall (fun code => taken (db w0) code = true)
         (candidates (UrlService.customAlgorithm options) n w0) ->
  exists code w1 last w',
    UrlService.customAlgorithm options w0 = (Ok code, w1)
    /\ Routes.ensure_unique n attempts options code w1
       = (Ok (last, attempts + n), w')
    /\ db w' = db w0
    /\ store_calls w'
       = (store_calls w0
          ++ map CallFindUrlByShortCode
               (candidates (UrlService.customAlgorithm options) n w0))%list
    /\ List.length (candidates (UrlService.customAlgorithm options) n w0) = n.
Proof.
  revert attempts w0. induction n as [|n IH]; intros attempts w0 Hall.
  - destruct (customAlgorithm_draws options w0) as (code & w1 & Hg & Hdb & _ & Hc).
    exists code, w1, code, w1. cbn. rewrite app_nil_r, Nat.add_0_r.
    repeat split; assumption.
  - destruct (taken_round _ n w0 (customAlgorithm_draws options) Hall)
      as (code & u & w1 & Hg & Hfind & Hcands & Hdb & Hcalls).
    rewrite Hcands in Hall |- *. apply Forall_cons_iff in Hall as [_ Hrest].
    rewrite <- Hdb in Hrest.
    destruct (IH (attempts + 1) _ Hrest)
      as (code' & w2 & last & w' & Hg' & Hloop & Hdb' & Hcalls' & Hlen).
    exists code, w1, last, w'. split; [exact Hg|].
    cbn [Routes.ensure_unique]. unfold bind. rewrite Hfind, Hg', Hloop.
    split; [do 3 f_equal; lia|].
    split; [congruence|].
    split; [|cbn [List.length]; congruence].
    rewrite Hcalls', Hcalls, <- app_assoc. reflexivity.
Qed.

(** C8 (as the code has it). In a bulk request the five-attempt bound
    applies only when the algorithm is exactly custom and [custom_options]
    is not empty: five taken candidates are looked up and the item fails
    with GENERATION_FAILED. With any other algorithm, or no options, the
    item goes through [generateShortCode]: ten taken candidates are looked
    up and the item fails with PROCESSING_ERROR. *)
Theorem bulk_retry_bound_by_strategy (algorithm : string)
    (custom_options : CustomOptions.t) (req : Request)
    (urlData : Routes.BulkItem) (normalizedUrl : string) (w : World) :
  Forall (fun code => taken (db w) code = true)
         (bulk_candidates algorithm custom_options normalizedUrl w) ->
  exists w',
    Routes.bulk_item algorithm custom_options req urlData normalizedUrl w
    = (Ok (bulk_failure algorithm custom_options), w')
    /\ db w' = db w
    /\ store_calls w'
       = (store_calls w
          ++ map CallFindUrlByShortCode
               (bulk_candidates algorithm custom_options normalizedUrl w))%list
    /\ List.length (bulk_candidates algorithm custom_options normalizedUrl w)
       = if uses_custom_options algorithm custom_options then 5 else 10.
Proof.
  unfold bulk_candidates, bulk_failure, Routes.bulk_item, Routes.bulk_generate,
    uses_custom_options, try_catch.
  destruct (String.eqb algorithm "custom"
            && (0 <? CustomOptions.keys_length custom_options)%nat);
    intros Hall.
  - destruct (ensure_unique_exhausts Routes.bulk_attempts 0 custom_options w Hall)
      as (code & w1 & last & w' & Hg & Hloop & Hdb & Hcalls & Hlen).
    exists w'. unfold bind at 1 2 3. rewrite Hg, Hloop. cbn.
    repeat split; assumption.
  - destruct (generateShortCode_loop_exhausts UrlService.maxAttempts algorithm
                normalizedUrl w Hall)
      as (w' & Hthrow & Hdb & Hcalls & Hlen).
    exists w'. unfold bind, UrlService.generateShortCode. rewrite Hthrow.
    repeat split; assumption.
Qed.

End Bulk.

Lemma bulk_retry_bound_witness :
  exists w',
    @Routes.bulk_item fixed_runtime "custom" eight_characters
      (request_for "unused") (bulk_element "example.com/b")
      "https://example.com/b" (world_of crowded_db)
    = (Ok (Routes.ItemFailure "GENERATION_FAILED"
                              "Unable to generate unique short code"), w')
    /\ db w' = crowded_db
    /\ store_calls w'
       = map CallFindUrlByShortCode
           (@bulk_candidates fixed_runtime "custom" eight_characters
              "https://example.com/b" (world_of crowded_db))
    /\ List.length
         (@bulk_candidates fixed_runtime "custom" eight_characters
            "https://example.com/b" (world_of crowded_db))
       = 5.
Proof.
  apply (@bulk_retry_bound_by_strategy fixed_runtime "custom" eight_characters
           (request_for "unused") (bulk_element "example.com/b")
           "https://example.com/b" (world_of crowded_db)).
  apply all_taken. vm_compute. reflexivity.
Defined.

(** C8 (as the claim has it) fails: a bulk item shortened with the uuid
    strategy, every candidate taken, is looked up ten times, not five, and
    fails with PROCESSING_ERROR, not with the generation error. *)
Lemma bulk_uuid_item_retries_ten_times :
  exists w',
    @Routes.bulk_item fixed_runtime "uuid" no_options
      (request_for "unused") (bulk_element "example.com/b")
      "https://example.com/b" (world_of crowded_db)
    = (Ok (Routes.ItemFailure "PROCESSING_ERROR" "Error processing this URL"), w')
    /\ store_calls w'
       = repeat (CallFindUrlByShortCode "aaaaaaaa") 10.
Proof.
  eexists. split; [vm_compute; reflexivity|reflexivity].
Qed.

(** ** The configurable generator *)

Lemma append_empty_r (s : string) : s ++ "" = s.
Proof.
  induction s as [|c s IH]; simpl; congruence.
Qed.

Lemma append_one_char (a b : string) (c : ascii) :
  (a ++ String c "") ++ b = a ++ String c b.
Proof.
  induction a as [|x a IH]; simpl; congruence.
Qed.

Lemma get_in_range (s : string) (i : nat) :
  i < String.length s ->
  exists c, String.get i s = Some c /\ In c (JsString.chars s).
Proof.
  unfold JsString.chars. revert i.
  induction s as [|c s IH]; simpl; intros i Hi; [lia|].
  destruct i as [|i].
  - exists c. auto.
  - destruct (IH i) as (c' & Hget & Hin); [lia|].
    exists c'. auto.
Qed.

(** The rounded product stays below [n]: the doubles next to [n] lie
    closer together than the gap that [r <= 1 - 2^-53] leaves. *)
Lemma round_to_double_below (k n : N) :
  (k < 2 ^ 53)%N -> (0 < n)%N -> (n <= 2 ^ 52)%N ->
  (round_to_double (k * n) < n * 2 ^ 53)%N.
Proof.
  intros Hk Hn Hmax. unfold round_to_double.
  set (p := (k * n)%N).
  assert (Hp : (p + n <= n * 2 ^ 53)%N).
  { unfold p. assert (k + 1 <= 2 ^ 53)%N by lia.
    replace (k * n + n)%N with ((k + 1) * n)%N by lia.
    rewrite (N.mul_comm n). apply N.mul_le_mono_r. assumption. }
  destruct (N.ltb_spec p (2 ^ 53)) as [Hsmall|Hbig]; [lia|].
  cbv zeta.
  assert (Hpos : (0 < p)%N).
  { apply N.lt_le_trans with (2 ^ 53)%N; [reflexivity|exact Hbig]. }
  destruct (N.log2_spec p Hpos) as [Hlo Hhi].
  set (L := N.log2 p) in *.
  assert (HL : (53 <= L)%N).
  { apply N.lt_succ_r. apply (N.pow_lt_mono_r_iff 2); [lia|].
    apply N.le_lt_trans with p; assumption. }
  assert (HL' : (L <= 104)%N).
  { apply N.lt_succ_r. apply (N.pow_lt_mono_r_iff 2); [lia|].
    apply N.le_lt_trans with p; [exact Hlo|].
    apply N.lt_le_trans with (n * 2 ^ 53)%N; [lia|].
    change (2 ^ N.succ 104)%N with (2 ^ 52 * 2 ^ 53)%N.
    apply N.mul_le_mono_r. exact Hmax. }
  set (e := (L - 52)%N).
  assert (He1 : (2 ^ L = 2 ^ e * 2 ^ 52)%N).
  { rewrite <- N.pow_add_r. f_equal. unfold e. lia. }
  assert (He2 : (2 ^ N.succ L = 2 ^ e * 2 ^ 53)%N).
  { rewrite <- N.pow_add_r. f_equal. unfold e. lia. }
  assert (He3 : (2 ^ e = 2 * 2 ^ (e - 1))%N).
  { rewrite <- N.pow_succ_r'. f_equal. unfold e. lia. }
  assert (He4 : (2 ^ 53 = 2 ^ (53 - e) * 2 ^ e)%N).
  { rewrite <- N.pow_add_r. f_equal. unfold e. lia. }
  assert (HE : (0 < 2 ^ e)%N) by (apply N.neq_0_lt_0, N.pow_nonzero; lia).
  pose proof (N.div_mod p (2 ^ e) ltac:(lia)) as Hdiv.
  pose proof (N.mod_lt p (2 ^ e) ltac:(lia)) as Hrest.
  set (E := (2 ^ e)%N) in *.
  set (H := (2 ^ (e - 1))%N) in *.
  set (D := (2 ^ (53 - e))%N) in *.
  set (q := (p / E)%N) in *.
  set (rest := (p mod E)%N) in *.
  set (B53 := (2 ^ 53)%N) in *.
  set (B52 := (2 ^ 52)%N) in *.
  assert (HB : B53 = (2 * B52)%N) by reflexivity.
  rewrite He1 in Hlo. rewrite He2 in Hhi.
  clearbody E H D q rest B53 B52 p e L. clear Hk HL HL' He1 He2 Hpos.
  assert (Hup : ((H <? rest) || (rest =? H) && N.odd q = true -> H <= rest)%N).
  { intros Hb. apply orb_prop in Hb as [Hb|Hb].
    - apply N.ltb_lt in Hb. lia.
    - apply andb_prop in Hb as [Hb _]. apply N.eqb_eq in Hb. lia. }
  destruct ((H <? rest)%N || (rest =? H)%N && N.odd q).
  - specialize (Hup eq_refl).
    assert (Hq : (q + 1 <= n * D)%N) by nia.
    assert (Hne : (q + 1 <> n * D)%N).
    { intros Heq. assert (n <= H)%N by nia. nia. }
    nia.
  - nia.
Qed.

Lemma floor_mul_nonneg (r : N) (n : nat) : (0 <= floor_mul r n)%Z.
Proof.
  unfold floor_mul. apply N2Z.is_nonneg.
Qed.

(** [Math.floor(Math.random() * n)] is an index below [n], the rounding
    of the product included. *)
Lemma floor_mul_bound (r : N) (n : nat) :
  (r < 2 ^ 53)%N -> 0 < n -> (N.of_nat n <= 2 ^ 52)%N ->
  (0 <= floor_mul r n)%Z /\ Z.to_nat (floor_mul r n) < n.
Proof.
  intros Hr Hn Hmax. split; [apply floor_mul_nonneg|]. unfold floor_mul.
  assert (H : (round_to_double (r * N.of_nat n) / 2 ^ 53 < N.of_nat n)%N).
  { apply N.Div0.div_lt_upper_bound. rewrite (N.mul_comm (2 ^ 53)).
    apply round_to_double_below; [exact Hr|lia|exact Hmax]. }
  lia.
Qed.

(** The rounding is there: these two draws land on the index above the
    integer part of the exact product. *)
Remark floor_mul_rounds_up :
  floor_mul 6272870909551762 56 = 39%Z
  /\ (6272870909551762 * 56 / 2 ^ 53 = 38)%N
  /\ floor_mul 2324438517352514 62 = 16%Z
  /\ (2324438517352514 * 62 / 2 ^ 53 = 15)%N.
Proof.
  repeat split; vm_compute; reflexivity.
Qed.

(** A draw from a non-empty alphabet is one character of it. *)
Lemma charAt_draw (chars : string) (r : N) :
  (r < 2 ^ 53)%N -> chars <> "" -> String.length chars <= 62 ->
  exists c,
    JsString.charAt chars (floor_mul r (String.length chars)) = String c ""
    /\ In c (JsString.chars chars).
Proof.
  intros Hr Hne Hmax.
  assert (Hlen : 0 < String.length chars).
  { destruct chars; [congruence|simpl; lia]. }
  assert (Hdouble : (N.of_nat (String.length chars) <= 2 ^ 52)%N).
  { apply N.le_trans with 62%N; [lia|discriminate]. }
  destruct (floor_mul_bound r _ Hr Hlen Hdouble) as [Hpos Hlt].
  destruct (get_in_range chars _ Hlt) as (c & Hget & Hin).
  exists c. split; [|exact Hin].
  unfold JsString.charAt.
  destruct (Z.ltb_spec (floor_mul r (String.length chars)) 0); [lia|].
  rewrite Hget. reflexivity.
Qed.

(** The loop test [i < length] holds for exactly the first
    [iterations length] values of [i]. *)
Lemma iterations_spec (length : Q) (i : nat) :
  i < UrlService.iterations length
  <-> (inject_Z (Z.of_nat i) < length)%Q.
Proof.
  unfold UrlService.iterations. split.
  - intros Hi.
    apply Qle_lt_trans with (inject_Z (Qceiling length - 1)).
    + rewrite <- Zle_Qle. lia.
    + apply Qceiling_lt.
  - intros Hi.
    assert (H : (Z.of_nat i < Qceiling length)%Z).
    { rewrite Zlt_Qlt. apply Qlt_le_trans with length; [exact Hi|].
      apply Qle_ceiling. }
    lia.
Qed.

(** A whole number of characters asks for that many rounds; a fraction
    is rounded up, and nothing below one gives a round. *)
Lemma iterations_whole (length : Q) (n : nat) :
  (length == inject_Z (Z.of_nat n))%Q -> UrlService.iterations length = n.
Proof.
  intros H. unfold UrlService.iterations.
  rewrite (Qceiling_comp _ _ H), Qceiling_Z. apply Nat2Z.id.
Qed.

Remark iterations_of_other_lengths :
  UrlService.iterations (9 # 2) = 5
  /\ UrlService.iterations 0 = 0
  /\ UrlService.iterations (-1) = 0.
Proof.
  repeat split.
Qed.

Section Configurable.
Context {RT : Runtime}.

(** The drawing loop appends exactly [n] characters of the alphabet. *)
Lemma customAlgorithm_loop_appends (n : nat) (chars result : string) (w : World) :
  chars <> "" -> String.length chars <= 62 ->
  exists drawn w',
    UrlService.customAlgorithm_loop n chars result w = (Ok (result ++ drawn), w')
    /\ String.length drawn = n
    /\ Forall (fun c => In c (JsString.chars chars)) (JsString.chars drawn).
Proof.
  intros Hne Hmax. revert result w. induction n as [|n IH]; intros result w.
  - exists "", w. cbn [UrlService.customAlgorithm_loop].
    rewrite append_empty_r.
    split; [reflexivity|]. split; [reflexivity|constructor].
  - cbn [UrlService.customAlgorithm_loop]. unfold bind.
    destruct (Math_random_draws w) as (r & w1 & Hr & Hlt & _). rewrite Hr.
    destruct (charAt_draw chars r Hlt Hne Hmax) as (c & Hc & Hin). rewrite Hc.
    destruct (IH (result ++ String c "") w1) as (drawn & w2 & Hloop & Hlen & Hall).
    exists (String c drawn), w2. rewrite Hloop, append_one_char.
    split; [reflexivity|]. split.
    + simpl. congruence.
    + constructor; assumption.
Qed.

Lemma alphabet_not_empty (options : CustomOptions.t) :
  some_class options = true -> alphabet_of options <> "".
Proof.
  unfold some_class, alphabet_of.
  destruct (UrlService.default true (CustomOptions.includeNumbers options)),
    (UrlService.default true (CustomOptions.includeUppercase options)),
    (UrlService.default true (CustomOptions.includeLowercase options)),
    (UrlService.default true (CustomOptions.excludeSimilar options));
    vm_compute; congruence.
Qed.

Lemma alphabet_length (options : CustomOptions.t) :
  String.length (alphabet_of options) <= 62.
Proof.
  unfold alphabet_of.
  destruct (UrlService.default true (CustomOptions.includeNumbers options)),
    (UrlService.default true (CustomOptions.includeUppercase options)),
    (UrlService.default true (CustomOptions.includeLowercase options)),
    (UrlService.default true (CustomOptions.excludeSimilar options));
    apply Nat.leb_le; vm_compute; reflexivity.
Qed.

Lemma alphabet_excludes_similar (n u l : bool) :
  Forall (fun c => UrlService.is_similar c = false)
         (JsString.chars (UrlService.alphabet n u l true)).
Proof.
  destruct n, u, l; vm_compute; repeat constructor.
Qed.

(** What [customAlgorithm] returns for any [length], whole or not: one
    character of the alphabet for each round of its loop. *)
Lemma customAlgorithm_rounds (options : CustomOptions.t) (w : World) :
  some_class options = true ->
  exists code w',
    UrlService.customAlgorithm options w = (Ok code, w')
    /\ String.length code
       = UrlService.iterations (requested_length options)
    /\ Forall (fun c => In c (JsString.chars (alphabet_of options)))
              (JsString.chars code).
Proof.
  intros Hsome.
  destruct (customAlgorithm_loop_appends
              (UrlService.iterations (requested_length options))
              (alphabet_of options) "" w (alphabet_not_empty options Hsome)
              (alphabet_length options))
    as (drawn & w' & Hloop & Hlen & Hall).
  exists drawn, w'. split; [exact Hloop|]. split; assumption.
Qed.

(** C10 (as the code has it). For [length] left out (7) or a whole number
    from 4 to 12, and at least one of [includeNumbers],
    [includeUppercase], [includeLowercase] on, [customAlgorithm] returns
    a string of exactly [length] characters, each taken from the alphabet
    built from the flags, and none of them one of 0, O, o, 1, l, I when
    [excludeSimilar] is on. *)
Theorem customAlgorithm_length_and_alphabet (options : CustomOptions.t)
    (n : nat) (w : World) :
  whole_length options n ->
  4 <= n <= 12 ->
  some_class options = true ->
  exists code w',
    UrlService.customAlgorithm options w = (Ok code, w')
    /\ String.length code = n
    /\ Forall (fun c => In c (JsString.chars (alphabet_of options)))
              (JsString.chars code)
    /\ (UrlService.default true (CustomOptions.excludeSimilar options) = true ->
        Forall (fun c => UrlService.is_similar c = false)
               (JsString.chars code)).
Proof.
  intros Hwhole Hrange Hsome.
  destruct (customAlgorithm_rounds options w Hsome)
    as (code & w' & Hrun & Hlen & Hall).
  exists code, w'. split; [exact Hrun|].
  split; [rewrite Hlen; apply iterations_whole, Hwhole|].
  split; [exact Hall|].
  intros Hex. apply Forall_forall. intros c Hc.
  rewrite Forall_forall in Hall. specialize (Hall c Hc).
  unfold alphabet_of in Hall. rewrite Hex in Hall.
  pose proof (alphabet_excludes_similar
                (UrlService.default true (CustomOptions.includeNumbers options))
                (UrlService.default true (CustomOptions.includeUppercase options))
                (UrlService.default true (CustomOptions.includeLowercase options)))
    as Hsim.
  rewrite Forall_forall in Hsim. apply Hsim, Hall.
Qed.

End Configurable.

Lemma customAlgorithm_witness :
  exists code w',
    @UrlService.customAlgorithm fixed_runtime eight_characters
      (world_of empty_db) = (Ok code, w')
    /\ String.length code = 8
    /\ Forall (fun c => In c (JsString.chars (alphabet_of eight_characters)))
              (JsString.chars code)
    /\ (true = true ->
        Forall (fun c => UrlService.is_similar c = false)
               (JsString.chars code)).
Proof.
  apply (@customAlgorithm_length_and_alphabet fixed_runtime eight_characters
           8 (world_of empty_db)).
  - reflexivity.
  - lia.
  - reflexivity.
Defined.

(** C10 (as the claim has it) fails: with the three character classes off
    the alphabet is empty, and a request for 7 characters, a length in
    the callers' range, returns the empty string. *)
Lemma customAlgorithm_empty_alphabet :
  exists w',
    @UrlService.customAlgorithm fixed_runtime no_classes (world_of empty_db)
    = (Ok "", w')
    /\ whole_length no_classes 7
    /\ alphabet_of no_classes = ""
    /\ String.length "" = 0.
Proof.
  eexists. split; [vm_compute; reflexivity|]. repeat split.
Qed.

(** * Further properties *)

(** ** The three generators *)

Lemma substring0_length (n : nat) (s : string) :
  String.length (JsString.substring0 n s) <= n.
Proof.
  unfold JsString.substring0. revert s.
  induction n as [|n IH]; intros [|c s]; simpl; try lia.
  specialize (IH s). lia.
Qed.

Lemma substring0_forallb (p : ascii -> bool) (n : nat) (s : string) :
  JsString.forallb p s = true ->
  JsString.forallb p (JsString.substring0 n s) = true.
Proof.
  unfold JsString.forallb, JsString.chars, JsString.substring0. revert s.
  induction n as [|n IH]; intros [|c s]; simpl; try reflexivity.
  intros H. apply andb_prop in H as [Hc Hs]. rewrite Hc. apply IH, Hs.
Qed.

Lemma remove_all_forallb (cls q : ascii -> bool) (s : string) :
  (forall c, cls c = false -> q c = true) ->
  JsString.forallb q (JsString.remove_all cls s) = true.
Proof.
  intros Hq. unfold JsString.forallb, JsString.remove_all, JsString.chars,
    JsString.of_chars.
  rewrite list_ascii_of_string_of_list_ascii.
  induction (list_ascii_of_string s) as [|c l IH]; simpl; [reflexivity|].
  destruct (cls c) eqn:E; simpl; [exact IH|].
  rewrite (Hq c E). exact IH.
Qed.

(** A character of a string read at an index inside it. *)
Lemma charAt_in_range (s : string) (i : Z) :
  (0 <= i < Z.of_nat (String.length s))%Z ->
  exists c, JsString.charAt s i = String c "" /\ In c (JsString.chars s).
Proof.
  intros Hi. unfold JsString.charAt.
  destruct (Z.ltb_spec i 0); [lia|].
  destruct (get_in_range s (Z.to_nat i)) as (c & Hget & Hin); [lia|].
  exists c. rewrite Hget. auto.
Qed.

Lemma forallb_append_char (p : ascii -> bool) (s : string) (c : ascii) :
  JsString.forallb p s = true -> p c = true ->
  JsString.forallb p (s ++ String c "") = true.
Proof.
  unfold JsString.forallb, JsString.chars. intros Hs Hc.
  induction s as [|a s IH]; simpl in *.
  - rewrite Hc. reflexivity.
  - apply andb_prop in Hs as [Ha Hs]. rewrite Ha. apply IH, Hs.
Qed.

Lemma length_append_char (s : string) (c : ascii) :
  String.length (s ++ String c "") = S (String.length s).
Proof.
  induction s as [|a s IH]; simpl; congruence.
Qed.

Lemma custom_chars_alnum :
  forall c, In c (JsString.chars UrlService.custom_chars) ->
            JsString.is_alnum c = true.
Proof.
  apply forallb_forall. vm_compute. reflexivity.
Qed.

Section GeneratorShapes.
Context {RT : Runtime}.

(** X1. [generateHashCode] returns at most six characters, letters and
    digits only, whatever the digest; it only reads the clock and the
    random source. *)
Theorem generateHashCode_shape (originalUrl : string) (w : World) :
  exists code w',
    UrlService.generateHashCode originalUrl w = (Ok code, w')
    /\ String.length code <= 6
    /\ JsString.forallb JsString.is_alnum code = true
    /\ only_draws w w'.
Proof.
  eexists; eexists.
  split; [cbv [UrlService.generateHashCode bind new_Date Math_random ret];
          reflexivity|].
  split; [apply substring0_length|].
  split; [|repeat split].
  apply substring0_forallb, remove_all_forallb.
  intros c Hc. apply negb_false_iff in Hc. exact Hc.
Qed.

(** X2. [generateUuidCode] returns at most eight characters and never a
    hyphen. *)
Theorem generateUuidCode_shape (w : World) :
  exists code w',
    UrlService.generateUuidCode w = (Ok code, w')
    /\ String.length code <= 8
    /\ JsString.existsb (fun c => Ascii.eqb c "-"%char) code = false
    /\ only_draws w w'.
Proof.
  eexists; eexists.
  split; [cbv [UrlService.generateUuidCode bind uuid_v4 ret]; reflexivity|].
  split; [apply substring0_length|].
  split; [|repeat split].
  match goal with
  | |- JsString.existsb ?p ?s = false =>
      assert (H : JsString.forallb (fun c => negb (p c)) s = true)
  end.
  { apply substring0_forallb, remove_all_forallb.
    intros c Hc. rewrite Hc. reflexivity. }
  revert H. unfold JsString.existsb, JsString.forallb.
  generalize (JsString.chars
                (JsString.substring0 8
                   (JsString.remove_all (fun c => Ascii.eqb c "-"%char)
                      (uuidv4 (draws w))))).
  intros l. induction l as [|c l IH]; simpl; [reflexivity|].
  intros H. apply andb_prop in H as [Hc Hl].
  apply negb_true_iff in Hc. rewrite Hc. apply IH, Hl.
Qed.

(** The loop of [generateCustomCode] with a non-negative base appends [n]
    letters or digits. *)
Lemma generateCustomCode_loop_shape (n : nat) (base : Z) (result : string)
    (w : World) :
  (0 <= base)%Z ->
  JsString.forallb JsString.is_alnum result = true ->
  exists code w',
    UrlService.generateCustomCode_loop n base result w = (Ok code, w')
    /\ String.length code = String.length result + n
    /\ JsString.forallb JsString.is_alnum code = true.
Proof.
  intros Hb. revert result w. induction n as [|n IH]; intros result w Hres.
  - exists result, w. cbn. repeat split; [lia|exact Hres].
  - cbn [UrlService.generateCustomCode_loop]. unfold bind.
    destruct (Math_random_draws w) as (r & w1 & Hr & Hlt & _). rewrite Hr.
    set (len := String.length UrlService.custom_chars).
    assert (Hlen : len = 62) by reflexivity.
    pose proof (floor_mul_nonneg r len) as Hpos.
    destruct (charAt_in_range UrlService.custom_chars
                (Z.rem (base + floor_mul r len) (Z.of_nat len)))
      as (c & Hc & Hin).
    { fold len. rewrite Z.rem_mod_nonneg by lia.
      apply Z.mod_pos_bound. lia. }
    rewrite Hc.
    destruct (IH (result ++ String c "") w1) as (code & w2 & Hloop & Hl & Ha).
    { apply forallb_append_char; [exact Hres|].
      apply custom_chars_alnum, Hin. }
    exists code, w2. split; [exact Hloop|].
    split; [|exact Ha]. rewrite Hl, length_append_char. lia.
Qed.

(** X3. While the clock is not before the epoch, [generateCustomCode]
    returns exactly seven characters, letters and digits only. *)
Theorem generateCustomCode_shape (w : World) :
  (0 <= clock (ticks w))%Z ->
  exists code w',
    UrlService.generateCustomCode w = (Ok code, w')
    /\ String.length code = 7
    /\ JsString.forallb JsString.is_alnum code = true.
Proof.
  intros Hclock. unfold UrlService.generateCustomCode, bind, new_Date.
  match goal with
  | |- context [UrlService.generateCustomCode_loop 7 ?b ?res ?w0] =>
      destruct (generateCustomCode_loop_shape 7 b res w0)
        as (code & w' & Hloop & Hlen & Ha)
  end.
  - apply Z.rem_nonneg; [lia|exact Hclock].
  - reflexivity.
  - exists code, w'. split; [exact Hloop|]. split; [exact Hlen|exact Ha].
Qed.

End GeneratorShapes.

Lemma generateCustomCode_witness :
  exists code w',
    @UrlService.generateCustomCode fixed_runtime (world_of empty_db)
    = (Ok code, w')
    /\ String.length code = 7
    /\ JsString.forallb JsString.is_alnum code = true.
Proof.
  apply (@generateCustomCode_shape fixed_runtime (world_of empty_db)).
  vm_compute. discriminate.
Defined.

(** ** Codes handed out are free *)

Section FreeCodes.
Context {RT : Runtime}.

(** [Url.findOne] by code answers with a record exactly when the code is
    taken; it changes nothing but the trace, by at most one call. *)
Lemma findOne_reports_taken (code : string) (w : World) :
  exists r w',
    Url_findOne Models.Url (by_short_url code) w = (Ok r, w')
    /\ db w' = db w
    /\ taken (db w) code = match r with Some _ => true | None => false end
    /\ List.length (store_calls w') <= S (List.length (store_calls w)).
Proof.
  unfold taken.
  cbn [Url_findOne Models.Url Models.Url_findOne_adapter by_short_url
       where_short_url_is where_ where_short_url where_id JsString.truthy].
  destruct (String.eqb code "") eqn:E; cbn [negb andb].
  - exists None, w. repeat split. lia.
  - exists (Database.lookup_short_code (db w) code),
      (traced w (CallFindUrlByShortCode code)).
    split; [reflexivity|]. split; [reflexivity|]. split.
    + destruct (Database.lookup_short_code (db w) code); reflexivity.
    + cbn [traced store_calls]. rewrite length_app. cbn. lia.
Qed.

Lemma generateShortCode_loop_result (n : nat) (algorithm originalUrl : string)
    (w : World) :
  exists w',
    db w' = db w
    /\ List.length (store_calls w') <= List.length (store_calls w) + n
    /\ ((exists code,
           UrlService.generateShortCode_loop Models.Url n algorithm originalUrl w
           = (Ok code, w')
           /\ taken (db w) code = false)
        \/ UrlService.generateShortCode_loop Models.Url n algorithm originalUrl w
           = (Throw (Error UrlService.exhausted_message), w')).
Proof.
  revert w. induction n as [|n IH]; intros w.
  - exists w. split; [reflexivity|]. split; [lia|]. right. reflexivity.
  - destruct (generate_candidate_draws algorithm originalUrl w)
      as (code & w1 & Hg & Hdb1 & _ & Hcalls1).
    destruct (findOne_reports_taken code w1) as (r & w2 & Hf & Hdb2 & Ht & Hlen).
    cbn [UrlService.generateShortCode_loop]. unfold bind. rewrite Hg, Hf.
    destruct r as [u|].
    + destruct (IH w2) as (w' & Hdb & Hcalls & Hres).
      exists w'. split; [congruence|]. split; [rewrite Hcalls1 in Hlen; lia|].
      rewrite Hdb2, Hdb1 in Hres. exact Hres.
    + exists w2. split; [congruence|]. split; [rewrite Hcalls1 in Hlen; lia|].
      left. exists code. split; [reflexivity|]. rewrite <- Hdb1. exact Ht.
Qed.

(** X4. [generateShortCode] ends in one of two ways: it returns a code
    for which the store held no link when it was looked up, or it throws
    the exhaustion error. Either way the store is unchanged and at most
    ten lookups were made. *)
Theorem generateShortCode_returns_free_code (algorithm originalUrl : string)
    (w : World) :
  exists w',
    db w' = db w
    /\ List.length (store_calls w') <= List.length (store_calls w) + 10
    /\ ((exists code,
           UrlService.generateShortCode algorithm originalUrl w = (Ok code, w')
           /\ taken (db w) code = false)
        \/ UrlService.generateShortCode algorithm originalUrl w
           = (Throw (Error "Unable to generate unique short code after maximum attempts"),
              w')).
Proof.
  apply generateShortCode_loop_result.
Qed.

(** The custom-options loop: when it stops before its bound, the code it
    holds was looked up and found free. *)
Lemma ensure_unique_result (n attempts : nat) (options : CustomOptions.t)
    (code : string) (w : World) :
  exists code' attempts' w',
    Routes.ensure_unique n attempts options code w = (Ok (code', attempts'), w')
    /\ db w' = db w
    /\ attempts' <= attempts + n
    /\ (attempts' < attempts + n -> taken (db w) code' = false).
Proof.
  revert attempts code w. induction n as [|n IH]; intros attempts code w.
  - exists code, attempts, w. repeat split; lia.
  - destruct (findOne_reports_taken code w) as (r & w1 & Hf & Hdb1 & Ht & _).
    cbn [Routes.ensure_unique]. unfold bind. rewrite Hf.
    destruct r as [u|].
    + destruct (customAlgorithm_draws options w1)
        as (code1 & w2 & Hg & Hdb2 & _).
      rewrite Hg.
      destruct (IH (attempts + 1) code1 w2)
        as (code' & attempts' & w' & Hloop & Hdb & Hle & Hfree).
      exists code', attempts', w'. split; [exact Hloop|].
      split; [congruence|]. split; [lia|].
      intros Hlt. rewrite <- Hdb1, <- Hdb2. apply Hfree. lia.
    + exists code, attempts, w1. split; [reflexivity|].
      split; [exact Hdb1|]. split; [lia|]. intros _. exact Ht.
Qed.

(** X5. Code generation for one element of a bulk request ends in one of
    three ways: a code the store held no link for when it was looked up,
    the GENERATION_FAILED result, or the exhaustion error of
    [generateShortCode]. The store is unchanged in each. *)
Theorem bulk_generate_returns_free_code (algorithm : string)
    (custom_options : CustomOptions.t) (normalizedUrl : string) (w : World) :
  exists w',
    db w' = db w
    /\ ((exists code,
           Routes.bulk_generate algorithm custom_options normalizedUrl w
           = (Ok (inl code), w')
           /\ taken (db w) code = false)
        \/ Routes.bulk_generate algorithm custom_options normalizedUrl w
           = (Ok (inr (Routes.ItemFailure "GENERATION_FAILED"
                         "Unable to generate unique short code")), w')
        \/ Routes.bulk_generate algorithm custom_options normalizedUrl w
           = (Throw (Error "Unable to generate unique short code after maximum attempts"),
              w')).
Proof.
  unfold Routes.bulk_generate.
  destruct (String.eqb algorithm "custom"
            && (0 <? CustomOptions.keys_length custom_options)%nat).
  - destruct (customAlgorithm_draws custom_options w)
      as (code & w1 & Hg & Hdb1 & _).
    destruct (ensure_unique_result Routes.bulk_attempts 0 custom_options code w1)
      as (code' & attempts' & w' & Hloop & Hdb & Hle & Hfree).
    exists w'. split; [congruence|].
    unfold bind. rewrite Hg, Hloop.
    destruct (Nat.leb_spec Routes.bulk_attempts attempts').
    + right. left. reflexivity.
    + left. exists code'. split; [reflexivity|].
      rewrite <- Hdb1. apply Hfree. cbn. exact H.
  - destruct (generateShortCode_loop_result UrlService.maxAttempts algorithm
                normalizedUrl w) as (w' & Hdb & _ & [(code & Hok & Hfree)|Hthrow]).
    + exists w'. split; [exact Hdb|]. left. exists code.
      unfold bind, UrlService.generateShortCode. rewrite Hok. auto.
    + exists w'. split; [exact Hdb|]. right. right.
      unfold bind, UrlService.generateShortCode. rewrite Hthrow. reflexivity.
Qed.

(** X6. Code generation of POST /v1/shorten returns a code the store held
    no link for when it was looked up, or throws one of its two
    generation errors; the store is unchanged. *)
Theorem v1_generate_returns_free_code (algorithm : string)
    (custom_options : CustomOptions.t) (normalizedUrl : string) (w : World) :
  exists w',
    db w' = db w
    /\ ((exists code,
           Routes.v1_generate algorithm custom_options normalizedUrl w
           = (Ok code, w')
           /\ taken (db w) code = false)
        \/ Routes.v1_generate algorithm custom_options normalizedUrl w
           = (Throw (Error "Unable to generate unique short code with custom options"),
              w')
        \/ Routes.v1_generate algorithm custom_options normalizedUrl w
           = (Throw (Error "Unable to generate unique short code after maximum attempts"),
              w')).
Proof.
  unfold Routes.v1_generate.
  destruct (String.eqb algorithm "custom"
            && (0 <? CustomOptions.keys_length custom_options)%nat).
  - destruct (customAlgorithm_draws custom_options w)
      as (code & w1 & Hg & Hdb1 & _).
    destruct (ensure_unique_result Routes.v1_attempts 0 custom_options code w1)
      as (code' & attempts' & w' & Hloop & Hdb & Hle & Hfree).
    exists w'. split; [congruence|].
    unfold bind. rewrite Hg, Hloop.
    destruct (Nat.leb_spec Routes.v1_attempts attempts').
    + right. left. reflexivity.
    + left. exists code'. split; [reflexivity|].
      rewrite <- Hdb1. apply Hfree. cbn. exact H.
  - destruct (generateShortCode_loop_result UrlService.maxAttempts algorithm
                normalizedUrl w) as (w' & Hdb & _ & [(code & Hok & Hfree)|Hthrow]).
    + exists w'. split; [exact Hdb|]. left. exists code.
      split; [exact Hok|exact Hfree].
    + exists w'. split; [exact Hdb|]. right. right. exact Hthrow.
Qed.

End FreeCodes.

(** ** URL normalisation *)

(** X7. [normalizeUrl] yields a string that starts with one of the two
    web schemes, and applying it again changes nothing. *)
Theorem normalizeUrl_idempotent (url : string) :
  (JsString.startsWith (UrlService.normalizeUrl url) "http://"
   || JsString.startsWith (UrlService.normalizeUrl url) "https://") = true
  /\ UrlService.normalizeUrl (UrlService.normalizeUrl url)
     = UrlService.normalizeUrl url.
Proof.
  assert (Hs : JsString.startsWith ("https://" ++ url) "https://" = true).
  { unfold JsString.startsWith. cbn. destruct url; reflexivity. }
  unfold UrlService.normalizeUrl.
  destruct (JsString.startsWith url "http://") eqn:E1;
    destruct (JsString.startsWith url "https://") eqn:E2;
    cbn [negb andb]; rewrite ?E1, ?E2, ?Hs, ?orb_true_r; cbn [negb andb];
    auto.
Qed.

(** ** The [Map] model *)

Lemma get_set_same {V} (m : JsMap.t V) (k : nat) (v : V) :
  JsMap.get (JsMap.set m k v) k = Some v.
Proof.
  induction m as [|[k0 v0] m IH]; simpl.
  - rewrite Nat.eqb_refl. reflexivity.
  - destruct (Nat.eqb k0 k) eqn:E; simpl; rewrite E; [reflexivity|exact IH].
Qed.

Lemma get_set_other {V} (m : JsMap.t V) (k k' : nat) (v : V) :
  k' <> k -> JsMap.get (JsMap.set m k v) k' = JsMap.get m k'.
Proof.
  intros Hne. induction m as [|[k0 v0] m IH]; simpl.
  - destruct (Nat.eqb_spec k k'); [congruence|reflexivity].
  - destruct (Nat.eqb_spec k0 k); simpl.
    + subst k0. destruct (Nat.eqb_spec k k'); [congruence|reflexivity].
    + destruct (Nat.eqb k0 k'); [reflexivity|exact IH].
Qed.

Lemma set_fresh {V} (m : JsMap.t V) (k : nat) (v : V) :
  ~ In k (map fst m) -> JsMap.set m k v = (m ++ [(k, v)])%list.
Proof.
  induction m as [|[k0 v0] m IH]; simpl; intros Hk; [reflexivity|].
  destruct (Nat.eqb_spec k0 k); [tauto|].
  rewrite IH by tauto. reflexivity.
Qed.

Lemma get_delete_same {V} (m : JsMap.t V) (k : nat) :
  JsMap.get (snd (JsMap.delete m k)) k = None.
Proof.
  unfold JsMap.delete. cbn [snd].
  induction m as [|[k0 v0] m IH]; simpl; [reflexivity|].
  destruct (Nat.eqb k0 k) eqn:E; simpl; [exact IH|].
  rewrite E. exact IH.
Qed.

Lemma get_delete_other {V} (m : JsMap.t V) (k k' : nat) :
  k' <> k -> JsMap.get (snd (JsMap.delete m k)) k' = JsMap.get m k'.
Proof.
  intros Hne. unfold JsMap.delete. cbn [snd].
  induction m as [|[k0 v0] m IH]; simpl; [reflexivity|].
  destruct (Nat.eqb_spec k0 k); simpl.
  - subst k0. destruct (Nat.eqb_spec k k'); [congruence|exact IH].
  - destruct (Nat.eqb k0 k'); [reflexivity|exact IH].
Qed.

Lemma below_counter_fresh {V} (m : JsMap.t V) (n : nat) :
  Forall (fun kv => fst kv < n) m -> ~ In n (map fst m).
Proof.
  intros Hall Hin. apply in_map_iff in Hin as (kv & Hk & Hin).
  rewrite Forall_forall in Hall. specialize (Hall kv Hin). lia.
Qed.

(** ** Creating, finding and deleting links *)

Section Links.
Context {RT : Runtime}.

(** What [createUrl] returns and what it leaves behind. *)
Lemma createUrl_run (urlData : UrlData.t) (w : World) :
  exists u w',
    Database.createUrl urlData w = (Ok u, w')
    /\ u = UrlRecord.mk (counter_urls (counters (db w)))
             (UrlData.original_url urlData) (UrlData.short_url urlData)
             (Database.nat_or_null (UrlData.user_id urlData))
             (Database.string_or_null (UrlData.title urlData))
             (Database.string_or_null (UrlData.description urlData))
             (Database.not_false (UrlData.is_active urlData))
             (UrlData.expires_at urlData) 0
             (clock (ticks w)) (clock (S (ticks w)))
    /\ db w'
       = mkDb (JsMap.set (urls (db w)) (counter_urls (counters (db w))) u)
              (clicks (db w))
              (mkCounters (S (counter_urls (counters (db w))))
                          (counter_clicks (counters (db w))))
    /\ ticks w' = S (S (ticks w))
    /\ console w' = console w.
Proof.
  destruct w as [[us cs [cu cc]] t dr co sc].
  eexists; eexists. split; [cbv; reflexivity|]. repeat split.
Qed.

(** X8. A link just created is found under the id it was given, and it
    starts active (unless [is_active] was [false]) with a click count
    of zero. *)
Theorem createUrl_then_findUrlById (urlData : UrlData.t) (w : World) :
  exists u w1 w2,
    Database.createUrl urlData w = (Ok u, w1)
    /\ Database.findUrlById (KNum (UrlRecord.id u)) w1 = (Ok (Some u), w2)
    /\ UrlRecord.id u = counter_urls (counters (db w))
    /\ UrlRecord.click_count u = 0
    /\ UrlRecord.is_active u
       = match UrlData.is_active urlData with
         | Some false => false
         | _ => true
         end.
Proof.
  destruct (createUrl_run urlData w) as (u & w1 & Hrun & Hu & Hdb & _).
  exists u, w1. eexists. split; [exact Hrun|].
  split.
  - unfold Database.findUrlById, bind, record_call, get_db, ret.
    cbn [db Database.lookup_id]. rewrite Hdb. cbn [urls].
    replace (UrlRecord.id u) with (counter_urls (counters (db w)))
      by (rewrite Hu; reflexivity).
    rewrite get_set_same. reflexivity.
  - rewrite Hu. repeat split.
Qed.

Lemma find_set_free (m : JsMap.t UrlRecord.t) (code : string) (k : nat)
    (u : UrlRecord.t) :
  find (code_is code) (JsMap.values m) = None ->
  code_is code u = true ->
  find (code_is code) (JsMap.values (JsMap.set m k u)) = Some u.
Proof.
  unfold JsMap.values. intros Hnone Hu.
  induction m as [|[k0 v0] m IH]; simpl in *.
  - rewrite Hu. reflexivity.
  - destruct (code_is code v0) eqn:E; [discriminate|].
    destruct (Nat.eqb k0 k); simpl.
    + rewrite Hu. reflexivity.
    + rewrite E. apply IH, Hnone.
Qed.

(** X9. When no stored link carries the code, the link that [createUrl]
    stores is the one [findUrlByShortCode] returns for it afterwards. *)
Theorem createUrl_then_findUrlByShortCode (urlData : UrlData.t) (w : World) :
  Database.lookup_short_code (db w) (UrlData.short_url urlData) = None ->
  exists u w1 w2,
    Database.createUrl urlData w = (Ok u, w1)
    /\ Database.findUrlByShortCode (UrlData.short_url urlData) w1
       = (Ok (Some u), w2)
    /\ UrlRecord.original_url u = UrlData.original_url urlData.
Proof.
  intros Hfree.
  destruct (createUrl_run urlData w) as (u & w1 & Hrun & Hu & Hdb & _).
  exists u, w1. eexists. split; [exact Hrun|]. split.
  - unfold Database.findUrlByShortCode, bind, record_call, get_db, ret.
    cbn [db]. unfold Database.lookup_short_code. rewrite Hdb. cbn [urls].
    rewrite (find_set_free _ (UrlData.short_url urlData) _ u Hfree);
      [reflexivity|].
    rewrite Hu. apply String.eqb_refl.
  - rewrite Hu. reflexivity.
Qed.

(** In a store whose ids all lie below the counter, [createUrl] appends. *)
Lemma createUrl_appends_run (urlData : UrlData.t) (w : World) :
  ids_below_counter (db w) ->
  exists u w1,
    Database.createUrl urlData w = (Ok u, w1)
    /\ urls (db w1) = (urls (db w) ++ [(UrlRecord.id u, u)])%list
    /\ (forall k u0, JsMap.get (urls (db w)) k = Some u0 ->
                     JsMap.get (urls (db w1)) k = Some u0
                     /\ k <> UrlRecord.id u)
    /\ ids_below_counter (db w1).
Proof.
  intros Hbelow.
  destruct (createUrl_run urlData w) as (u & w1 & Hrun & Hu & Hdb & _).
  assert (Hid : UrlRecord.id u = counter_urls (counters (db w)))
    by (rewrite Hu; reflexivity).
  pose proof (below_counter_fresh _ _ Hbelow) as Hfresh.
  exists u, w1. split; [exact Hrun|]. rewrite Hdb. cbn [urls counters counter_urls].
  rewrite Hid. split; [apply set_fresh, Hfresh|]. split.
  - intros k u0 Hget.
    assert (Hne : k <> counter_urls (counters (db w))).
    { intros ->. apply Hfresh. apply (get_in_keys _ _ _ Hget). }
    split; [|exact Hne]. rewrite get_set_other by exact Hne. exact Hget.
  - unfold ids_below_counter. cbn [urls counters counter_urls].
    rewrite set_fresh by exact Hfresh.
    apply Forall_app. split.
    + eapply Forall_impl; [|exact Hbelow]. cbn. intros kv H. lia.
    + constructor; [cbn; lia|constructor].
Qed.

(** X10. In a store whose ids all lie below the counter, [createUrl]
    appends: every link stays under its id, unchanged, the new link has
    an id no stored link has, and the ids still lie below the counter. *)
Theorem createUrl_appends (urlData : UrlData.t) (w : World) :
  ids_below_counter (db w) ->
  exists u w1,
    Database.createUrl urlData w = (Ok u, w1)
    /\ urls (db w1) = (urls (db w) ++ [(UrlRecord.id u, u)])%list
    /\ (forall k u0, JsMap.get (urls (db w)) k = Some u0 ->
                     JsMap.get (urls (db w1)) k = Some u0
                     /\ k <> UrlRecord.id u)
    /\ ids_below_counter (db w1).
Proof.
  apply createUrl_appends_run.
Qed.

Lemma find_app_found {A} (p : A -> bool) (l l' : list A) (x : A) :
  find p l = Some x -> find p (l ++ l') = Some x.
Proof.
  induction l as [|a l IH]; simpl; [discriminate|].
  destruct (p a); [auto|exact IH].
Qed.

(** X11. A second link created with a code that is already stored is
    stored under a new id but shadowed: lookups by that code keep
    returning the older link. *)
Theorem duplicate_code_is_shadowed (urlData : UrlData.t) (old : UrlRecord.t)
    (w : World) :
  ids_below_counter (db w) ->
  Database.lookup_short_code (db w) (UrlData.short_url urlData) = Some old ->
  exists u w1,
    Database.createUrl urlData w = (Ok u, w1)
    /\ UrlRecord.short_url u = UrlData.short_url urlData
    /\ JsMap.get (urls (db w1)) (UrlRecord.id u) = Some u
    /\ Database.lookup_short_code (db w1) (UrlData.short_url urlData)
       = Some old.
Proof.
  intros Hbelow Hold.
  destruct (createUrl_run urlData w) as (u & w1 & Hrun & Hu & Hdb & _).
  assert (Hid : UrlRecord.id u = counter_urls (counters (db w)))
    by (rewrite Hu; reflexivity).
  exists u, w1. split; [exact Hrun|].
  split; [rewrite Hu; reflexivity|].
  rewrite Hdb. cbn [urls]. rewrite Hid. split; [apply get_set_same|].
  unfold Database.lookup_short_code. cbn [urls].
  rewrite set_fresh by (apply below_counter_fresh, Hbelow).
  unfold JsMap.values. rewrite map_app.
  apply find_app_found, Hold.
Qed.

(** X12. [deleteUrl] with a numeric id reports whether a link was stored
    under it, removes that link and no other, and leaves the clicks as
    they were; with a string, as a route parameter arrives, it reports
    [false] and removes nothing. *)
Theorem deleteUrl_removes_one_link (n : nat) (s : string) (w : World) :
  (exists w',
     Database.deleteUrl (KNum n) w = (Ok (JsMap.has (urls (db w)) n), w')
     /\ JsMap.get (urls (db w')) n = None
     /\ (forall k, k <> n ->
                   JsMap.get (urls (db w')) k = JsMap.get (urls (db w)) k)
     /\ clicks (db w') = clicks (db w))
  /\ (exists w',
        Database.deleteUrl (KStr s) w = (Ok false, w') /\ db w' = db w).
Proof.
  split.
  - eexists. split; [reflexivity|]. cbn [snd db urls clicks].
    split; [apply (get_delete_same (urls (db w)) n)|].
    split; [|reflexivity].
    intros k Hk. apply (get_delete_other (urls (db w)) n k Hk).
  - eexists. split; reflexivity.
Qed.

End Links.

Lemma createUrl_then_findUrlByShortCode_witness :
  exists u w1 w2,
    @Database.createUrl fixed_runtime
      (UrlData.mk "https://example.com/a" "abc123" None None None None None)
      (world_of empty_db) = (Ok u, w1)
    /\ Database.findUrlByShortCode "abc123" w1 = (Ok (Some u), w2)
    /\ UrlRecord.original_url u = "https://example.com/a".
Proof.
  apply (@createUrl_then_findUrlByShortCode fixed_runtime
           (UrlData.mk "https://example.com/a" "abc123" None None None None None)
           (world_of empty_db)).
  reflexivity.
Defined.

Lemma createUrl_appends_witness :
  exists u w1,
    @Database.createUrl fixed_runtime
      (UrlData.mk "https://example.com/b" "xyz789" None None None None None)
      (world_of live_db) = (Ok u, w1)
    /\ urls (db w1) = (urls live_db ++ [(UrlRecord.id u, u)])%list
    /\ (forall k u0, JsMap.get (urls live_db) k = Some u0 ->
                     JsMap.get (urls (db w1)) k = Some u0
                     /\ k <> UrlRecord.id u)
    /\ ids_below_counter (db w1).
Proof.
  apply (@createUrl_appends fixed_runtime
           (UrlData.mk "https://example.com/b" "xyz789" None None None None None)
           (world_of live_db)).
  repeat constructor.
Defined.

Lemma duplicate_code_is_shadowed_witness :
  exists u w1,
    @Database.createUrl fixed_runtime
      (UrlData.mk "https://example.com/b" "abc123" None None None None None)
      (world_of live_db) = (Ok u, w1)
    /\ UrlRecord.short_url u = "abc123"
    /\ JsMap.get (urls (db w1)) (UrlRecord.id u) = Some u
    /\ Database.lookup_short_code (db w1) "abc123"
       = Some (link 1 "https://example.com/a" "abc123" true None).
Proof.
  apply (@duplicate_code_is_shadowed fixed_runtime
           (UrlData.mk "https://example.com/b" "abc123" None None None None None)
           (link 1 "https://example.com/a" "abc123" true None)
           (world_of live_db)).
  - repeat constructor.
  - reflexivity.
Defined.

(** ** The click counter and the click log *)

Lemma get_in {V} (m : JsMap.t V) (k : nat) (v : V) :
  JsMap.get m k = Some v -> In (k, v) m.
Proof.
  induction m as [|[k0 v0] m IH]; simpl; [discriminate|].
  destruct (Nat.eqb_spec k0 k).
  - intros [= ->]. subst. auto.
  - auto.
Qed.

Lemma has_get {V} (m : JsMap.t V) (k : nat) :
  JsMap.has m k = true -> exists v, JsMap.get m k = Some v.
Proof.
  unfold JsMap.has. destruct (JsMap.get m k) as [v|]; [eauto|discriminate].
Qed.

(** With distinct keys, [set] on a key changes that one entry. *)
Lemma in_set {V} (m : JsMap.t V) (k : nat) (v : V) (kv : nat * V) :
  NoDup (map fst m) ->
  In kv (JsMap.set m k v) ->
  kv = (k, v) \/ (In kv m /\ fst kv <> k).
Proof.
  induction m as [|[k0 v0] m IH]; simpl; intros Hnd Hin.
  - destruct Hin as [<-|[]]. auto.
  - apply NoDup_cons_iff in Hnd as [Hk Hnd].
    destruct (Nat.eqb_spec k0 k).
    + subst k0. destruct Hin as [<-|Hin]; [auto|].
      right. split; [auto|]. intros E. apply Hk. rewrite <- E.
      apply in_map, Hin.
    + destruct Hin as [<-|Hin]; [right; split; [auto|exact n]|].
      destruct (IH Hnd Hin) as [->|[Hin' Hne]]; auto.
Qed.

Lemma filter_none {A} (f : A -> bool) (l : list A) :
  Forall (fun a => f a = false) l -> filter f l = [].
Proof.
  induction 1 as [|a l Ha _ IH]; simpl; [reflexivity|].
  rewrite Ha. exact IH.
Qed.

Lemma Forall_filter_keeps {A} (P : A -> Prop) (f : A -> bool) (l : list A) :
  Forall P l -> Forall P (filter f l).
Proof.
  intros H. apply Forall_forall. intros a Ha.
  apply filter_In in Ha as [Ha _]. rewrite Forall_forall in H. auto.
Qed.

Section ClickLog.
Context {RT : Runtime}.

(** What [createClick] returns and what it leaves behind. *)
Lemma createClick_full (data : ClickData.t) (w : World) :
  exists click w',
    Database.createClick data w = (Ok click, w')
    /\ click = ClickRecord.mk (counter_clicks (counters (db w)))
                 (ClickData.url_id data) (ClickData.ip_address data)
                 (ClickData.user_agent data) (ClickData.referer data)
                 (ClickData.country data) (ClickData.city data)
                 (ClickData.browser data) (ClickData.os data)
                 (ClickData.device_type data) (clock (ticks w))
    /\ db w'
       = mkDb (match JsMap.get (urls (db w)) (ClickData.url_id data) with
               | Some url =>
                   JsMap.set (urls (db w)) (ClickData.url_id data)
                     (UrlRecord.with_click_count url
                        (UrlRecord.click_count url + 1))
               | None => urls (db w)
               end)
              (JsMap.set (clicks (db w)) (counter_clicks (counters (db w)))
                         click)
              (mkCounters (counter_urls (counters (db w)))
                          (S (counter_clicks (counters (db w))))).
Proof.
  destruct w as [[us cs [cu cc]] t dr co sc].
  cbv [Database.createClick bind record_call get_db
       Database.set_counter_clicks Database.clicks_set Database.urls_set
       new_Date put_db ret db urls clicks counters counter_clicks
       counter_urls ticks draws console store_calls].
  destruct (JsMap.get us (ClickData.url_id data)) as [url|];
    eexists; eexists; repeat split; reflexivity.
Qed.

Lemma consistent_empty : consistent empty_db.
Proof.
  repeat split; constructor.
Qed.

Lemma createUrl_consistent (urlData : UrlData.t) (w : World) :
  consistent (db w) -> consistent (db (snd (Database.createUrl urlData w))).
Proof.
  intros (Hwf & Hbelow & [Hck Hcu] & Hcount).
  pose proof (createUrl_keeps_wf urlData w Hwf) as Hwf'.
  destruct (createUrl_appends_run urlData w Hbelow)
    as (u & w1 & Hrun & Hurls & _ & Hbelow').
  destruct (createUrl_run urlData w) as (u' & w1' & Hrun' & Hu & Hdb & _).
  rewrite Hrun in Hrun'. injection Hrun' as <- <-.
  rewrite Hrun in Hwf' |- *. cbn [snd] in Hwf' |- *.
  assert (Hclicks : clicks (db w1) = clicks (db w)) by (rewrite Hdb; reflexivity).
  assert (Hcnt : counters (db w1)
                 = mkCounters (S (counter_urls (counters (db w))))
                              (counter_clicks (counters (db w))))
    by (rewrite Hdb; reflexivity).
  assert (Hof : forall k, Database.clicks_of (db w1) k
                          = Database.clicks_of (db w) k).
  { intros k. unfold Database.clicks_of. rewrite Hclicks. reflexivity. }
  split; [exact Hwf'|]. split; [exact Hbelow'|]. split.
  - unfold clicks_below_counters. rewrite Hclicks, Hcnt.
    cbn [counter_urls counter_clicks]. split; [exact Hck|].
    eapply Forall_impl; [|exact Hcu]. cbn. intros c Hc. lia.
  - unfold counts_agree. rewrite Hurls. apply Forall_app. split.
    + eapply Forall_impl; [|exact Hcount]. cbn. intros kv Hkv.
      rewrite Hof. exact Hkv.
    + constructor; [|constructor]. cbn [fst snd]. rewrite Hof.
      unfold Database.clicks_of. rewrite filter_none.
      * rewrite Hu. reflexivity.
      * eapply Forall_impl; [|exact Hcu]. cbn. intros c Hc.
        apply Nat.eqb_neq. rewrite Hu. cbn. lia.
Qed.

Lemma createClick_consistent (data : ClickData.t) (w : World) :
  consistent (db w) ->
  JsMap.has (urls (db w)) (ClickData.url_id data) = true ->
  consistent (db (snd (Database.createClick data w))).
Proof.
  intros ([Hnd Hid] & Hbelow & [Hck Hcu] & Hcount) Hhas.
  destruct (has_get _ _ Hhas) as (u0 & Hget).
  destruct (createClick_full data w) as (click & w1 & Hrun & Hclick & Hdb).
  rewrite Hrun. cbn [snd]. rewrite Hget in Hdb.
  set (x := ClickData.url_id data) in *.
  set (u1 := UrlRecord.with_click_count u0 (UrlRecord.click_count u0 + 1)) in *.
  pose proof (get_in _ _ _ Hget) as Hin0.
  assert (Hx : x = UrlRecord.id u0).
  { rewrite Forall_forall in Hid. apply (Hid _ Hin0). }
  assert (Hxcu : x < counter_urls (counters (db w))).
  { unfold ids_below_counter in Hbelow. rewrite Forall_forall in Hbelow.
    apply (Hbelow _ Hin0). }
  assert (Hcx : ClickRecord.url_id click = x) by (rewrite Hclick; reflexivity).
  assert (Hclicks : clicks (db w1)
                    = (clicks (db w)
                       ++ [(counter_clicks (counters (db w)), click)])%list).
  { rewrite Hdb. cbn [clicks]. apply set_fresh, below_counter_fresh, Hck. }
  assert (Hof : forall k,
            Database.clicks_of (db w1) k
            = (Database.clicks_of (db w) k
               ++ if Nat.eqb x k then [click] else [])%list).
  { intros k. unfold Database.clicks_of, JsMap.values.
    rewrite Hclicks, map_app, filter_app. cbn [map filter snd].
    rewrite Hcx. destruct (Nat.eqb x k); reflexivity. }
  unfold consistent, wf_store, ids_below_counter, clicks_below_counters,
    counts_agree.
  assert (Hurls : urls (db w1) = JsMap.set (urls (db w)) x u1)
    by (rewrite Hdb; reflexivity).
  assert (Hcnt : counters (db w1)
                 = mkCounters (counter_urls (counters (db w)))
                              (S (counter_clicks (counters (db w)))))
    by (rewrite Hdb; reflexivity).
  rewrite Hclicks, Hurls, Hcnt. cbn [counter_urls counter_clicks].
  repeat split.
  - rewrite (set_keeps_keys _ _ _ _ Hget). exact Hnd.
  - apply set_keeps_ids; [exact Hx|exact Hid].
  - apply Forall_forall. intros kv Hkv.
    apply (in_set _ _ _ _ Hnd) in Hkv as [->|[Hkv _]]; [exact Hxcu|].
    unfold ids_below_counter in Hbelow. rewrite Forall_forall in Hbelow.
    apply Hbelow, Hkv.
  - apply Forall_app. split.
    + eapply Forall_impl; [|exact Hck]. cbn. intros kv H. lia.
    + constructor; [cbn; lia|constructor].
  - unfold JsMap.values. rewrite map_app. apply Forall_app. split.
    + exact Hcu.
    + constructor; [|constructor]. cbn [snd]. rewrite Hcx. exact Hxcu.
  - apply Forall_forall. intros kv Hkv.
    apply (in_set _ _ _ _ Hnd) in Hkv as [->|[Hkv Hne]].
    + cbn [fst snd]. rewrite Hof, Nat.eqb_refl, length_app. cbn.
      unfold counts_agree in Hcount. rewrite Forall_forall in Hcount.
      specialize (Hcount _ Hin0). cbn in Hcount. lia.
    + rewrite Hof.
      destruct (Nat.eqb_spec x (fst kv)) as [E|_]; [congruence|].
      rewrite app_nil_r.
      unfold counts_agree in Hcount. rewrite Forall_forall in Hcount.
      apply Hcount, Hkv.
Qed.

Lemma deleteUrl_consistent (id : nat) (w : World) :
  consistent (db w) ->
  consistent (db (snd (Database.deleteUrl (KNum id) w))).
Proof.
  intros (Hwf & Hbelow & Hclicks & Hcount).
  split; [apply deleteUrl_keeps_wf, Hwf|].
  destruct w as [[us cs [cu cc]] t dr co sc].
  cbn in Hbelow, Hclicks, Hcount |- *.
  split; [apply Forall_filter_keeps, Hbelow|].
  split; [exact Hclicks|].
  apply Forall_filter_keeps, Hcount.
Qed.

Lemma reachable_consistent (w : World) : reachable w -> consistent (db w).
Proof.
  induction 1 as [w Hw|w d _ IH|w c _ IH Hhas|w id _ IH].
  - rewrite Hw. apply consistent_empty.
  - apply createUrl_consistent, IH.
  - apply createClick_consistent; assumption.
  - apply deleteUrl_consistent, IH.
Qed.

(** X13. In every store the routes can bring about, each link sits
    under its own id, and its [click_count] is the number of stored
    clicks whose [url_id] is that id. *)
Theorem click_count_matches_click_log (w : World) (k : nat)
    (u : UrlRecord.t) :
  reachable w ->
  JsMap.get (urls (db w)) k = Some u ->
  UrlRecord.id u = k
  /\ UrlRecord.click_count u = List.length (Database.clicks_of (db w) k).
Proof.
  intros Hreach Hget.
  destruct (reachable_consistent w Hreach) as ([_ Hid] & _ & _ & Hcount).
  pose proof (get_in _ _ _ Hget) as Hin.
  rewrite Forall_forall in Hid. unfold counts_agree in Hcount.
  rewrite Forall_forall in Hcount.
  split; [symmetry; apply (Hid _ Hin)|apply (Hcount _ Hin)].
Qed.

End ClickLog.

Lemma click_count_witness :
  exists u,
    JsMap.get (urls (db clicked_once_world)) 1 = Some u
    /\ UrlRecord.id u = 1
    /\ UrlRecord.click_count u
       = List.length (Database.clicks_of (db clicked_once_world) 1).
Proof.
  eexists. split; [vm_compute; reflexivity|].
  apply (@click_count_matches_click_log fixed_runtime clicked_once_world 1).
  - apply reach_createClick; [|vm_compute; reflexivity].
    apply reach_createUrl, reach_empty. reflexivity.
  - vm_compute. reflexivity.
Defined.

(** ** More on resolution *)

Section MoreResolution.
Context {RT : Runtime}.

(** X14. The middleware [validateShortCode] decides by the strict
    pattern alone: a code of 1 to 20 letters, digits, hyphens or
    underscores goes on to the handler, anything else is answered 400;
    in neither case is the world, console included, touched. *)
Theorem validateShortCode_decides_by_pattern (req : Request) (w : World) :
  exists r,
    Security.validateShortCode req w = (Ok r, w)
    /\ match params_shortCode req with
       | Some code =>
           if Security.validShortCodeRegex code
           then r = Next req
           else exists message, r = Respond (Json 400 "Invalid URL" message)
       | None => r = Respond (Json 400 "Invalid URL" "Short code is required")
       end.
Proof.
  destruct (params_shortCode req) as [code|] eqn:Hp.
  - destruct (Security.validShortCodeRegex code) eqn:Hv.
    + exists (Next req). split; [|reflexivity].
      apply (validateShortCode_accepts req code w Hp Hv).
    + unfold Security.validateShortCode, try_catch. rewrite Hp.
      destruct (JsString.truthy (Some code)); cbn [negb JsString.render].
      * rewrite Hv. cbn [negb]. eexists. split; [reflexivity|].
        eexists. reflexivity.
      * eexists. split; [reflexivity|]. eexists. reflexivity.
  - unfold Security.validateShortCode, try_catch. rewrite Hp.
    eexists. split; reflexivity.
Qed.

(** The handler's path for a link that is switched off. *)
Lemma inactive_resolution (Click : ClickModel) (req : Request)
    (code : string) (u : UrlRecord.t) (w : World) :
  params_shortCode req = Some code ->
  Security.validShortCodeRegex code = true ->
  Database.lookup_short_code (db w) code = Some u ->
  UrlRecord.is_active u = false ->
  exists w',
    Routes.get_shortCode Click req w
    = (Ok (Json 410 "URL disabled" "This shortened URL has been disabled"), w')
    /\ db w' = db w
    /\ ticks w' = ticks w
    /\ store_calls w'
       = (store_calls w ++ [CallFindUrlByShortCode code])%list.
Proof.
  intros Hp Hv Hl Ha.
  rewrite (get_shortCode_valid Click req code w Hp Hv).
  unfold Routes.redirect_handler, try_catch, bind.
  cbn [params_shortCode set_clientIp]. rewrite Hp. fold (by_short_url code).
  rewrite (findOne_by_code code w (valid_code_truthy code Hv)), Hl, Ha.
  eexists. repeat split.
Qed.

(** X15. Resolving the code of a link that has been switched off answers
    410 with the disabled message, whatever its expiry date; no click is
    recorded, the store is unchanged and the clock is not read. *)
Theorem resolve_inactive_is_gone (Click : ClickModel) (req : Request)
    (code : string) (u : UrlRecord.t) (w : World) :
  params_shortCode req = Some code ->
  Security.validShortCodeRegex code = true ->
  Database.lookup_short_code (db w) code = Some u ->
  UrlRecord.is_active u = false ->
  exists w',
    Routes.get_shortCode Click req w
    = (Ok (Json 410 "URL disabled" "This shortened URL has been disabled"), w')
    /\ db w' = db w
    /\ ticks w' = ticks w
    /\ store_calls w'
       = (store_calls w ++ [CallFindUrlByShortCode code])%list.
Proof.
  apply inactive_resolution.
Qed.

(** The tracking block against the in-memory store: the click it adds. *)
Lemma track_click_records (req : Request) (u : UrlRecord.t) (w : World) :
  exists w' createdAt,
    Routes.track_click Models.Click req u w = (Ok tt, w')
    /\ clicks (db w')
       = JsMap.set (clicks (db w)) (counter_clicks (counters (db w)))
           (ClickRecord.mk (counter_clicks (counters (db w)))
              (UrlRecord.id u) (clientIp req)
              (JsString.render
                 (JsString.or_else (user_agent (headers req)) (Some "")))
              (JsString.or_else (referer (headers req))
                 (JsString.or_else (referrer (headers req)) None))
              None None None None
              (Routes.detect_device
                 (JsString.render
                    (JsString.or_else (user_agent (headers req)) (Some ""))))
              createdAt)
    /\ counter_clicks (counters (db w')) = S (counter_clicks (counters (db w))).
Proof.
  unfold Routes.track_click, try_catch, bind, new_Date.
  cbn [Click_create Models.Click].
  match goal with
  | |- context [Database.createClick ?d ?w0] =>
      destruct (createClick_full d w0) as (click & w' & Hrun & Hclick & Hdb);
      rewrite Hrun
  end.
  exists w'. eexists. split; [reflexivity|].
  rewrite Hdb. cbn [clicks counters counter_clicks db]. rewrite Hclick.
  split; reflexivity.
Qed.

(** X16. Resolving a live link against the in-memory store records one
    click under the next click id: it carries the link's id, the
    client address that [extractClientIp] settled on, the user agent
    (empty when the header is missing), the referer and the device class
    derived from the user agent. *)
Theorem live_resolution_records_click (req : Request) (code : string)
    (u : UrlRecord.t) (w : World) :
  params_shortCode req = Some code ->
  Security.validShortCodeRegex code = true ->
  Database.lookup_short_code (db w) code = Some u ->
  UrlRecord.is_active u = true ->
  expired_at u (clock (ticks w)) = false ->
  exists w' createdAt,
    Routes.get_shortCode Models.Click req w
    = (Ok (Redirect 301 (UrlRecord.original_url u)), w')
    /\ JsMap.get (clicks (db w')) (counter_clicks (counters (db w)))
       = Some (click_of_request req u (counter_clicks (counters (db w)))
                                createdAt)
    /\ counter_clicks (counters (db w'))
       = S (counter_clicks (counters (db w))).
Proof.
  intros Hp Hv Hl Ha He.
  rewrite (get_shortCode_valid Models.Click req code w Hp Hv).
  destruct (redirect_handler_live Models.Click
              (set_clientIp req (client_ip req)) code u w Hp
              (valid_code_truthy code Hv) Hl Ha He)
    as (w1 & _ & Hdb1 & _ & Hfinish).
  destruct (track_click_records (set_clientIp req (client_ip req)) u w1)
    as (w2 & createdAt & Htrack & Hclicks & Hcnt).
  exists w2, createdAt. split; [apply Hfinish, Htrack|].
  rewrite Hdb1 in Hclicks, Hcnt. split; [|exact Hcnt].
  rewrite Hclicks, get_set_same. reflexivity.
Qed.

End MoreResolution.

Lemma resolve_inactive_witness :
  exists w',
    @Routes.get_shortCode fixed_runtime (@Models.Click fixed_runtime)
      (request_for "abc123") (world_of disabled_db)
    = (Ok (Json 410 "URL disabled" "This shortened URL has been disabled"), w')
    /\ db w' = disabled_db
    /\ ticks w' = 0
    /\ store_calls w' = [CallFindUrlByShortCode "abc123"].
Proof.
  apply (@resolve_inactive_is_gone fixed_runtime (@Models.Click fixed_runtime)
           (request_for "abc123") "abc123"
           (link 1 "https://example.com/a" "abc123" false None)
           (world_of disabled_db)); reflexivity.
Defined.

Lemma live_resolution_records_click_witness :
  exists w' createdAt,
    @Routes.get_shortCode fixed_runtime (@Models.Click fixed_runtime)
      (request_for "abc123") (world_of live_db)
    = (Ok (Redirect 301 "https://example.com/a"), w')
    /\ JsMap.get (clicks (db w')) 1
       = Some (click_of_request (request_for "abc123")
                 (link 1 "https://example.com/a" "abc123" true None) 1
                 createdAt)
    /\ counter_clicks (counters (db w')) = 2.
Proof.
  apply (@live_resolution_records_click fixed_runtime
           (request_for "abc123") "abc123"
           (link 1 "https://example.com/a" "abc123" true None)
           (world_of live_db)); reflexivity.
Defined.

(** ** Shortening, then resolving *)

Section ShortenResolve.
Context {RT : Runtime}.

(** X17. A link that POST /shorten has answered 201 for resolves: when
    its code passes the resolver's syntax check and it has not expired,
    GET on the code answers 301 to the normalised form of the URL that
    was submitted. The full short URL of the answer is the configured
    domain followed by the code. *)
Theorem shorten_then_resolve (protocol_of : string -> option string)
    (app_domain : option string) (Click : ClickModel)
    (post : Request) (body : Routes.ShortenBody) (get : Request)
    (u : UrlRecord.t) (full_short_url : string) (w w1 : World) :
  Routes.shorten_handler protocol_of app_domain post body w
  = (Ok (Routes.Created u full_short_url), w1) ->
  Security.validShortCodeRegex (UrlRecord.short_url u) = true ->
  expired_at u (clock (ticks w1)) = false ->
  params_shortCode get = Some (UrlRecord.short_url u) ->
  full_short_url
  = "https://" ++ Routes.domain_of app_domain ++ "/" ++ UrlRecord.short_url u
  /\ exists w2,
       Routes.get_shortCode Click get w1
       = (Ok (Redirect 301
                (UrlService.normalizeUrl (Routes.body_original_url body))),
          w2).
Proof.
  intros Hrun Hv He Hp.
  unfold Routes.shorten_handler, try_catch in Hrun.
  destruct (UrlService.isValidUrl protocol_of
              (UrlService.normalizeUrl (Routes.body_original_url body)));
    cbn [negb] in Hrun; [|discriminate].
  unfold bind, UrlService.generateShortCode in Hrun.
  destruct (generateShortCode_loop_result UrlService.maxAttempts
              (UrlService.default "hash" (Routes.body_algorithm body))
              (UrlService.normalizeUrl (Routes.body_original_url body)) w)
    as (w0 & Hdb0 & _ & [(code & Hgen & Hfree)|Hthrow]).
  - rewrite Hgen in Hrun. cbn [Url_create Models.Url] in Hrun.
    match type of Hrun with
    | context [Database.createUrl ?d w0] =>
        destruct (createUrl_run d w0) as (u' & w1' & Hc & Hu & Hdb & _)
    end.
    rewrite Hc in Hrun. cbn [ret] in Hrun.
    injection Hrun as Eu Ef Ew. subst u' w1'.
    assert (Hcode : UrlRecord.short_url u = code) by (rewrite Hu; reflexivity).
    split; [symmetry; exact Ef|].
    assert (Hnone : Database.lookup_short_code (db w0) code = None).
    { rewrite Hdb0. unfold taken in Hfree.
      rewrite <- Hcode in Hfree |- *.
      pose proof (valid_code_truthy _ Hv) as Ht. cbn [JsString.truthy] in Ht.
      rewrite Ht in Hfree. cbn [andb] in Hfree.
      destruct (Database.lookup_short_code (db w) (UrlRecord.short_url u));
        [discriminate|reflexivity]. }
    assert (Hfound : Database.lookup_short_code (db w1) (UrlRecord.short_url u)
                     = Some u).
    { unfold Database.lookup_short_code. rewrite Hdb. cbn [urls].
      apply find_set_free.
      - rewrite Hcode. exact Hnone.
      - apply String.eqb_refl. }
    assert (Hact : UrlRecord.is_active u = true) by (rewrite Hu; reflexivity).
    assert (Horig : UrlRecord.original_url u
                    = UrlService.normalizeUrl (Routes.body_original_url body))
      by (rewrite Hu; reflexivity).
    rewrite <- Horig.
    apply (live_code_redirects Click get _ u w1 Hp Hv Hfound Hact He).
  - rewrite Hthrow in Hrun. cbn in Hrun. discriminate.
Qed.

End ShortenResolve.

Lemma shorten_then_resolve_witness :
  exists w2,
    @Routes.get_shortCode fixed_runtime failing_Click
      (request_for "rL0Y20") shortened_world
    = (Ok (Redirect 301
             (UrlService.normalizeUrl
                (Routes.body_original_url (shorten_body "example.com/a/b/c")))),
       w2).
Proof.
  refine (proj2 (@shorten_then_resolve fixed_runtime prefix_protocol None
                   failing_Click (request_for "unused")
                   (shorten_body "example.com/a/b/c") (request_for "rL0Y20")
                   shortened_link "https://mini.cloudrakshak.com/rL0Y20"
                   (world_of empty_db) shortened_world _ _ _ _));
    vm_compute; reflexivity.
Defined.

(** ** Updating links *)

Section Updates.
Context {RT : Runtime}.

Lemma updateUrl_run (n : nat) (updates : UrlUpdates.t) (u : UrlRecord.t)
    (w : World) :
  JsMap.get (urls (db w)) n = Some u ->
  exists w',
    Database.updateUrl (KNum n) updates w
    = (Ok (Some (Database.assign u updates (clock (ticks w)))), w')
    /\ db w'
       = mkDb (JsMap.set (urls (db w)) n
                 (Database.assign u updates (clock (ticks w))))
              (clicks (db w)) (counters (db w))
    /\ ticks w' = S (ticks w).
Proof.
  intros Hget. unfold Database.updateUrl, bind, get_db. cbv iota beta.
  rewrite Hget. eexists. split; [reflexivity|]. split; reflexivity.
Qed.

(** X18. [updateUrl] on an id no link is stored under, or on a string
    as a route parameter arrives, returns [null] and changes nothing, the
    clock included. On a stored link it returns the record with the
    given properties overwritten and [updatedAt] set to the clock;
    [findUrlById] returns that record afterwards, and no other link is
    touched. *)
Theorem updateUrl_then_findUrlById (n : nat) (s : string)
    (updates : UrlUpdates.t) (w : World) :
  Database.updateUrl (KStr s) updates w = (Ok None, w)
  /\ match JsMap.get (urls (db w)) n with
     | None => Database.updateUrl (KNum n) updates w = (Ok None, w)
     | Some u =>
         exists w',
           Database.updateUrl (KNum n) updates w
           = (Ok (Some (Database.assign u updates (clock (ticks w)))), w')
           /\ fst (Database.findUrlById (KNum n) w')
              = Ok (Some (Database.assign u updates (clock (ticks w))))
           /\ UrlRecord.updatedAt (Database.assign u updates (clock (ticks w)))
              = clock (ticks w)
           /\ (forall k, k <> n ->
                 JsMap.get (urls (db w')) k = JsMap.get (urls (db w)) k)
     end.
Proof.
  split; [reflexivity|].
  destruct (JsMap.get (urls (db w)) n) as [u|] eqn:Hget.
  - destruct (updateUrl_run n updates u w Hget) as (w' & Hrun & Hdb & _).
    exists w'. split; [exact Hrun|]. split; [|split; [reflexivity|]].
    + unfold Database.findUrlById, bind, record_call, get_db, ret.
      cbn [fst db Database.lookup_id]. rewrite Hdb. cbn [urls].
      rewrite get_set_same. reflexivity.
    + intros k Hk. rewrite Hdb. cbn [urls]. apply get_set_other, Hk.
  - unfold Database.updateUrl, bind, get_db. cbv iota beta.
    rewrite Hget. reflexivity.
Qed.

(** Switching a link on or off in a well-formed store: the link found by
    its code is the one updated. *)
Lemma set_is_active_found (code : string) (u : UrlRecord.t) (b : bool)
    (w : World) :
  wf_store (db w) ->
  Database.lookup_short_code (db w) code = Some u ->
  exists u' w',
    Database.updateUrl (KNum (UrlRecord.id u)) (UrlUpdates.only_is_active b) w
    = (Ok (Some u'), w')
    /\ wf_store (db w')
    /\ Database.lookup_short_code (db w') code = Some u'
    /\ ticks w' = S (ticks w)
    /\ UrlRecord.is_active u' = b
    /\ UrlRecord.id u' = UrlRecord.id u
    /\ UrlRecord.original_url u' = UrlRecord.original_url u
    /\ UrlRecord.expires_at u' = UrlRecord.expires_at u.
Proof.
  intros [Hnd Hid] Hl.
  destruct (found_by_code_is_under_its_id (urls (db w)) code u Hnd Hid Hl)
    as [Hget Hset].
  destruct (updateUrl_run (UrlRecord.id u) (UrlUpdates.only_is_active b) u w Hget)
    as (w' & Hrun & Hdb & Hticks).
  eexists; exists w'. split; [exact Hrun|].
  assert (Hcode : code_is code
            (Database.assign u (UrlUpdates.only_is_active b) (clock (ticks w)))
          = true).
  { apply find_some in Hl. apply Hl. }
  rewrite Hdb. unfold wf_store, Database.lookup_short_code. cbn [urls].
  repeat split; try reflexivity.
  - rewrite (set_keeps_keys _ _ _ _ Hget). exact Hnd.
  - apply set_keeps_ids; [reflexivity|exact Hid].
  - apply Hset, Hcode.
  - exact Hticks.
Qed.

(** X19. Switching a stored link off with [updateUrl] makes its code
    answer 410 with the disabled message; switching it on again makes the
    code answer the 301 redirect to the same [original_url], as long as
    the link has not expired by then. *)
Theorem deactivate_then_reactivate (Click : ClickModel) (req : Request)
    (code : string) (u : UrlRecord.t) (w : World) :
  params_shortCode req = Some code ->
  Security.validShortCodeRegex code = true ->
  wf_store (db w) ->
  Database.lookup_short_code (db w) code = Some u ->
  expired_at u (clock (ticks w + 2)) = false ->
  exists u1 w1 w2 u2 w3 w4,
    Database.updateUrl (KNum (UrlRecord.id u))
      (UrlUpdates.only_is_active false) w = (Ok (Some u1), w1)
    /\ Routes.get_shortCode Click req w1
       = (Ok (Json 410 "URL disabled" "This shortened URL has been disabled"),
          w2)
    /\ Database.updateUrl (KNum (UrlRecord.id u))
         (UrlUpdates.only_is_active true) w2 = (Ok (Some u2), w3)
    /\ Routes.get_shortCode Click req w3
       = (Ok (Redirect 301 (UrlRecord.original_url u)), w4).
Proof.
  intros Hp Hv Hwf Hl He.
  destruct (set_is_active_found code u false w Hwf Hl)
    as (u1 & w1 & Hup1 & Hwf1 & Hl1 & Ht1 & Ha1 & Hid1 & Ho1 & Hx1).
  destruct (inactive_resolution Click req code u1 w1 Hp Hv Hl1 Ha1)
    as (w2 & Hget2 & Hdb2 & Ht2 & _).
  rewrite <- Hdb2 in Hwf1, Hl1.
  destruct (set_is_active_found code u1 true w2 Hwf1 Hl1)
    as (u2 & w3 & Hup2 & _ & Hl3 & Ht3 & Ha3 & _ & Ho3 & Hx3).
  assert (He3 : expired_at u2 (clock (ticks w3)) = false).
  { unfold expired_at in *. rewrite Hx3, Hx1, Ht3, Ht2, Ht1.
    replace (S (S (ticks w))) with (ticks w + 2) by lia. exact He. }
  destruct (live_code_redirects Click req code u2 w3 Hp Hv Hl3 Ha3 He3)
    as (w4 & Hget4).
  exists u1, w1, w2, u2, w3, w4.
  split; [exact Hup1|]. split; [exact Hget2|].
  split; [rewrite <- Hid1; exact Hup2|].
  rewrite <- Ho1, <- Ho3. exact Hget4.
Qed.

End Updates.

Lemma deactivate_then_reactivate_witness :
  exists u1 w1 w2 u2 w3 w4,
    @Database.updateUrl fixed_runtime (KNum 1)
      (UrlUpdates.only_is_active false) (world_of live_db) = (Ok (Some u1), w1)
    /\ @Routes.get_shortCode fixed_runtime failing_Click
         (request_for "abc123") w1
       = (Ok (Json 410 "URL disabled" "This shortened URL has been disabled"),
          w2)
    /\ @Database.updateUrl fixed_runtime (KNum 1)
         (UrlUpdates.only_is_active true) w2 = (Ok (Some u2), w3)
    /\ @Routes.get_shortCode fixed_runtime failing_Click
         (request_for "abc123") w3
       = (Ok (Redirect 301 "https://example.com/a"), w4).
Proof.
  apply (@deactivate_then_reactivate fixed_runtime failing_Click
           (request_for "abc123") "abc123"
           (link 1 "https://example.com/a" "abc123" true None)
           (world_of live_db)); try reflexivity.
  split; cbn.
  - repeat constructor. intros [].
  - repeat constructor.
Defined.

(** ** Parameter sanitising and the client address *)

Lemma chars_of_chars (l : list ascii) :
  JsString.chars (JsString.of_chars l) = l.
Proof. apply list_ascii_of_string_of_list_ascii. Qed.

Lemma length_chars (s : string) :
  List.length (JsString.chars s) = String.length s.
Proof.
  unfold JsString.chars. induction s as [|c s IH]; simpl; congruence.
Qed.

Lemma includes_char_absent (c : ascii) (s : string) :
  JsString.includes s (String c "") = false ->
  Forall (fun a => Ascii.eqb c a = false) (JsString.chars s).
Proof.
  unfold JsString.chars.
  induction s as [|a s IH]; [constructor|].
  cbn [JsString.includes list_ascii_of_string]. unfold JsString.startsWith.
  cbn [String.prefix].
  destruct (ascii_dec c a) as [E|E].
  - destruct s; discriminate.
  - cbn [orb]. intros H. constructor; [|apply IH, H].
    apply Ascii.eqb_neq, E.
Qed.

Lemma existsb_none {A} (p : A -> bool) (l : list A) :
  Forall (fun a => p a = false) l -> List.existsb p l = false.
Proof.
  induction 1 as [|a l Ha _ IH]; simpl; [reflexivity|].
  rewrite Ha. exact IH.
Qed.

Lemma filter_length_le {A} (f : A -> bool) (l : list A) :
  List.length (filter f l) <= List.length l.
Proof.
  induction l as [|a l IH]; simpl; [lia|]. destruct (f a); simpl; lia.
Qed.

(** A value that is not suspicious is safe once its control characters
    are removed. *)
Lemma clean_value_safe (value : string) :
  Security.suspicious value = false -> safe_value (clean_value value) = true.
Proof.
  unfold Security.suspicious. intros H.
  apply orb_false_iff in H as [H Hlen].
  apply orb_false_iff in H as [_ Hpct].
  unfold safe_value, clean_value, JsString.existsb, JsString.remove_all.
  rewrite chars_of_chars, <- length_chars, chars_of_chars.
  rewrite !andb_true_iff, !negb_true_iff. repeat split.
  - apply existsb_none, Forall_forall. intros a Ha.
    apply filter_In in Ha as [_ Ha]. apply negb_true_iff, Ha.
  - apply existsb_none, Forall_filter_keeps.
    eapply Forall_impl; [|apply (includes_char_absent _ _ Hpct)].
    intros a Ha. exact Ha.
  - apply Nat.leb_le. apply Nat.ltb_ge in Hlen.
    pose proof (filter_length_le (fun c => negb (Security.is_control c))
                  (JsString.chars value)).
    rewrite length_chars in H. lia.
Qed.

Lemma sanitize_loop_outcome (entries done : list (string * string))
    (ip : option string) (w : World) :
  exists r w',
    Security.sanitize_loop entries done ip w = (Ok r, w')
    /\ match r with
       | Security.Passed out =>
           w' = w
           /\ out = (done ++ map (fun kv => (fst kv, clean_value (snd kv)))
                               entries)%list
           /\ Forall (fun kv => Security.suspicious (snd kv) = false) entries
       | Security.Rejected resp =>
           resp = Json 400 "Invalid request"
                    "Request parameters contain invalid data"
           /\ db w' = db w
           /\ exists key value,
                In (key, value) entries
                /\ Security.suspicious value = true
                /\ console w'
                   = (console w
                      ++ [LogWarn (Security.suspicious_message key value ip)])%list
       end.
Proof.
  revert done. induction entries as [|[key value] rest IH]; intros done.
  - exists (Security.Passed done), w. cbn. rewrite app_nil_r.
    repeat split. constructor.
  - cbn [Security.sanitize_loop].
    destruct (Security.suspicious value) eqn:Hs.
    + eexists; eexists. split; [reflexivity|]. cbn.
      repeat split. exists key, value. repeat split; auto.
    + destruct (IH (done ++ [(key, JsString.remove_all Security.is_control value)])%list)
        as (r & w' & Hrun & Hr).
      exists r, w'. split; [exact Hrun|].
      destruct r as [resp|out].
      * destruct Hr as (Hresp & Hdb & k & v & Hin & Hsus & Hcon).
        repeat split; try assumption. exists k, v. repeat split; auto.
        right. exact Hin.
      * destruct Hr as (Hw & Hout & Hall). repeat split; try assumption.
        -- rewrite Hout, <- app_assoc. reflexivity.
        -- constructor; assumption.
Qed.

(** X20. [sanitizeParams] either passes every parameter on, with its
    control characters removed, or answers 400 and warns on the console
    with the key, the value and the client address of a parameter that
    holds two dots in a row, a percent sign or more than 100 characters.
    What it passes on holds no control character, no percent sign and at
    most 100 characters. *)
Theorem sanitizeParams_outcome (params : list (string * string))
    (ip : option string) (w : World) :
  exists r w',
    Security.sanitizeParams params ip w = (Ok r, w')
    /\ match r with
       | Security.Passed out =>
           w' = w
           /\ out = map (fun kv => (fst kv, clean_value (snd kv))) params
           /\ Forall (fun kv => Security.suspicious (snd kv) = false) params
           /\ Forall (fun kv => safe_value (snd kv) = true) out
       | Security.Rejected resp =>
           resp = Json 400 "Invalid request"
                    "Request parameters contain invalid data"
           /\ db w' = db w
           /\ exists key value,
                In (key, value) params
                /\ Security.suspicious value = true
                /\ console w'
                   = (console w
                      ++ [LogWarn (Security.suspicious_message key value ip)])%list
       end.
Proof.
  destruct (sanitize_loop_outcome params [] ip w) as (r & w' & Hrun & Hr).
  exists r, w'. unfold Security.sanitizeParams, try_catch. rewrite Hrun.
  split; [reflexivity|].
  destruct r as [resp|out]; [exact Hr|].
  destruct Hr as (Hw & Hout & Hall). cbn [app] in Hout.
  repeat split; try assumption.
  rewrite Hout. apply Forall_map. cbn [snd].
  eapply Forall_impl; [|exact Hall]. cbn. intros kv. apply clean_value_safe.
Qed.

Lemma drop_while_hd (p : ascii -> bool) (l : list ascii) (c : ascii) :
  hd_error (JsString.drop_while p l) = Some c -> p c = false.
Proof.
  induction l as [|a l IH]; simpl; [discriminate|].
  destruct (p a) eqn:E; [exact IH|]. simpl. intros [= <-]. exact E.
Qed.

Lemma drop_while_snoc (p : ascii -> bool) (l : list ascii) (c : ascii) :
  p c = false ->
  JsString.drop_while p (l ++ [c]) = (JsString.drop_while p l ++ [c])%list.
Proof.
  intros Hc. induction l as [|a l IH]; simpl.
  - rewrite Hc. reflexivity.
  - destruct (p a); [exact IH|reflexivity].
Qed.

Lemma drop_while_keeps (P : ascii -> Prop) (p : ascii -> bool)
    (l : list ascii) :
  Forall P l -> Forall P (JsString.drop_while p l).
Proof.
  induction 1 as [|a l Ha Hl IH]; simpl; [constructor|].
  destruct (p a); [exact IH|constructor; assumption].
Qed.

Lemma take_until_stops (p : ascii -> bool) (l : list ascii) :
  Forall (fun c => p c = false) (JsString.take_until p l).
Proof.
  induction l as [|a l IH]; simpl; [constructor|].
  destruct (p a) eqn:E; constructor; assumption.
Qed.

(** X21. When the request carries a non-empty [x-forwarded-for] header,
    [extractClientIp] takes the client address from it, whatever
    [x-real-ip] and the socket say: the result holds no comma and neither
    starts nor ends with white space. *)
Theorem forwarded_address_is_trimmed_first_entry (req : Request)
    (forwarded : string) (w : World) :
  x_forwarded_for (headers req) = Some forwarded ->
  forwarded <> "" ->
  exists ip,
    Security.extractClientIp req w = (Ok (Next (set_clientIp req (Some ip))), w)
    /\ ip = JsString.trim (JsString.before_comma forwarded)
    /\ JsString.existsb (fun c => Ascii.eqb c ","%char) ip = false
    /\ (forall c, hd_error (JsString.chars ip) = Some c ->
                  JsString.is_space c = false)
    /\ (forall c, hd_error (rev (JsString.chars ip)) = Some c ->
                  JsString.is_space c = false).
Proof.
  intros Hf Hne.
  assert (Ht : JsString.truthy (Some forwarded) = true).
  { cbn. apply negb_true_iff, String.eqb_neq, Hne. }
  exists (JsString.trim (JsString.before_comma forwarded)).
  split.
  { unfold Security.extractClientIp, ret. rewrite Hf, Ht. reflexivity. }
  split; [reflexivity|].
  unfold JsString.trim, JsString.before_comma, JsString.existsb.
  rewrite !chars_of_chars.
  set (l := JsString.take_until (fun c => Ascii.eqb c ","%char)
              (JsString.chars forwarded)).
  set (l1 := JsString.drop_while JsString.is_space l).
  split; [|split].
  - apply existsb_none, Forall_rev, drop_while_keeps, Forall_rev,
      drop_while_keeps, take_until_stops.
  - intros c. destruct l1 as [|a t] eqn:E; [discriminate|].
    assert (Ha : JsString.is_space a = false).
    { apply (drop_while_hd JsString.is_space l). fold l1. rewrite E.
      reflexivity. }
    cbn [rev]. rewrite (drop_while_snoc _ _ _ Ha), rev_app_distr.
    cbn. intros [= <-]. exact Ha.
  - intros c. rewrite rev_involutive. apply drop_while_hd.
Qed.

Lemma forwarded_address_witness :
  exists ip,
    Security.extractClientIp (request_for "abc123") (world_of empty_db)
    = (Ok (Next (set_clientIp (request_for "abc123") (Some ip))),
       world_of empty_db)
    /\ ip = JsString.trim (JsString.before_comma "203.0.113.9, 10.0.0.1")
    /\ JsString.existsb (fun c => Ascii.eqb c ","%char) ip = false
    /\ (forall c, hd_error (JsString.chars ip) = Some c ->
                  JsString.is_space c = false)
    /\ (forall c, hd_error (rev (JsString.chars ip)) = Some c ->
                  JsString.is_space c = false).
Proof.
  apply (forwarded_address_is_trimmed_first_entry (request_for "abc123")
           "203.0.113.9, 10.0.0.1" (world_of empty_db)).
  - reflexivity.
  - discriminate.
Defined.

(** ** Deleting, then resolving *)

Lemma same_code_same_link (l : list UrlRecord.t) (u v : UrlRecord.t) :
  NoDup (map UrlRecord.short_url l) ->
  In u l -> In v l ->
  UrlRecord.short_url u = UrlRecord.short_url v -> u = v.
Proof.
  induction l as [|a l IH]; simpl; [intros _ []|].
  intros Hnd Hu Hv E. apply NoDup_cons_iff in Hnd as [Ha Hnd].
  destruct Hu as [->|Hu], Hv as [->|Hv]; auto.
  - exfalso. apply Ha. rewrite E. apply in_map, Hv.
  - exfalso. apply Ha. rewrite <- E. apply in_map, Hu.
Qed.

Section DeleteResolve.
Context {RT : Runtime}.

(** X22. In a well-formed store where no two links share a code, once
    the link a code resolves to has been deleted with [deleteUrl], the
    code answers 404 and is free again for the generators. *)
Theorem deleted_link_is_not_found (Click : ClickModel) (req : Request)
    (code : string) (u : UrlRecord.t) (w : World) :
  params_shortCode req = Some code ->
  Security.validShortCodeRegex code = true ->
  wf_store (db w) ->
  NoDup (map UrlRecord.short_url (JsMap.values (urls (db w)))) ->
  Database.lookup_short_code (db w) code = Some u ->
  exists w1 w2,
    Database.deleteUrl (KNum (UrlRecord.id u)) w = (Ok true, w1)
    /\ taken (db w1) code = false
    /\ Routes.get_shortCode Click req w1
       = (Ok (Json 404 "URL not found"
                "The shortened URL you requested does not exist"), w2).
Proof.
  intros Hp Hv [Hnd Hid] Hcodes Hl.
  destruct (found_by_code_is_under_its_id (urls (db w)) code u Hnd Hid Hl)
    as [Hget _].
  pose proof (get_in _ _ _ Hget) as Hin.
  pose proof (find_some _ _ Hl) as [Hu_in Hu_code].
  apply String.eqb_eq in Hu_code.
  eexists. 
  assert (Hrun : Database.deleteUrl (KNum (UrlRecord.id u)) w
                 = (Ok true,
                    snd (Database.deleteUrl (KNum (UrlRecord.id u)) w))).
  { unfold Database.deleteUrl, bind, record_call, get_db, put_db, ret.
    cbn [db JsMap.delete snd fst]. unfold JsMap.has. rewrite Hget.
    reflexivity. }
  assert (Hnone : Database.lookup_short_code
                    (db (snd (Database.deleteUrl (KNum (UrlRecord.id u)) w)))
                    code = None).
  { unfold Database.lookup_short_code, JsMap.values.
    cbn [Database.deleteUrl bind record_call get_db put_db ret db snd
         JsMap.delete urls].
    apply find_absent. intros v Hv_in.
    apply in_map_iff in Hv_in as ([k v'] & Hsnd & Hkv). cbn in Hsnd. subst v'.
    apply filter_In in Hkv as [Hkv Hk]. cbn [fst] in Hk.
    apply negb_true_iff, Nat.eqb_neq in Hk.
    destruct (String.eqb_spec (UrlRecord.short_url v) code) as [E|E];
      [|reflexivity].
    exfalso. apply Hk.
    assert (Hvu : v = u).
    { apply (same_code_same_link _ v u Hcodes).
      - apply in_map_iff. exists (k, v). auto.
      - exact Hu_in.
      - congruence. }
    subst v. rewrite Forall_forall in Hid. apply (Hid _ Hkv). }
  eexists. split; [exact Hrun|]. split.
  - unfold taken. rewrite Hnone. apply andb_false_r.
  - rewrite (get_shortCode_valid Click req code _ Hp Hv).
    unfold Routes.redirect_handler, try_catch, bind.
    cbn [params_shortCode set_clientIp]. rewrite Hp. fold (by_short_url code).
    rewrite (findOne_by_code code _ (valid_code_truthy code Hv)), Hnone.
    reflexivity.
Qed.

End DeleteResolve.

Lemma deleted_link_witness :
  exists w1 w2,
    Database.deleteUrl (KNum 1) (world_of live_db)
    = (Ok true, w1)
    /\ taken (db w1) "abc123" = false
    /\ @Routes.get_shortCode fixed_runtime failing_Click
         (request_for "abc123") w1
       = (Ok (Json 404 "URL not found"
                "The shortened URL you requested does not exist"), w2).
Proof.
  apply (@deleted_link_is_not_found fixed_runtime failing_Click
           (request_for "abc123") "abc123"
           (link 1 "https://example.com/a" "abc123" true None)
           (world_of live_db)); try reflexivity.
  - split; cbn; repeat constructor. intros [].
  - cbn. repeat constructor. intros [].
Defined.

(** ** Options that leave no alphabet *)

Section EmptyAlphabet.
Context {RT : Runtime}.

Lemma customAlgorithm_loop_empty (n : nat) (w : World) :
  exists w',
    UrlService.customAlgorithm_loop n "" "" w = (Ok "", w')
    /\ only_draws w w'.
Proof.
  revert w. induction n as [|n IH]; intros w.
  - exists w. split; [reflexivity|apply only_draws_refl].
  - cbn [UrlService.customAlgorithm_loop]. unfold bind.
    destruct (Math_random_draws w) as (r & w1 & Hr & _ & Hd1). rewrite Hr.
    assert (E : "" ++ JsString.charAt "" (floor_mul r (String.length ""))
                = "").
    { unfold JsString.charAt.
      destruct (floor_mul r (String.length "") <? 0)%Z; [reflexivity|].
      destruct (Z.to_nat (floor_mul r (String.length ""))); reflexivity. }
    rewrite E. destruct (IH w1) as (w' & Hloop & Hd).
    exists w'. split; [exact Hloop|].
    eapply only_draws_trans; eassumption.
Qed.

(** X23. With the three character classes switched off in
    [custom_options], code generation of POST /v1/shorten returns the
    empty code for every store and every requested length, without a
    single lookup: [Url.findOne] treats the empty code as no condition
    and reports no link. *)
Theorem classless_options_yield_empty_code (custom_options : CustomOptions.t)
    (normalizedUrl : string) (w : World) :
  some_class custom_options = false ->
  0 < CustomOptions.keys_length custom_options ->
  exists w',
    Routes.v1_generate "custom" custom_options normalizedUrl w = (Ok "", w')
    /\ store_calls w' = store_calls w
    /\ db w' = db w.
Proof.
  intros Hnone Hkeys.
  assert (Halpha : alphabet_of custom_options = "").
  { unfold some_class in Hnone. unfold alphabet_of.
    apply orb_false_iff in Hnone as [Hnone Hl].
    apply orb_false_iff in Hnone as [Hn Hu].
    rewrite Hn, Hu, Hl.
    destruct (UrlService.default true
                (CustomOptions.excludeSimilar custom_options)); reflexivity. }
  assert (Hcond : String.eqb "custom" "custom"
                  && (0 <? CustomOptions.keys_length custom_options)%nat
                  = true).
  { apply Nat.ltb_lt in Hkeys. rewrite Hkeys. reflexivity. }
  unfold Routes.v1_generate. rewrite Hcond.
  unfold bind, UrlService.customAlgorithm. cbv zeta.
  change (UrlService.alphabet _ _ _ _) with (alphabet_of custom_options).
  rewrite Halpha.
  destruct (customAlgorithm_loop_empty
              (UrlService.iterations
                 (UrlService.default 7%Q
                    (CustomOptions.length custom_options))) w)
    as (w' & Hloop & Hdb & _ & Hcalls).
  rewrite Hloop. exists w'. split; [reflexivity|]. split; assumption.
Qed.

End EmptyAlphabet.

Lemma classless_options_witness :
  exists w',
    @Routes.v1_generate fixed_runtime "custom" no_classes
      "https://example.com/a" (world_of crowded_db) = (Ok "", w')
    /\ store_calls w' = []
    /\ db w' = crowded_db.
Proof.
  apply (@classless_options_yield_empty_code fixed_runtime no_classes
           "https://example.com/a" (world_of crowded_db)).
  - reflexivity.
  - cbn. lia.
Defined.
